(** * Conntrack netlink consumer: receive loop, throttling and peer-namespace test

    A shallow embedding of the [Consumer] of the conntrack netlink package
    (package [internal]: [initNetlinkSocket], [receive], [eventFor],
    [throttle], [socketError], [isPeerNS]) together with the properties its
    specification states about them.

    The Go code is stateful and talks to the kernel.  The embedding threads
    two pieces of state explicitly: the [Consumer] struct itself and a
    [World] holding what lies outside of it (the sockets opened and closed,
    the output channel, and the outcomes of the system calls, given as
    oracles).  A Go panic is an outcome of its own. *)

From Stdlib Require Import ZArith List String Ascii Bool Lia.
From Stdlib.Strings Require Import Byte.
From Stdlib Require Import Floats Uint63.
From Stdlib Require Import QArith.
Import ListNotations.

Local Open Scope string_scope.
Local Open Scope Z_scope.

(** ** Machine integers *)

Module Int.

(** [int64] values are kept in [Z]; an addition wraps around as
    [atomic.AddInt64] does. *)
Definition min_int64 : Z := - 2 ^ 63.
Definition max_int64 : Z := 2 ^ 63 - 1.

Definition wrap64 (z : Z) : Z := (z + 2 ^ 63) mod 2 ^ 64 - 2 ^ 63.

Definition add64 (a b : Z) : Z := wrap64 (a + b).

(** [uint32] arithmetic: [x++] on a [uint32]. *)
Definition wrap32 (z : Z) : Z := z mod 2 ^ 32.

Definition incr32 (z : Z) : Z := wrap32 (z + 1).

(** [int32(v)] for a [uint32] value [v]: the same 32 bits read as two's
    complement. *)
Definition int32_of_uint32 (v : Z) : Z :=
  if wrap32 v <? 2 ^ 31 then wrap32 v else wrap32 v - 2 ^ 32.

End Int.

(** ** float64 *)

Module Float64.

Local Open Scope float_scope.

(** The untyped constants of the source, as the binary64 values the
    compiler gives them. [0.95] is not representable: its nearest binary64
    neighbour is written out. *)
Definition overshootFactor : float := 0x1.e666666666666p-1.
Definition one : float := 1.0.
Definition hundred : float := 100.0.

(** [float64(n)] for an integer [n] in the [int64] range (round to nearest
    even, as the hardware conversion does). *)
Definition of_int (n : Z) : float :=
  if (n =? Int.min_int64)%Z then - 0x1p63
  else if (n <? 0)%Z then - of_uint63 (Uint63.of_Z (- n))
  else of_uint63 (Uint63.of_Z n).

(** The integer a finite binary64 value truncates to (fraction discarded,
    towards zero), and [None] for NaN and the infinities. *)
Definition truncate (x : float) : option Z :=
  match Prim2SF x with
  | S754_zero _ => Some 0%Z
  | S754_finite s m e =>
      let a := Z.shiftl (Zpos m) e in Some (if s then (- a)%Z else a)
  | S754_infinity _ | S754_nan => None
  end.

(** [int64(x)]: Go discards the fraction.  When the value does not fit the
    result is implementation-specific; amd64's [CVTTSD2SQ] yields the
    "integer indefinite" value [-2^63], which is what is modelled. *)
Definition to_int64 (x : float) : Z :=
  match truncate x with
  | Some z => if ((Int.min_int64 <=? z) && (z <=? Int.max_int64))%Z%bool
              then z else Int.min_int64
  | None => Int.min_int64
  end.

(** [x >= y] on float64 (false when either side is NaN). *)
Definition geb (x y : float) : bool := y <=? x.

(** Rounding to the nearest integer, as the specification words it
    ([round]): halves go away from zero, as Go's [math.Round] does.  It is
    only used to compare the stored percentage with what the
    specification says. *)
Definition round_nearest (x : float) : option Z :=
  match Prim2SF x with
  | S754_zero _ => Some 0%Z
  | S754_finite s m e =>
      (* |x| = m * 2^e, and for e < 0
         floor (|x| + 1/2) = floor ((2 m + 2^-e) / 2^(1-e)) *)
      let a := if (0 <=? e)%Z then (Zpos m * 2 ^ e)%Z
               else ((2 * Zpos m + 2 ^ (- e)) / 2 ^ (1 - e))%Z in
      Some (if s then (- a)%Z else a)
  | S754_infinity _ | S754_nan => None
  end.

End Float64.

(** ** Errors *)

(** A Go [error] is modelled by its message ([err.Error()]); [None] is
    [nil]. *)
Definition error : Type := string.

(** [strings.Contains(s, substr)]. *)
Definition Contains (s substr : string) : bool :=
  match index 0 substr s with
  | Some _ => true
  | None => false
  end.

(** [fmt.Errorf("<prefix>: %w", err)]. *)
Definition wrapError (prefix : string) (err : error) : error :=
  prefix ++ ": " ++ err.

(** What [socketError] returns: one of the two package-level sentinel
    errors, or the error it was given. *)
Inductive SocketError : Type :=
| errEOF
| errENOBUF
| errOther (err : error).

Definition socketError (err : error) : SocketError :=
  if Contains err "closed file" then errEOF
  else if Contains err "no buffer space" then errENOBUF
  else errOther err.

(** ** Netlink messages

    The types and constants the package takes from its netlink library
    ([netlink.Message], [netlink.Header], the header types and flags) and
    from [unix]. *)

Module netlink.

Record Header : Type := mkHeader {
  Length : Z;     (* uint32 *)
  Type_ : Z;      (* HeaderType, uint16 *)
  Flags : Z;      (* HeaderFlags, uint16 *)
  Sequence : Z;   (* uint32 *)
  PID : Z         (* uint32 *)
}.

Record Message : Type := mkMessage {
  Header_ : Header;
  Data : list byte
}.

(** Header types. *)
Definition Noop : Z := 1.
Definition Error : Z := 2.
Definition Done : Z := 3.
Definition Overrun : Z := 4.

(** Header flags. *)
Definition Request : Z := 1.
Definition Dump : Z := 768.

End netlink.

Module unix.
Definition AF_UNSPEC : byte := x00.
Definition RTM_GETNSID : Z := 90.
Definition NETNSA_NSID : Z := 1.
Definition NETNSA_FD : Z := 3.
End unix.

Import netlink.

(** [netlinkCtNew]: the multicast group of new-connection events. *)
Definition netlinkCtNew : Z := 1.

(** [netlinkBufferSize]: the receive buffer requested for the socket. *)
Definition netlinkBufferSize : Z := 1024 * 1024.

(** ** Collaborators

    The circuit breaker, the per-message check and the attribute codec are
    used by the consumer but defined elsewhere; the consumer is verified
    against their interfaces. *)

(** The circuit breaker as the consumer uses it.  [B] is the breaker's
    whole state, clock included. *)
Class CircuitBreaker (B : Type) : Type := {
  NewCircuitBreaker : Z -> B;
  Tick : B -> Z -> B;
  IsOpen : B -> bool;
  Rate : B -> Z;
  Reset : B -> B
}.

(** The netlink attribute encoder and decoder of the netlink library, as
    [isPeerNS] uses them.  A decoder value is the decoder's state; [Next]
    returns the advanced decoder, or [None] where Go's [Next] returns
    false.  The library's decoder walks a finite byte slice, which
    [remaining] and [Next_decreases] record: every successful [Next] uses
    up some of it. *)
Module Attr.

Class Codec (D : Type) : Type := {
  (** [e := NewAttributeEncoder(); e.Uint32(typ, v); e.Encode()] *)
  EncodeUint32 : Z -> Z -> list byte + error;
  NewAttributeDecoder : list byte -> D + error;
  Type_ : D -> Z;
  Uint32 : D -> Z;
  Next : D -> option D;
  remaining : D -> nat;
  Next_decreases :
    forall d d', Next d = Some d' -> (remaining d' < remaining d)%nat
}.

End Attr.

(** ** The consumer and its surroundings *)

(** Sockets and pooled buffers are identified by numbers. *)
Definition SocketId : Type := nat.
Definition Buffer : Type := nat.

(** [Consumer].  [conn] and [socket] are pointers: [None] is nil.  The
    buffer pool is left to the environment, which hands a buffer to every
    iteration of the receive loop. *)
Record Consumer (B : Type) : Type := mkConsumer {
  conn : option SocketId;
  socket : option SocketId;
  procRoot : string;
  targetRateLimit : Z;
  samplingRate : float;
  breaker : B;
  streaming : bool;
  enobufs : Z;
  throttles : Z;
  samplingPct : Z;
  readErrors : Z;
  msgErrors : Z;
  netlinkSeqNumber : Z;
  listenAllNamespaces : bool;
  recvLoopRunning : Z
}.

Arguments mkConsumer {B}.
Arguments conn {B}.
Arguments socket {B}.
Arguments procRoot {B}.
Arguments targetRateLimit {B}.
Arguments samplingRate {B}.
Arguments breaker {B}.
Arguments streaming {B}.
Arguments enobufs {B}.
Arguments throttles {B}.
Arguments samplingPct {B}.
Arguments readErrors {B}.
Arguments msgErrors {B}.
Arguments netlinkSeqNumber {B}.
Arguments listenAllNamespaces {B}.
Arguments recvLoopRunning {B}.

(** [Event]: the result of one read of the socket. *)
Record Event : Type := mkEvent {
  msgs : list Message;
  netns : Z;          (* int32 *)
  buffer : Buffer
}.

(** Socket options the consumer sets. *)
Inductive SockOpt : Type :=
| SO_RCVBUFFORCE
| NETLINK_LISTEN_ALL_NSID.

(** What the consumer does to the outside, in the order it does it. *)
Inductive Action : Type :=
| ActOpen (s : SocketId)
| ActSetsockopt (s : SocketId) (opt : SockOpt) (v : Z)
| ActSetBPF (s : SocketId) (rate : float)
| ActJoinGroup (s : SocketId) (group : Z)
| ActClose (s : SocketId)
| ActRequest (m : Message).

(** How opening a socket in the root namespace ([WithRootNS] around
    [NewSocket]) can end: the socket is there; the namespace could not be
    entered, and the closure never ran; or [NewSocket] failed inside the
    closure, which stored its nil socket. *)
Inductive OpenOutcome : Type :=
| Opened
| NsFailed (err : error)
| SocketFailed (err : error).

(** The outcomes of the system calls, by the number of the socket they are
    made on. *)
Record Kernel : Type := mkKernel {
  openSocket : SocketId -> OpenOutcome;
  setBPF : SocketId -> option error;
  joinGroup : SocketId -> option error
}.

(** What lies outside of the consumer: the actions so far (oldest first),
    the events put on the output channel (oldest first; the channel's
    capacity, and with it blocking, is not modelled), whether the channel
    was closed, and the number of sockets asked for so far. *)
Record World : Type := mkWorld {
  trace : list Action;
  output : list Event;
  closed : bool;
  sockets : nat
}.

Record State (B : Type) : Type := mkState {
  cons : Consumer B;
  world : World
}.

Arguments mkState {B}.
Arguments cons {B}.
Arguments world {B}.

(** ** A state monad with panics

    A computation ends with a value and a state, or in a Go panic, or not
    at all; the last is what a loop that is given fuel yields when the
    fuel runs out. *)

Inductive Res (S A : Type) : Type :=
| Ok (a : A) (s : S)
| Panic (reason : string)
| Diverges.

Arguments Ok {S A}.
Arguments Panic {S A}.
Arguments Diverges {S A}.

Definition M (S A : Type) : Type := S -> Res S A.

Definition ret {S A} (a : A) : M S A := fun s => Ok a s.

Definition bind {S A A'} (m : M S A) (k : A -> M S A') : M S A' :=
  fun s =>
    match m s with
    | Ok a s' => k a s'
    | Panic r => Panic r
    | Diverges => Diverges
    end.

Definition panic {S A} (reason : string) : M S A := fun _ => Panic reason.

Declare Scope monad_scope.
Delimit Scope monad_scope with monad.
Notation "x <- m ;; k" := (bind m (fun x => k))
  (at level 61, m at next level, right associativity) : monad_scope.
Notation "m ;; k" := (bind m (fun _ => k))
  (at level 61, right associativity) : monad_scope.
Local Open Scope monad_scope.

(** ** Field updates of the consumer *)

Section Updates.

Context {B : Type}.

Definition set_conn (v : option SocketId) (c : Consumer B) : Consumer B :=
  mkConsumer v (socket c) (procRoot c) (targetRateLimit c) (samplingRate c)
    (breaker c) (streaming c) (enobufs c) (throttles c) (samplingPct c)
    (readErrors c) (msgErrors c) (netlinkSeqNumber c)
    (listenAllNamespaces c) (recvLoopRunning c).

Definition set_socket (v : option SocketId) (c : Consumer B) : Consumer B :=
  mkConsumer (conn c) v (procRoot c) (targetRateLimit c) (samplingRate c)
    (breaker c) (streaming c) (enobufs c) (throttles c) (samplingPct c)
    (readErrors c) (msgErrors c) (netlinkSeqNumber c)
    (listenAllNamespaces c) (recvLoopRunning c).

Definition set_samplingRate (v : float) (c : Consumer B) : Consumer B :=
  mkConsumer (conn c) (socket c) (procRoot c) (targetRateLimit c) v
    (breaker c) (streaming c) (enobufs c) (throttles c) (samplingPct c)
    (readErrors c) (msgErrors c) (netlinkSeqNumber c)
    (listenAllNamespaces c) (recvLoopRunning c).

Definition set_breaker (v : B) (c : Consumer B) : Consumer B :=
  mkConsumer (conn c) (socket c) (procRoot c) (targetRateLimit c)
    (samplingRate c) v (streaming c) (enobufs c) (throttles c)
    (samplingPct c) (readErrors c) (msgErrors c) (netlinkSeqNumber c)
    (listenAllNamespaces c) (recvLoopRunning c).

Definition set_streaming (v : bool) (c : Consumer B) : Consumer B :=
  mkConsumer (conn c) (socket c) (procRoot c) (targetRateLimit c)
    (samplingRate c) (breaker c) v (enobufs c) (throttles c)
    (samplingPct c) (readErrors c) (msgErrors c) (netlinkSeqNumber c)
    (listenAllNamespaces c) (recvLoopRunning c).

Definition set_enobufs (v : Z) (c : Consumer B) : Consumer B :=
  mkConsumer (conn c) (socket c) (procRoot c) (targetRateLimit c)
    (samplingRate c) (breaker c) (streaming c) v (throttles c)
    (samplingPct c) (readErrors c) (msgErrors c) (netlinkSeqNumber c)
    (listenAllNamespaces c) (recvLoopRunning c).

Definition set_throttles (v : Z) (c : Consumer B) : Consumer B :=
  mkConsumer (conn c) (socket c) (procRoot c) (targetRateLimit c)
    (samplingRate c) (breaker c) (streaming c) (enobufs c) v
    (samplingPct c) (readErrors c) (msgErrors c) (netlinkSeqNumber c)
    (listenAllNamespaces c) (recvLoopRunning c).

Definition set_samplingPct (v : Z) (c : Consumer B) : Consumer B :=
  mkConsumer (conn c) (socket c) (procRoot c) (targetRateLimit c)
    (samplingRate c) (breaker c) (streaming c) (enobufs c) (throttles c)
    v (readErrors c) (msgErrors c) (netlinkSeqNumber c)
    (listenAllNamespaces c) (recvLoopRunning c).

Definition set_readErrors (v : Z) (c : Consumer B) : Consumer B :=
  mkConsumer (conn c) (socket c) (procRoot c) (targetRateLimit c)
    (samplingRate c) (breaker c) (streaming c) (enobufs c) (throttles c)
    (samplingPct c) v (msgErrors c) (netlinkSeqNumber c)
    (listenAllNamespaces c) (recvLoopRunning c).

Definition set_msgErrors (v : Z) (c : Consumer B) : Consumer B :=
  mkConsumer (conn c) (socket c) (procRoot c) (targetRateLimit c)
    (samplingRate c) (breaker c) (streaming c) (enobufs c) (throttles c)
    (samplingPct c) (readErrors c) v (netlinkSeqNumber c)
    (listenAllNamespaces c) (recvLoopRunning c).

Definition set_netlinkSeqNumber (v : Z) (c : Consumer B) : Consumer B :=
  mkConsumer (conn c) (socket c) (procRoot c) (targetRateLimit c)
    (samplingRate c) (breaker c) (streaming c) (enobufs c) (throttles c)
    (samplingPct c) (readErrors c) (msgErrors c) v
    (listenAllNamespaces c) (recvLoopRunning c).

Definition set_recvLoopRunning (v : Z) (c : Consumer B) : Consumer B :=
  mkConsumer (conn c) (socket c) (procRoot c) (targetRateLimit c)
    (samplingRate c) (breaker c) (streaming c) (enobufs c) (throttles c)
    (samplingPct c) (readErrors c) (msgErrors c) (netlinkSeqNumber c)
    (listenAllNamespaces c) v.

(** The primitive steps of the monad over [State B]. *)

Definition getC : M (State B) (Consumer B) := fun s => Ok (cons s) s.

Definition modC (f : Consumer B -> Consumer B) : M (State B) unit :=
  fun s => Ok tt (mkState (f (cons s)) (world s)).

Definition act (a : Action) : M (State B) unit :=
  fun s =>
    let w := world s in
    Ok tt (mkState (cons s) (mkWorld (trace w ++ [a])%list (output w) (closed w) (sockets w))).

(** [output <- e]. *)
Definition send (e : Event) : M (State B) unit :=
  fun s =>
    let w := world s in
    Ok tt (mkState (cons s) (mkWorld (trace w) (output w ++ [e])%list (closed w) (sockets w))).

(** The state after the event [e] was put on the channel. *)
Definition sent (e : Event) (s : State B) : State B :=
  mkState (cons s)
    (mkWorld (trace (world s)) (output (world s) ++ [e])%list
       (closed (world s)) (sockets (world s))).

(** [close(output)]. *)
Definition closeOutput : M (State B) unit :=
  fun s =>
    let w := world s in
    Ok tt (mkState (cons s) (mkWorld (trace w) (output w) true (sockets w))).

(** The number of the next socket asked for. *)
Definition nextSocket : M (State B) SocketId :=
  fun s =>
    let w := world s in
    Ok (sockets w) (mkState (cons s) (mkWorld (trace w) (output w) (closed w) (S (sockets w)))).

(** [atomic.AddInt64(&c.<counter>, 1)] for the telemetry counters. *)
Definition incr_enobufs (c : Consumer B) : Consumer B :=
  set_enobufs (Int.add64 (enobufs c) 1) c.
Definition incr_readErrors (c : Consumer B) : Consumer B :=
  set_readErrors (Int.add64 (readErrors c) 1) c.
Definition incr_msgErrors (c : Consumer B) : Consumer B :=
  set_msgErrors (Int.add64 (msgErrors c) 1) c.
Definition incr_throttles (c : Consumer B) : Consumer B :=
  set_throttles (Int.add64 (throttles c) 1) c.

End Updates.

(** What the error switch of [ReadLoop] does to the counters, for the error
    of a read that does not end the loop. *)
Definition countError {B} (err : option error) (c : Consumer B) : Consumer B :=
  match err with
  | None => c
  | Some e =>
      match socketError e with
      | errEOF => c
      | errENOBUF => incr_enobufs c
      | errOther _ => incr_readErrors c
      end
  end.

(** The read's error, if any, is not classified EOF. *)
Definition notEOF (err : option error) : Prop :=
  forall e, err = Some e -> Contains e "closed file" = false.

(** What [initNetlinkSocket] and [throttle] leave alone: the output
    channel, the [streaming] flag, the target rate and the counters of the
    receive loop. *)
Definition sameLoopState {B} (s s' : State B) : Prop :=
  output (world s') = output (world s) /\
  closed (world s') = closed (world s) /\
  streaming (cons s') = streaming (cons s) /\
  enobufs (cons s') = enobufs (cons s) /\
  readErrors (cons s') = readErrors (cons s) /\
  msgErrors (cons s') = msgErrors (cons s) /\
  netlinkSeqNumber (cons s') = netlinkSeqNumber (cons s).

(** [GetStats]: the telemetry of the consumer, by key. *)
Definition GetStats {B} (c : Consumer B) : list (string * Z) :=
  [ ("enobufs", enobufs c);
    ("throttles", throttles c);
    ("sampling_pct", samplingPct c);
    ("read_errors", readErrors c);
    ("msg_errors", msgErrors c) ].

(** [NewConsumer]. *)
Definition NewConsumer {B} `{CircuitBreaker B}
    (procRoot : string) (targetRateLimit : Z) (listenAllNamespaces : bool)
    : Consumer B :=
  mkConsumer None None procRoot targetRateLimit 0%float
    (NewCircuitBreaker targetRateLimit) false 0 0 0 0 0 1
    listenAllNamespaces 0.

(** The world before the consumer did anything. *)
Definition emptyWorld : World := mkWorld [] [] false 0.

(** ** The consumer's operations *)

(** How one iteration of the receive loop ends. *)
Inductive Ctl : Type :=
| Continue    (* next iteration of ReadLoop *)
| Return.     (* receive returns *)

(** What [c.socket.ReceiveInto( *buffer)] gave in one iteration, with the
    buffer the pool handed out for it. *)
Record Received : Type := mkReceived {
  rbuffer : Buffer;
  rmsgs : list Message;
  rnetns : Z;
  rerr : option error
}.

(** How a run of [receive] over finitely many reads ends: it returned, or it
    is blocked in [ReceiveInto] waiting for the next read. *)
Inductive LoopEnd : Type :=
| Returned
| Waiting.

(** The reply to the [RTM_GETNSID] request of [isPeerNS], as the control
    connection gives it: the error of [Send], and the messages and the error
    of [Receive]. *)
Record Reply : Type := mkReply {
  sendErr : option error;
  recvMsgs : list Message;
  recvErr : option error
}.

Section ConsumerOps.

Context {B : Type} `{CircuitBreaker B}.
Context {D : Type} `{Attr.Codec D}.

(** [pre315Kernel]: set once, at package initialisation. *)
Variable pre315Kernel : bool.

(** [checkMessage]: the per-message validation, [None] for a message that
    passes. *)
Variable checkMessage : Message -> option error.

Variable kernel : Kernel.

Local Abbreviation St := (State B).

(** [eventFor]. *)
Definition eventFor (ms : list Message) (ns : Z) (buf : Buffer) : Event :=
  mkEvent ms ns buf.

(** [initNetlinkSocket]. Log lines, and the read-back of [SO_RCVBUF] that
    only feeds one, are left out; the errors of the two [SetSockoptInt]
    calls are only logged by the source. *)
Definition initNetlinkSocket (rate : float) : M St (option error) :=
  id <- nextSocket ;;
  match openSocket kernel id with
  | NsFailed err => ret (Some err)
  | SocketFailed err => modC (set_socket None) ;; ret (Some err)
  | Opened =>
      act (ActOpen id) ;;
      modC (set_socket (Some id)) ;;
      modC (set_conn (Some id)) ;;
      act (ActSetsockopt id SO_RCVBUFFORCE netlinkBufferSize) ;;
      c <- getC ;;
      (if listenAllNamespaces c
       then act (ActSetsockopt id NETLINK_LISTEN_ALL_NSID 1)
       else ret tt) ;;
      (* Attach BPF sampling filter if necessary *)
      modC (set_samplingRate rate) ;;
      modC (set_samplingPct (Float64.to_int64 (rate * Float64.hundred)%float)) ;;
      c <- getC ;;
      if Float64.geb (samplingRate c) Float64.one then ret None
      else
        act (ActSetBPF id (samplingRate c)) ;;
        match setBPF kernel id with
        | Some err =>
            modC (set_samplingPct 0) ;;
            ret (Some (wrapError "failed to attach BPF filter" err))
        | None => ret None
        end
  end.

(** [c.conn.Close()]: a method call through a nil pointer panics. *)
Definition closeConn : M St unit :=
  c <- getC ;;
  match conn c with
  | Some id => act (ActClose id)
  | None => panic "nil pointer dereference"
  end.

(** [c.conn.JoinGroup(group)]. *)
Definition connJoinGroup (group : Z) : M St (option error) :=
  c <- getC ;;
  match conn c with
  | Some id => act (ActJoinGroup id group) ;; ret (joinGroup kernel id)
  | None => panic "nil pointer dereference"
  end.

(** The sampling rate [throttle] computes after a trip. *)
Definition throttledRate (c : Consumer B) : float :=
  ((Float64.of_int (targetRateLimit c) / Float64.of_int (Rate (breaker c)))
   * samplingRate c * Float64.overshootFactor)%float.

(** The specification's formula [(target_rate / observed_rate) * s *
    0.95], read in exact rational arithmetic; [throttledRate] is what the
    code computes for it in float64. *)
Definition scaledRateQ (t r : Z) (s : Q) : Q :=
  (inject_Z t / inject_Z r * s * (95 # 100))%Q.

(** [throttle]. *)
Definition throttle (numMessages : Z) : M St (option error) :=
  c <- getC ;;
  (* We don't throttle the socket during initialization *)
  if negb (streaming c) then ret None
  else
    modC (fun c => set_breaker (Tick (breaker c) numMessages) c) ;;
    c <- getC ;;
    if negb (IsOpen (breaker c)) then ret None
    else
      modC incr_throttles ;;
      if pre315Kernel then
        (* Reset circuit breaker *)
        modC (fun c => set_breaker (Reset (breaker c)) c) ;;
        ret None
      else
        (* Close current socket *)
        closeConn ;;
        modC (set_conn None) ;;
        (* Create new socket with the desired sampling rate *)
        c <- getC ;;
        err <- initNetlinkSocket (throttledRate c) ;;
        match err with
        | Some e => ret (Some e)
        | None =>
            (* Reset circuit breaker *)
            modC (fun c => set_breaker (Reset (breaker c)) c) ;;
            (* Re-subscribe netlinkCtNew messages *)
            connJoinGroup netlinkCtNew
        end.

(** The validation walk of [receive]: does some message fail
    [checkMessage]?  (The walk stops at the first one that does.) *)
Fixpoint anyInvalid (ms : list Message) : bool :=
  match ms with
  | [] => false
  | m :: ms' =>
      match checkMessage m with
      | Some _ => true
      | None => anyInvalid ms'
      end
  end.

(** [len(msgs) > 0 && msgs[len(msgs)-1].Header.Type == netlink.Done]. *)
Definition multiPartDone (ms : list Message) : bool :=
  match ms with
  | [] => false
  | m :: ms' => Type_ (Header_ (last ms' m)) =? netlink.Done
  end.

(** The event an iteration puts on the channel for what it received. *)
Definition emitted (r : Received) : Event :=
  eventFor (if multiPartDone (rmsgs r) then removelast (rmsgs r) else rmsgs r)
    (rnetns r) (rbuffer r).

(** The end of an iteration of [ReadLoop]: the multi-part "done" message is
    skipped, the event is put on the channel, and a dump terminates after
    the multi-part message. *)
Definition emitBatch (r : Received) : M St Ctl :=
  (* Skip multi-part "done" messages *)
  let done := multiPartDone (rmsgs r) in
  let ms := if done then removelast (rmsgs r) else rmsgs r in
  send (eventFor ms (rnetns r) (rbuffer r)) ;;
  c <- getC ;;
  (* If we're doing a conntrack dump we terminate after reading the
     multi-part message *)
  if done && negb (streaming c) then ret Return else ret Continue.

(** The validation walk and what follows it: messages with error codes
    make the loop skip to the next read ([continue ReadLoop]). *)
Definition validateBatch (r : Received) : M St Ctl :=
  if anyInvalid (rmsgs r) then
    modC incr_msgErrors ;; ret Continue
  else emitBatch r.

(** The part of an iteration of [ReadLoop] that follows the
    classification of the error: throttle, then validate and emit. *)
Definition deliver (r : Received) : M St Ctl :=
  terr <- throttle (Z.of_nat (List.length (rmsgs r))) ;;
  match terr with
  | Some _ => ret Return
  | None => validateBatch r
  end.

(** One iteration of [ReadLoop], given what [ReceiveInto] returned. *)
Definition receiveOnce (r : Received) : M St Ctl :=
  match rerr r with
  | Some err =>
      match socketError err with
      | errEOF => ret Return
      | errENOBUF => modC incr_enobufs ;; deliver r
      | errOther _ => modC incr_readErrors ;; deliver r
      end
  | None => deliver r
  end.

(** [ReadLoop], over the reads the socket delivers: each iteration is
    given what [c.socket.ReceiveInto] returned; the call itself, through
    the pointer [c.socket], is not part of it. *)
Fixpoint ReadLoop (rs : list Received) : M St LoopEnd :=
  match rs with
  | [] => ret Waiting
  | r :: rs' =>
      ctl <- receiveOnce r ;;
      match ctl with
      | Return => ret Returned
      | Continue => ReadLoop rs'
      end
  end.

(** [receive]: raises [recvLoopRunning], runs the loop, and lowers the
    flag when the loop returns. *)
Definition receive (rs : list Received) : M St LoopEnd :=
  modC (set_recvLoopRunning 1) ;;
  e <- ReadLoop rs ;;
  match e with
  | Returned => modC (set_recvLoopRunning 0) ;; ret Returned
  | Waiting => ret Waiting
  end.

(** [Events]: the socket is initialised at sampling rate 1.0; then the
    worker sets [streaming], joins the multicast group (ignoring the
    error), runs [receive] over the reads [rs] and closes the channel when
    [receive] returns. *)
Definition Events (rs : list Received) : M St (option error) :=
  err <- initNetlinkSocket Float64.one ;;
  match err with
  | Some e =>
      ret (Some (wrapError "could not initialize conntrack netlink socket" e))
  | None =>
      modC (set_streaming true) ;;
      _ <- connJoinGroup netlinkCtNew ;;
      e <- receive rs ;;
      match e with
      | Returned => closeOutput ;; ret None
      | Waiting => ret None
      end
  end.

(** The attribute scan of [isPeerNS]:
    [for { if decoder.Type() == NETNSA_NSID { return ... };
           if !decoder.Next() { break } }; return false]. *)
Fixpoint scanNSID (fuel : nat) (d : D) : option bool :=
  match fuel with
  | O => None
  | S fuel' =>
      if Attr.Type_ d =? unix.NETNSA_NSID
      then Some (0 <=? Int.int32_of_uint32 (Attr.Uint32 d))
      else match Attr.Next d with
           | Some d' => scanNSID fuel' d'
           | None => Some false
           end
  end.

(** The positions a decoder goes through under repeated [Next], the one it
    starts at included. *)
Fixpoint cursors (fuel : nat) (d : D) : list D :=
  match fuel with
  | O => []
  | S fuel' =>
      d :: match Attr.Next d with
           | Some d' => cursors fuel' d'
           | None => []
           end
  end.

(** The first position of the scan, if any, at which the decoder is at a
    [NETNSA_NSID] attribute. *)
Definition firstNSID (d : D) : option D :=
  find (fun d' => Attr.Type_ d' =? unix.NETNSA_NSID)
    (cursors (S (Attr.remaining d)) d).

(** The query was answered: the request could be encoded and sent, and
    [Receive] returned, without an error, messages of which the first is
    not an error frame. *)
Definition answered (ns : Z) (reply : Reply) : bool :=
  match Attr.EncodeUint32 unix.NETNSA_FD (Int.wrap32 ns),
        sendErr reply, recvErr reply, recvMsgs reply with
  | inl _, None, None, m0 :: _ => negb (Type_ (Header_ m0) =? netlink.Error)
  | _, _, _, _ => false
  end.

(** The request [isPeerNS] builds. *)
Definition nsidRequest (c : Consumer B) (data : list byte) : Message :=
  mkMessage
    (mkHeader 0 unix.RTM_GETNSID netlink.Request (netlinkSeqNumber c) 0)
    ([unix.AF_UNSPEC; x00; x00; x00] ++ data)%list.

(** [isPeerNS], on the control connection whose answers are [reply]. *)
Definition isPeerNS (ns : Z) (reply : Reply) : M St bool :=
  match Attr.EncodeUint32 unix.NETNSA_FD (Int.wrap32 ns) with
  | inr _ => ret false
  | inl data =>
      c <- getC ;;
      act (ActRequest (nsidRequest c data)) ;;
      match sendErr reply with
      | Some _ => ret false
      | None =>
          match recvErr reply with
          | Some _ => ret false
          | None =>
              match recvMsgs reply with
              | [] => panic "index out of range [0] with length 0"
              | m0 :: _ =>
                  if Type_ (Header_ m0) =? netlink.Error then ret false
                  else
                    modC (fun c =>
                      set_netlinkSeqNumber (Int.incr32 (netlinkSeqNumber c)) c) ;;
                    match Attr.NewAttributeDecoder (Data m0) with
                    | inr _ => ret false
                    | inl d =>
                        match scanNSID (S (Attr.remaining d)) d with
                        | Some b => ret b
                        | None => fun _ => Diverges
                        end
                    end
              end
          end
      end
  end.

End ConsumerOps.


(** ** Concrete collaborators

    Instances of the three interfaces, used to run the consumer on concrete
    inputs. *)

(** A circuit breaker for the examples.  The breaker of the package is not
    among the files at hand, and the consumer is verified against its
    interface; this instance is the simplest one that can trip: a counter
    of the messages seen since the last reset, read as the rate of the
    current window, open iff that rate exceeds the target (closed on a
    tie). *)
Module WindowBreaker.

Record t : Type := mk {
  target : Z;
  count : Z
}.

Definition New (maxEventsPerSec : Z) : t := mk maxEventsPerSec 0.

#[global] Instance breaker : CircuitBreaker t := {
  NewCircuitBreaker := New;
  Tick b n := mk (target b) (count b + n);
  IsOpen b := target b <? count b;
  Rate b := count b;
  Reset b := mk (target b) 0
}.

End WindowBreaker.

(** Modelled from the spec: [checkMessage], whose source is not among the
    files at hand; "at minimum it must reject netlink Error-type frames",
    and that is all this one rejects. *)
Definition checkMessageSpec (m : Message) : option error :=
  if Type_ (Header_ m) =? netlink.Error
  then Some "netlink error frame"
  else None.

(** The attribute encoder and decoder, after the netlink library's
    [AttributeEncoder] and [AttributeDecoder] (native byte order, taken to
    be little endian).  The decoder holds the attribute it is at ([a], the
    zero attribute until the first [Next]), the bytes [b], the index [i] of
    the next attribute and whether an error was met. *)
Module NlAttr.

Definition nlaHeaderLen : Z := 4.
Definition attrTypeMask : Z := 16383.

Definition nlaAlign (len : Z) : Z := Z.land (len + 3) (Z.lnot 3).

Definition u8 (x : byte) : Z := Z.of_N (Byte.to_N x).

Definition byteOf (z : Z) : byte :=
  match Byte.of_N (Z.to_N (z mod 256)) with
  | Some x => x
  | None => x00
  end.

Definition uint16 (bs : list byte) : Z :=
  match bs with
  | b0 :: b1 :: _ => u8 b0 + 256 * u8 b1
  | _ => 0
  end.

Definition uint32 (bs : list byte) : Z :=
  match bs with
  | b0 :: b1 :: b2 :: b3 :: _ =>
      u8 b0 + 256 * u8 b1 + 65536 * u8 b2 + 16777216 * u8 b3
  | _ => 0
  end.

Definition putUint16 (v : Z) : list byte :=
  [byteOf v; byteOf (v / 256)].

Definition putUint32 (v : Z) : list byte :=
  [byteOf v; byteOf (v / 256); byteOf (v / 65536); byteOf (v / 16777216)].

Record Attribute : Type := mkAttribute {
  aLength : Z;
  aType : Z;
  aData : list byte
}.

Record Decoder : Type := mkDecoder {
  a : Attribute;
  b : list byte;
  i : nat;
  failed : bool
}.

Definition len (bs : list byte) : Z := Z.of_nat (List.length bs).

(** [b[lo:hi]]. *)
Definition slice (bs : list byte) (lo hi : Z) : list byte :=
  firstn (Z.to_nat (hi - lo)) (skipn (Z.to_nat lo) bs).

(** [Attribute.unmarshal]. *)
Definition unmarshal (bs : list byte) : option Attribute :=
  if len bs <? nlaHeaderLen then None
  else
    let l := uint16 (slice bs 0 2) in
    let t := uint16 (slice bs 2 4) in
    if len bs <? l then None
    else if l =? 0 then Some (mkAttribute l t [])
    else if l <? nlaHeaderLen then None
    else Some (mkAttribute l t (slice bs nlaHeaderLen l)).

(** By how much the decoder moves on over an attribute of declared length
    [l]: at least one header's length. *)
Definition advance (l : Z) : nat :=
  Z.to_nat (if l <? nlaHeaderLen then nlaHeaderLen else nlaAlign l).

(** [AttributeDecoder.available], which [NewAttributeDecoder] runs over the
    whole slice: it fails when fewer bytes than a header are left over. *)
Fixpoint available (fuel : nat) (bs : list byte) : bool :=
  match fuel with
  | O => true
  | S fuel' =>
      match bs with
      | [] => true
      | _ =>
          if len bs <? nlaHeaderLen then false
          else available fuel' (skipn (advance (uint16 (slice bs 0 2))) bs)
      end
  end.

Definition NewAttributeDecoder (bs : list byte) : Decoder + error :=
  if available (List.length bs) bs
  then inl (mkDecoder (mkAttribute 0 0 []) bs 0 false)
  else inr "invalid attribute; length too short or too large".

Definition Next (ad : Decoder) : option Decoder :=
  if failed ad then None
  else if (List.length (b ad) <=? i ad)%nat then None
  else
    match unmarshal (skipn (i ad) (b ad)) with
    | None => None
    | Some at' =>
        Some (mkDecoder at' (b ad) (i ad + advance (aLength at')) false)
    end.

Definition Type_ (ad : Decoder) : Z := Z.land (aType (a ad)) attrTypeMask.

Definition Uint32 (ad : Decoder) : Z :=
  if failed ad then 0
  else if len (aData (a ad)) =? 4 then uint32 (aData (a ad))
  else 0.

(** One [Uint32] attribute, encoded. *)
Definition EncodeUint32 (typ v : Z) : list byte + error :=
  inl (putUint16 8 ++ putUint16 typ ++ putUint32 v)%list.

Definition remaining (ad : Decoder) : nat := (List.length (b ad) - i ad)%nat.

End NlAttr.

(** Kernels for the examples: one on which every call succeeds, one on
    which the filter cannot be attached, one on which no socket can be
    opened. *)
Definition kernelOk : Kernel :=
  mkKernel (fun _ => Opened) (fun _ => None) (fun _ => None).

Definition kernelNoBPF : Kernel :=
  mkKernel (fun _ => Opened) (fun _ => Some "operation not permitted")
    (fun _ => None).

Definition kernelNoSocket : Kernel :=
  mkKernel (fun _ => SocketFailed "too many open files") (fun _ => None)
    (fun _ => None).

(** A consumer that streams at sampling rate 1.0 on socket 0, with the
    window breaker at the target [target] having counted [count]
    messages. *)
Definition streamingConsumer (target count : Z) : Consumer WindowBreaker.t :=
  mkConsumer (Some 0%nat) (Some 0%nat) "/proc" target Float64.one
    (WindowBreaker.mk target count) true 0 0 100 0 0 1 false 1.

(** The world of a consumer whose only socket so far is socket 0. *)
Definition streamingWorld : World :=
  mkWorld [ActOpen 0%nat; ActJoinGroup 0%nat netlinkCtNew] [] false 1.

(** A message of the given header type, without payload. *)
Definition messageOfType (t : Z) : Message :=
  mkMessage (mkHeader 16 t 0 0 0) [].

(** A conntrack "new connection" message ([NFNL_SUBSYS_CTNETLINK << 8 |
    IPCTNL_MSG_CT_NEW]). *)
Definition ctNew : Message := messageOfType 256.

(** The reply of the kernel to [RTM_GETNSID] for the namespace id [nsid]:
    the [rtgenmsg] header, four bytes, then one [NETNSA_NSID] attribute. *)
Definition nsidReply (nsid : Z) : Message :=
  mkMessage (mkHeader 28 88 0 1 0)
    ([x00; x00; x00; x00] ++ NlAttr.putUint16 8
       ++ NlAttr.putUint16 unix.NETNSA_NSID ++ NlAttr.putUint32 nsid)%list.

(** A read of [n] conntrack messages into buffer [buf]. *)
Definition batch (buf : Buffer) (n : nat) : Received :=
  mkReceived buf (repeat ctNew n) 0 None.

(** The last read of a dump: one message and the Done sentinel. *)
Definition lastOfDump : Received :=
  mkReceived 1%nat [ctNew; messageOfType netlink.Done] 0 None.

(** A read that failed with ENOBUFS and returned no message. *)
Definition enobufRead : Received :=
  mkReceived 3%nat [] 0 (Some "recvmsg: no buffer space available").

(** Two valid messages and one error frame. *)
Definition malformedBatch : Received :=
  mkReceived 2%nat [ctNew; ctNew; messageOfType netlink.Error] 0 None.

(** A consumer in its dump phase. *)
Definition dumpState : State WindowBreaker.t :=
  mkState (NewConsumer "/proc" 100 false) emptyWorld.

(** A streaming consumer whose breaker counted [count] messages against a
    target of 100. *)
Definition streamingState (count : Z) : State WindowBreaker.t :=
  mkState (streamingConsumer 100 count) streamingWorld.

(** The reply to a peer-namespace query about namespace 5. *)
Definition peerReply : Reply := mkReply None [nsidReply 5] None.

(** The reply for a namespace that is not a peer: the id is -1. *)
Definition notPeerReply : Reply := mkReply None [nsidReply (-1)] None.

(** ** What the operations amount to

    Notions in which the behaviour of [socketError] and of the receive loop
    is stated: occurrence of a text in another, which reads end the loop,
    which are put on the channel, and which sockets a trace of actions
    leaves open. *)

(** [sub] occurs in [s]: [s] is [sub] with something before it and
    something after it. *)
Definition occurs (sub s : string) : Prop :=
  exists pre post, s = pre ++ sub ++ post.

(** The read's error is classified EOF. *)
Definition isEOF (r : Received) : bool :=
  match rerr r with
  | Some e => Contains e "closed file"
  | None => false
  end.

(** The read's error is classified ENOBUF. *)
Definition isENOBUF (r : Received) : bool :=
  match rerr r with
  | Some e =>
      match socketError e with
      | errENOBUF => true
      | _ => false
      end
  | None => false
  end.

(** The read's error is of neither class. *)
Definition isOtherError (r : Received) : bool :=
  match rerr r with
  | Some e =>
      match socketError e with
      | errOther _ => true
      | _ => false
      end
  | None => false
  end.

(** The reads up to the first one that satisfies [p], that one included. *)
Fixpoint upTo {A} (p : A -> bool) (l : list A) : list A :=
  match l with
  | [] => []
  | x :: l' => if p x then [x] else x :: upTo p l'
  end.

(** The sockets a trace of actions leaves open, oldest first. *)
Definition openAfter (open : list SocketId) (a : Action) : list SocketId :=
  match a with
  | ActOpen k => (open ++ [k])%list
  | ActClose k => remove Nat.eq_dec k open
  | _ => open
  end.

Definition openSockets (t : list Action) : list SocketId :=
  fold_left openAfter t [].

(** The sockets the consumer holds through [conn]: one, or none. *)
Definition held {B} (c : Consumer B) : list SocketId :=
  match conn c with
  | Some id => [id]
  | None => []
  end.

(** Every system call succeeds. *)
Definition healthy (k : Kernel) : Prop :=
  forall id, openSocket k id = Opened /\ setBPF k id = None
             /\ joinGroup k id = None.

(** [throttle] can close the connection: while streaming, the consumer has
    one. *)
Definition connected {B} (c : Consumer B) : Prop :=
  streaming c = true -> conn c <> None.

Section LoopSpec.

Variable checkMessage : Message -> option error.

(** Every message of the read passes [checkMessage]. *)
Definition allValid (r : Received) : bool :=
  negb (anyInvalid checkMessage (rmsgs r)).

(** The read is put on the channel: it is not an EOF and it is valid. *)
Definition delivered (r : Received) : bool :=
  negb (isEOF r) && allValid r.

(** The read is dropped: it is not an EOF and a message of it fails
    [checkMessage]. *)
Definition dropped (r : Received) : bool :=
  negb (isEOF r) && negb (allValid r).

(** The read ends a dump: it is an EOF, or a valid batch that ends with the
    Done sentinel. *)
Definition endsDump (r : Received) : bool :=
  isEOF r || (allValid r && multiPartDone (rmsgs r)).

(** What one read does to the counters of a consumer that is not
    streaming. *)
Definition countRead {B} (c : Consumer B) (r : Received) : Consumer B :=
  if isEOF r then c
  else if allValid r then countError (rerr r) c
  else incr_msgErrors (countError (rerr r) c).

End LoopSpec.

(** ** The receive loop on its socket

    [ReadLoop] is given what [c.socket.ReceiveInto] returned.  The call
    itself goes through the pointer [c.socket], at the head of every
    iteration, before there is a read or while there is none yet; here is
    the loop with that call. *)

Section SocketLoop.

Context {B : Type} `{CircuitBreaker B}.

Variable pre315Kernel : bool.
Variable checkMessage : Message -> option error.
Variable kernel : Kernel.




End SocketLoop.

(** A reply to [RTM_GETNSID] with two [NETNSA_NSID] attributes, of the
    values -1 and 5. *)
Definition twoNsidReply : Message :=
  mkMessage (mkHeader 36 88 0 1 0)
    ([x00; x00; x00; x00]
       ++ NlAttr.putUint16 8 ++ NlAttr.putUint16 unix.NETNSA_NSID
       ++ NlAttr.putUint32 (-1)
       ++ NlAttr.putUint16 8 ++ NlAttr.putUint16 unix.NETNSA_NSID
       ++ NlAttr.putUint32 5)%list.


Definition enobufStorm : Received :=
  mkReceived 3%nat (repeat ctNew 20) 0
    (Some "recvmsg: no buffer space available").

Definition invalidStorm : Received :=
  mkReceived 2%nat (repeat ctNew 20 ++ [messageOfType netlink.Error])%list 0
    None.

Definition errorThenDone : Received :=
  mkReceived 0%nat [messageOfType netlink.Error; messageOfType netlink.Done] 0
    None.

(** More inputs for the examples: a kernel on which the multicast group
    cannot be joined, the read that follows the closing of the socket, and
    the reads of a dump, with a batch that is dropped, a read that failed
    with ENOBUFS, and a read after the one that ends the dump. *)
Definition kernelNoJoin : Kernel :=
  mkKernel (fun _ => Opened) (fun _ => None)
    (fun _ => Some "operation not permitted").

Definition eofRead : Received :=
  mkReceived 5%nat [] 0 (Some "read: use of closed file").

Definition dumpReads : list Received :=
  [batch 0%nat 3; malformedBatch; enobufRead; lastOfDump; batch 4%nat 1].

(** ** Metric names ([constlabels])

    The names under which request metrics are exported.  The keys of the
    dictionary are constants of the package [constvalues], which is not
    among the files at hand: they are parameters here.  Go rejects a map
    literal that repeats a constant key, so the order in which the
    dictionary is searched does not matter. *)

Module constlabels.

(** [m[k]] on a map given by its entries: the value, and whether the key is
    there. *)
Fixpoint lookup {K V : Type} (eqb : K -> K -> bool) (k : K) (m : list (K * V))
    : option V :=
  match m with
  | [] => None
  | (k', v) :: m' => if eqb k k' then Some v else lookup eqb k m'
  end.

Definition TopologyRequestIoMetric : string := "request_bytes_total".
Definition TopologyResponseIoMetric : string := "response_bytes_total".
Definition TopologyRequestLatencyAverageMetric : string :=
  "average_duration_nanoseconds".
Definition TopologyRequestLatencyTotalMetric : string :=
  "duration_nanoseconds_total".
Definition TopologyRequestCountMetric : string := "total".

Definition EntityRequestIoMetric : string := "receive_bytes_total".
Definition EntityResponseIoMetric : string := "send_bytes_total".
Definition EntityRequestLatencyAverageMetric : string :=
  "average_duration_nanoseconds".
Definition EntityRequestLatencyTotalMetric : string :=
  "duration_nanoseconds_total".
Definition EntityRequestCountMetric : string := "total".

Definition NPMPrefixKindling : string := "kindling".
Definition EntityPrefix : string := "entity".
Definition TopologyPrefix : string := "topology".

Section Names.

(** [constvalues.RequestIo], [constvalues.ResponseIo],
    [constvalues.RequestTotalTime] and [constvalues.RequestCount]. *)
Variables RequestIo ResponseIo RequestTotalTime RequestCount : string.

(** key1: originName key2: isServer *)
Definition metricNameDictionary : list (string * list (bool * string)) :=
  [ (RequestIo,
     [(true, EntityRequestIoMetric); (false, TopologyRequestIoMetric)]);
    (ResponseIo,
     [(true, EntityResponseIoMetric); (false, TopologyResponseIoMetric)]);
    (RequestTotalTime,
     [(true, EntityRequestLatencyTotalMetric);
      (false, TopologyRequestLatencyTotalMetric)]);
    (RequestCount,
     [(true, EntityRequestCountMetric); (false, TopologyRequestCountMetric)]);
    (RequestTotalTime ++ "_avg",
     [(true, EntityRequestLatencyAverageMetric);
      (false, TopologyRequestLatencyAverageMetric)]) ].

(** [names[isServer]]: the empty string when the key is not there. *)
Definition at_ (names : list (bool * string)) (isServer : bool) : string :=
  match lookup Bool.eqb isServer names with
  | Some name => name
  | None => ""
  end.

Definition getKindlingPrefix (isServer : bool) : string :=
  let kindMark := if isServer then EntityPrefix else TopologyPrefix in
  NPMPrefixKindling ++ "_" ++ kindMark ++ "_".

Definition ToKindlingTraceAsMetricName : string :=
  NPMPrefixKindling ++ "_trace_request_" ++ "duration_nanoseconds".

Definition ToKindlingMetricName (origName : string) (isServer : bool) : string :=
  match lookup String.eqb origName metricNameDictionary with
  | None => ""
  | Some names => getKindlingPrefix isServer ++ "request_" ++ at_ names isServer
  end.

(** ToKindlingDetailMetricName For ServerDetail Metric *)
Definition ToKindlingDetailMetricName (origName protocol : string) : string :=
  match lookup String.eqb origName metricNameDictionary with
  | None => ""
  | Some names => getKindlingPrefix true ++ protocol ++ "_" ++ at_ names true
  end.

(** The names the dictionary knows. *)
Definition knownNames : list string := map fst metricNameDictionary.

End Names.

End constlabels.

(** ** The dump of the conntrack table

    [DumpTable] and [dumpTable].  Network namespaces are held through
    handles ([netns.NsHandle], an int); what the package asks of them and
    of the netlink library is given by an environment.  The worker that
    [DumpTable] starts is run with it, to its end or until it is blocked
    in a read. *)

From Stdlib Require Import DecimalString.

Definition NsHandle : Type := Z.

(** What is done to the namespace handles, to the control connection and,
    by the worker's deferred function, to the channel, in the order it is
    done. *)
Inductive NsAction : Type :=
| NsDial (ns : NsHandle)      (* netlink.Dial gave a connection into [ns] *)
| NsClose (ns : NsHandle)     (* ns.Close() *)
| OutputClose                 (* close(output) *)
| ConnClose.                  (* conn.Close() on that connection *)

(** The environment of a dump: the namespaces there are, whether the
    control connection can be had, whether two handles are of the same
    namespace, what the control connection answers to the query about a
    namespace, what [Send] returns on the socket of a given number made
    in a given namespace, [netlink.Validate], and what that socket
    delivers. *)
Record NsEnv : Type := mkNsEnv {
  GetNetNamespaces : string -> list NsHandle + error;
  GetRootNetNamespace : string -> NsHandle + error;
  Dial : NsHandle -> option error;
  Equal : NsHandle -> NsHandle -> bool;
  nsidAnswer : NsHandle -> Reply;
  Send : NsHandle -> SocketId -> Message -> Message + error;
  Validate : Message -> list Message -> option error;
  readsOf : NsHandle -> SocketId -> list Received
}.

(** The state of the consumer and its world, and the actions on
    namespaces so far (oldest first). *)
Record DumpState (B : Type) : Type := mkDumpState {
  consumer : State B;
  handles : list NsAction
}.

Arguments mkDumpState {B}.
Arguments consumer {B}.
Arguments handles {B}.

(** A step of the consumer, as a step of the dump. *)
Definition lift {B A} (m : M (State B) A) : M (DumpState B) A :=
  fun ds =>
    match m (consumer ds) with
    | Ok a s => Ok a (mkDumpState s (handles ds))
    | Panic r => Panic r
    | Diverges => Diverges
    end.

Definition nsAct {B} (a : NsAction) : M (DumpState B) unit :=
  fun ds => Ok tt (mkDumpState (consumer ds) (handles ds ++ [a])%list).

(** [close(output)] in the worker: the channel is closed, and that it is
    takes its place among the actions. *)
Definition closeChannel {B} : M (DumpState B) unit :=
  fun ds =>
    match closeOutput (consumer ds) with
    | Ok _ s => Ok tt (mkDumpState s (handles ds ++ [OutputClose])%list)
    | Panic r => Panic r
    | Diverges => Diverges
    end.

(** [unix.NFNL_SUBSYS_CTNETLINK] and [unix.NFNETLINK_V0]. *)
Definition NFNL_SUBSYS_CTNETLINK : Z := 1.
Definition NFNETLINK_V0 : byte := x00.

(** [ipctnlMsgCtGet] represents the Conntrack message type used during the
    initial load. *)
Definition ipctnlMsgCtGet : Z := 1.

(** How [dumpTable] ends: it returns, with an error or without, or it is
    blocked in [receive], waiting for the next read. *)
Inductive DumpEnd : Type :=
| Dumped (err : option error)
| Blocked.

(** How [DumpTable] and its worker end: [DumpTable] returns an error and
    starts no worker; the worker ran to its end, deferred calls included;
    or the worker is blocked in a read. *)
Inductive DumpResult : Type :=
| Failed (err : error)
| Finished
| Stuck.

(** [%d] of an int. *)
Definition formatInt (n : Z) : string := NilZero.string_of_int (Z.to_int n).

(** The request of [dumpTable]. *)
Definition dumpRequest (family : byte) : Message :=
  mkMessage
    (mkHeader 0 (Z.lor (Z.shiftl NFNL_SUBSYS_CTNETLINK 8) ipctnlMsgCtGet)
       (Z.lor netlink.Request netlink.Dump) 0 0)
    [family; NFNETLINK_V0; x00; x00].

Section DumpOps.

Context {B : Type} `{CircuitBreaker B}.
Context {D : Type} `{Attr.Codec D}.

Variable pre315Kernel : bool.
Variable checkMessage : Message -> option error.
Variable kernel : Kernel.
Variable env : NsEnv.

(** [dumpTable].  As in [initNetlinkSocket], [openSocket] tells how
    entering the namespace ([WithNS]) and [NewSocket] in it end.  The
    socket is made inside the namespace [ns]: what is sent and read on it
    is what the environment gives for that namespace.  The connection made
    on the socket is closed, and the socket with it, when the closure
    returns. *)
Definition dumpTable (family : byte) (ns : NsHandle) : M (State B) DumpEnd :=
  id <- nextSocket ;;
  match openSocket kernel id with
  | NsFailed err => ret (Dumped (Some err))
  | SocketFailed err =>
      ret (Dumped (Some (wrapError
             ("could not open netlink socket for net ns " ++ formatInt ns) err)))
  | Opened =>
      act (ActOpen id) ;;
      let req := dumpRequest family in
      act (ActRequest req) ;;
      match Send env ns id req with
      | inr err =>
          act (ActClose id) ;;
          ret (Dumped (Some (wrapError "netlink dump error" err)))
      | inl verify =>
          match Validate env req [verify] with
          | Some err =>
              act (ActClose id) ;;
              ret (Dumped (Some (wrapError
                     "netlink dump message validation error" err)))
          | None =>
              modC (set_socket (Some id)) ;;
              e <- receive pre315Kernel checkMessage kernel
                     (readsOf env ns id) ;;
              match e with
              | Returned => act (ActClose id) ;; ret (Dumped None)
              | Waiting => ret Blocked
              end
          end
      end
  end.

(** The loop of the worker over the namespaces: [true] when it got to the
    end, [false] when a dump is blocked. *)
Fixpoint dumpPeers (family : byte) (rootNS : NsHandle) (nss : list NsHandle)
    : M (DumpState B) bool :=
  match nss with
  | [] => ret true
  | ns :: nss' =>
      if Equal env rootNS ns then
        (* we've already dumped the table for the root ns above *)
        dumpPeers family rootNS nss'
      else
        peer <- lift (isPeerNS ns (nsidAnswer env ns)) ;;
        if negb peer then dumpPeers family rootNS nss'
        else
          e <- lift (dumpTable family ns) ;;
          match e with
          | Dumped _ => dumpPeers family rootNS nss'
          | Blocked => ret false
          end
  end.

(** The deferred function of the worker. *)
Definition cleanup (rootNS : NsHandle) (nss : list NsHandle)
    : M (DumpState B) unit :=
  fold_right (fun ns k => nsAct (NsClose ns) ;; k) (ret tt) nss ;;
  closeChannel ;;
  nsAct (NsClose rootNS) ;;
  nsAct ConnClose.

(** The worker: root ns first. *)
Definition dumpWorker (family : byte) (rootNS : NsHandle) (nss : list NsHandle)
    : M (DumpState B) DumpResult :=
  e <- lift (dumpTable family rootNS) ;;
  match e with
  | Blocked => ret Stuck
  | Dumped _ =>
      done <- dumpPeers family rootNS nss ;;
      if done then cleanup rootNS nss ;; ret Finished else ret Stuck
  end.

(** [DumpTable], with its worker.  The channel it makes is the channel of
    the world. *)
Definition DumpTable (family : byte) : M (DumpState B) DumpResult :=
  c <- lift getC ;;
  match (if listenAllNamespaces c then GetNetNamespaces env (procRoot c)
         else inl []) with
  | inr err =>
      ret (Failed (wrapError
             "error dumping conntrack table, could not get network namespaces"
             err))
  | inl nss =>
      match GetRootNetNamespace env (procRoot c) with
      | inr err =>
          ret (Failed (wrapError
                 "error dumping conntrack table, could not get root namespace"
                 err))
      | inl rootNS =>
          match Dial env rootNS with
          | Some err =>
              nsAct (NsClose rootNS) ;;
              ret (Failed (wrapError
                     "error dumping conntrack table, could not open netlink socket"
                     err))
          | None =>
              nsAct (NsDial rootNS) ;;
              dumpWorker family rootNS nss
          end
      end
  end.

End DumpOps.

(** *** The dump as a function of its environment *)

Section DumpSpec.

Context {D : Type} `{Attr.Codec D}.

Variable checkMessage : Message -> option error.
Variable kernel : Kernel.
Variable env : NsEnv.

(** The socket with this number, made in the namespace [ns], opens, and
    the dump request sent on it is accepted. *)
Definition dumpStarts (family : byte) (ns : NsHandle) (id : SocketId) : bool :=
  match openSocket kernel id with
  | Opened =>
      match Send env ns id (dumpRequest family) with
      | inl verify =>
          match Validate env (dumpRequest family) [verify] with
          | None => true
          | Some _ => false
          end
      | inr _ => false
      end
  | _ => false
  end.

(** The events of the dump of the namespace [ns], made on the socket with
    this number. *)
Definition dumpEvents (family : byte) (ns : NsHandle) (id : SocketId)
    : list Event :=
  if dumpStarts family ns id
  then map emitted
         (filter (delivered checkMessage)
            (upTo (endsDump checkMessage) (readsOf env ns id)))
  else [].

(** The answer of [isPeerNS] to a reply. *)
Definition peerNS (ns : NsHandle) (reply : Reply) : bool :=
  match Attr.EncodeUint32 unix.NETNSA_FD (Int.wrap32 ns),
        sendErr reply, recvErr reply, recvMsgs reply with
  | inl _, None, None, m0 :: _ =>
      if Type_ (Header_ m0) =? netlink.Error then false
      else match Attr.NewAttributeDecoder (Data m0) with
           | inl d =>
               match firstNSID d with
               | Some a => Attr.Uint32 a mod 2 ^ 32 <? 2 ^ 31
               | None => false
               end
           | inr _ => false
           end
  | _, _, _, _ => false
  end.

(** The namespaces the worker dumps after the root: those that are not the
    root and are peers, in the order of the list. *)
Definition peersOf (rootNS : NsHandle) (nss : list NsHandle) : list NsHandle :=
  filter (fun ns => negb (Equal env rootNS ns)
                    && peerNS ns (nsidAnswer env ns)) nss.

(** The events of the dumps of the namespaces [nss], one after the other,
    the first on the socket [id] and each of the others on the socket
    numbered after the one before it. *)
Fixpoint dumpsEvents (family : byte) (id : SocketId) (nss : list NsHandle)
    : list Event :=
  match nss with
  | [] => []
  | ns :: nss' =>
      (dumpEvents family ns id ++ dumpsEvents family (S id) nss')%list
  end.

End DumpSpec.

(** An environment for the examples: namespaces 4, 5 and 6, of which 4 is
    the root, 5 a peer and 6 not; every request is accepted; a socket made
    in namespace 5 delivers the last read of a dump, and a socket made in
    another namespace delivers [dumpReads]. *)
Definition threeNamespaces : NsEnv :=
  mkNsEnv (fun _ => inl [4; 5; 6]) (fun _ => inl 4) (fun _ => None) Z.eqb
    (fun ns => if ns =? 5 then peerReply else notPeerReply)
    (fun _ _ req => inl req) (fun _ _ => None)
    (fun ns _ => if ns =? 5 then [lastOfDump] else dumpReads).

(** A consumer that listens in all namespaces, before its dump. *)
Definition dumpAllState : DumpState WindowBreaker.t :=
  mkDumpState (mkState (NewConsumer "/proc" 100 true) emptyWorld) [].

(** The same namespaces when the control connection cannot be had, and
    when the sockets deliver a batch and then nothing more. *)
Definition noControlConnection : NsEnv :=
  mkNsEnv (fun _ => inl [4; 5; 6]) (fun _ => inl 4)
    (fun _ => Some "operation not permitted") Z.eqb
    (fun ns => if ns =? 5 then peerReply else notPeerReply)
    (fun _ _ req => inl req) (fun _ _ => None) (fun _ _ => dumpReads).

Definition endlessDump : NsEnv :=
  mkNsEnv (fun _ => inl [4; 5; 6]) (fun _ => inl 4) (fun _ => None) Z.eqb
    (fun ns => if ns =? 5 then peerReply else notPeerReply)
    (fun _ _ req => inl req) (fun _ _ => None) (fun _ _ => [batch 0%nat 3]).

(** ** Facts about the monad *)

Lemma bind_ret_l {S A A'} (a : A) (k : A -> M S A') (s : S) :
  bind (ret a) k s = k a s.
Proof. reflexivity. Qed.

Lemma bind_assoc {S A A' A''} (m : M S A) (k : A -> M S A')
      (k' : A' -> M S A'') (s : S) :
  bind (bind m k) k' s = bind m (fun a => bind (k a) k') s.
Proof. unfold bind. now destruct (m s). Qed.

(** ** Facts about the machine integers *)

Lemma wrap64_small (z : Z) : Int.min_int64 <= z <= Int.max_int64 -> Int.wrap64 z = z.
Proof.
  unfold Int.wrap64, Int.min_int64, Int.max_int64. intros Hz.
  rewrite Z.mod_small; lia.
Qed.

Lemma wrap32_small (z : Z) : 0 <= z < 2 ^ 32 -> Int.wrap32 z = z.
Proof. unfold Int.wrap32. intros Hz. now apply Z.mod_small. Qed.

Lemma wrap32_range (z : Z) : 0 <= Int.wrap32 z < 2 ^ 32.
Proof. unfold Int.wrap32. apply Z.mod_pos_bound. lia. Qed.

(** [int32(v) >= 0] for a [uint32] value [v]: bit 31 is clear. *)
Lemma int32_of_uint32_nonneg (v : Z) :
  (0 <=? Int.int32_of_uint32 v) = (v mod 2 ^ 32 <? 2 ^ 31).
Proof.
  unfold Int.int32_of_uint32, Int.wrap32.
  pose proof (Z.mod_pos_bound v (2 ^ 32) eq_refl) as Hb.
  destruct (Z.ltb_spec (v mod 2 ^ 32) (2 ^ 31)) as [Hlt|Hge].
  - apply Z.leb_le. lia.
  - apply Z.leb_gt. lia.
Qed.

(** ** Facts about the collaborators *)

Lemma nlaAlign_spec (l : Z) : NlAttr.nlaAlign l = 4 * ((l + 3) / 4).
Proof.
  unfold NlAttr.nlaAlign.
  rewrite <- Z.ldiff_land.
  change 3 with (Z.ones 2) at 2.
  rewrite Z.ldiff_ones_r by lia.
  rewrite Z.shiftr_div_pow2, Z.shiftl_mul_pow2 by lia.
  change (2 ^ 2) with 4. lia.
Qed.

Lemma advance_pos (l : Z) : (4 <= NlAttr.advance l)%nat.
Proof.
  unfold NlAttr.advance, NlAttr.nlaHeaderLen.
  destruct (l <? 4) eqn:E.
  - simpl. lia.
  - apply Z.ltb_ge in E. rewrite nlaAlign_spec.
    assert (1 <= (l + 3) / 4) by (apply Z.div_le_lower_bound; lia).
    lia.
Qed.

Lemma NlAttr_Next_decreases (d d' : NlAttr.Decoder) :
  NlAttr.Next d = Some d' -> (NlAttr.remaining d' < NlAttr.remaining d)%nat.
Proof.
  unfold NlAttr.Next, NlAttr.remaining.
  destruct (NlAttr.failed d); [discriminate|].
  destruct (Nat.leb_spec (List.length (NlAttr.b d)) (NlAttr.i d)); [discriminate|].
  destruct (NlAttr.unmarshal _) as [at'|]; [|discriminate].
  intros [= <-]. simpl.
  pose proof (advance_pos (NlAttr.aLength at')). lia.
Qed.

#[global] Instance NlAttr_codec : Attr.Codec NlAttr.Decoder := {
  Attr.EncodeUint32 := NlAttr.EncodeUint32;
  Attr.NewAttributeDecoder := NlAttr.NewAttributeDecoder;
  Attr.Type_ := NlAttr.Type_;
  Attr.Uint32 := NlAttr.Uint32;
  Attr.Next := NlAttr.Next;
  Attr.remaining := NlAttr.remaining;
  Attr.Next_decreases := NlAttr_Next_decreases
}.

(** ** Facts about the consumer's operations *)

Arguments Float64.geb : simpl never.
Arguments Float64.to_int64 : simpl never.
Arguments Float64.of_int : simpl never.
Arguments wrapError : simpl never.
Arguments Int.add64 : simpl never.
Arguments Int.incr32 : simpl never.
Arguments Int.wrap32 : simpl never.
Arguments netlinkBufferSize : simpl never.
Arguments initNetlinkSocket : simpl never.
Arguments throttle : simpl never.
Arguments throttledRate : simpl never.

Section ConsumerFacts.

Context {B : Type} `{CircuitBreaker B}.
Variable pre315Kernel : bool.
Variable checkMessage : Message -> option error.
Variable kernel : Kernel.

Lemma initNetlinkSocket_frame (rate : float) (s s' : State B) (err : option error) :
  initNetlinkSocket kernel rate s = Ok err s' -> sameLoopState s s'.
Proof.
  unfold initNetlinkSocket, bind, nextSocket, getC, modC, act, ret.
  destruct s as [c w]; cbn.
  destruct (openSocket kernel (sockets w)); cbn.
  - destruct (listenAllNamespaces c); cbn;
      destruct (Float64.geb rate Float64.one); cbn;
      try destruct (setBPF kernel (sockets w)); cbn. all: intros [= <- <-]; repeat split.
  - intros [= <- <-]; repeat split.
  - intros [= <- <-]; repeat split.
Qed.

Lemma throttle_frame (n : Z) (s s' : State B) (err : option error) :
  throttle pre315Kernel kernel n s = Ok err s' -> sameLoopState s s'.
Proof.
  unfold throttle, bind, getC, modC, ret, closeConn, connJoinGroup, act, panic.
  destruct s as [c w]; cbn.
  destruct (streaming c) eqn:Hs; cbn; [|intros [= <- <-]; repeat split].
  destruct (IsOpen (Tick (breaker c) n)); cbn; [|intros [= <- <-]; repeat split; assumption].
  destruct pre315Kernel; cbn; [intros [= <- <-]; repeat split; assumption|].
  destruct (conn c); cbn; [|discriminate].
  match goal with |- context [initNetlinkSocket kernel ?r ?st] =>
    destruct (initNetlinkSocket kernel r st) as [e s1| |] eqn:Hinit end;
    [|discriminate|discriminate].
  apply initNetlinkSocket_frame in Hinit.
  destruct Hinit as (H1 & H2 & H3 & H4 & H5 & H6 & H7); cbn in *.
  destruct e; cbn.
  - intros [= <- <-]. repeat split; assumption.
  - destruct (conn (cons s1)); cbn; [|discriminate].
    intros [= <- <-]. repeat split; cbn; assumption.
Qed.


(** *** Throttling *)

(** C3. When the pre-3.15 kernel flag is set, a breaker trip while
    streaming makes [throttle] count one more throttle, reset the breaker
    and return no error; the world is left as it was (no socket is closed,
    none is opened), the connection, the socket and the sampling state of
    the consumer stay as they were, and the iteration of the receive loop
    that called [throttle] ends in [Continue]: the loop keeps running. *)
Theorem throttle_pre315_resets_and_continues
    (c : Consumer B) (w : World) (n : Z) :
  pre315Kernel = true ->
  streaming c = true ->
  IsOpen (Tick (breaker c) n) = true ->
  let c' := set_breaker (Reset (Tick (breaker c) n))
              (incr_throttles (set_breaker (Tick (breaker c) n) c)) in
  throttle pre315Kernel kernel n (mkState c w) = Ok None (mkState c' w)
  /\ throttles c' = Int.add64 (throttles c) 1
  /\ breaker c' = Reset (Tick (breaker c) n)
  /\ conn c' = conn c /\ socket c' = socket c
  /\ samplingRate c' = samplingRate c /\ samplingPct c' = samplingPct c
  /\ (forall r : Received,
        Z.of_nat (List.length (rmsgs r)) = n ->
        exists s', deliver pre315Kernel checkMessage kernel r (mkState c w)
                   = Ok Continue s').
Proof.
  intros Hpre Hs Hopen c'.
  assert (Hthr : throttle pre315Kernel kernel n (mkState c w)
                 = Ok None (mkState c' w)).
  { unfold throttle, bind, getC, modC, ret. cbn.
    rewrite Hs. cbn. rewrite Hopen. cbn. rewrite Hpre. reflexivity. }
  split; [exact Hthr|].
  repeat (split; [reflexivity|]).
  intros r Hn. unfold deliver, bind. rewrite Hn, Hthr.
  unfold validateBatch, emitBatch, bind, modC, send, getC, ret. cbn.
  destruct (anyInvalid checkMessage (rmsgs r)).
  - eexists; reflexivity.
  - cbn. rewrite Hs, andb_false_r. eexists; reflexivity.
Qed.

(** C1. On a kernel that is not pre-3.15, a breaker trip while streaming
    makes [throttle] close the connection and call [initNetlinkSocket] with
    the rate [(t / r) * s * 0.95] computed in float64, where [t] is the
    target rate, [r] the rate the breaker reports and [s] the current
    sampling rate; when the socket can be opened the consumer ends up
    sampling at exactly that rate on the new socket.  Read in exact
    arithmetic, the formula at [r = k * t] is [s * 0.95 / k]. *)
Theorem throttle_reinitializes_with_scaled_rate
    (c : Consumer B) (w : World) (n : Z) (id : SocketId) :
  pre315Kernel = false ->
  streaming c = true ->
  IsOpen (Tick (breaker c) n) = true ->
  conn c = Some id ->
  let t := targetRateLimit c in
  let r := Rate (Tick (breaker c) n) in
  let s := samplingRate c in
  let rate := (Float64.of_int t / Float64.of_int r * s
               * Float64.overshootFactor)%float in
  let c1 := set_conn None
              (incr_throttles (set_breaker (Tick (breaker c) n) c)) in
  let w1 := mkWorld (trace w ++ [ActClose id])%list (output w) (closed w)
              (sockets w) in
  throttle pre315Kernel kernel n (mkState c w)
  = (err <- initNetlinkSocket kernel rate ;;
     match err with
     | Some e => ret (Some e)
     | None =>
         modC (fun c => set_breaker (Reset (breaker c)) c) ;;
         connJoinGroup kernel netlinkCtNew
     end) (mkState c1 w1)
  /\ (openSocket kernel (sockets w) = Opened ->
      exists err s' tl,
        throttle pre315Kernel kernel n (mkState c w) = Ok err s'
        /\ samplingRate (cons s') = rate
        /\ conn (cons s') = Some (sockets w)
        /\ trace (world s')
           = (trace w ++ ActClose id :: ActOpen (sockets w) :: tl)%list)
  /\ (forall (k : Z) (q : Q),
        0 < t -> 1 < k ->
        (scaledRateQ t (k * t) q == q * (95 # 100) / inject_Z k)%Q).
Proof.
  intros Hpre Hs Hopen Hconn t r s rate c1 w1.
  assert (Hthr : throttle pre315Kernel kernel n (mkState c w)
    = (err <- initNetlinkSocket kernel rate ;;
       match err with
       | Some e => ret (Some e)
       | None =>
           modC (fun c => set_breaker (Reset (breaker c)) c) ;;
           connJoinGroup kernel netlinkCtNew
       end) (mkState c1 w1)).
  { unfold throttle at 1, bind, getC, modC, ret, closeConn, act. cbn.
    rewrite Hs. cbn. rewrite Hopen. cbn. rewrite Hpre. cbn.
    rewrite Hconn. cbn. reflexivity. }
  split; [exact Hthr|]. split.
  - intros Hopened. rewrite Hthr.
    unfold initNetlinkSocket, connJoinGroup, bind, nextSocket, getC, modC,
      act, ret. cbn. rewrite Hopened. cbn.
    destruct (listenAllNamespaces c); cbn;
      (match goal with
       | |- context [Float64.geb ?x ?y] => destruct (Float64.geb x y)
       end); cbn;
      try destruct (setBPF kernel (sockets w)); cbn;
      do 3 eexists; (split; [reflexivity|]); cbn;
      (split; [reflexivity|]); (split; [reflexivity|]);
      repeat rewrite <- app_assoc; cbn; reflexivity.
  - intros k q Ht Hk. unfold scaledRateQ.
    rewrite inject_Z_mult. field.
    split; intros E; apply (proj1 (inject_Z_injective _ 0)) in E; lia.
Qed.

(** *** The receive loop *)

Lemma receiveOnce_notEOF (r : Received) (c : Consumer B) (w : World) :
  notEOF (rerr r) ->
  receiveOnce pre315Kernel checkMessage kernel r (mkState c w)
  = deliver pre315Kernel checkMessage kernel r
      (mkState (countError (rerr r) c) w).
Proof.
  unfold notEOF, receiveOnce, countError, socketError. intros Hne.
  destruct (rerr r) as [e|]; [|reflexivity].
  rewrite (Hne e eq_refl).
  destruct (Contains e "no buffer space"); reflexivity.
Qed.

Lemma deliver_throttled (r : Received) (s s1 : State B) :
  throttle pre315Kernel kernel (Z.of_nat (List.length (rmsgs r))) s = Ok None s1 ->
  deliver pre315Kernel checkMessage kernel r s
  = validateBatch checkMessage r s1.
Proof. unfold deliver, bind. now intros ->. Qed.




Lemma emitBatch_eq (r : Received) (s : State B) :
  emitBatch r s
  = Ok (if multiPartDone (rmsgs r) && negb (streaming (cons s))
        then Return else Continue)
       (sent (emitted r) s).
Proof.
  unfold emitBatch, emitted, sent, bind, send, getC, ret. cbn.
  destruct (multiPartDone (rmsgs r) && negb (streaming (cons s))); reflexivity.
Qed.

Lemma validateBatch_valid (r : Received) (s : State B) :
  anyInvalid checkMessage (rmsgs r) = false ->
  validateBatch checkMessage r s = emitBatch r s.
Proof. unfold validateBatch. now intros ->. Qed.




(** C9. An iteration whose read's error is not classified EOF, whose call
    of [throttle] returns no error and whose messages all pass
    [checkMessage] puts exactly one event on the channel: the channel
    after the iteration is the channel before it followed by the event for
    the batch.  That holds for an iteration that ends in [Return] after
    emitting as well, and for a read that returned an error and no
    message, whose event carries no message. *)
Theorem iteration_emits_one_event
    (r : Received) (c : Consumer B) (w : World) (s1 : State B) :
  notEOF (rerr r) ->
  throttle pre315Kernel kernel (Z.of_nat (List.length (rmsgs r)))
    (mkState (countError (rerr r) c) w) = Ok None s1 ->
  anyInvalid checkMessage (rmsgs r) = false ->
  exists (ctl : Ctl) (s2 : State B),
    receiveOnce pre315Kernel checkMessage kernel r (mkState c w) = Ok ctl s2
    /\ output (world s2) = (output w ++ [emitted r])%list
    /\ (rmsgs r = [] ->
        output (world s2)
        = (output w ++ [mkEvent [] (rnetns r) (rbuffer r)])%list).
Proof.
  intros Hne Hthr Hvalid.
  rewrite receiveOnce_notEOF by assumption.
  rewrite (deliver_throttled _ _ _ Hthr).
  rewrite validateBatch_valid by assumption. rewrite emitBatch_eq.
  apply throttle_frame in Hthr. destruct Hthr as (Hout & _). cbn in Hout.
  do 2 eexists. split; [reflexivity|]. cbn. rewrite Hout.
  split; [reflexivity|].
  intros Hnil. unfold emitted. now rewrite Hnil.
Qed.

(** *** Socket initialisation *)

(** What [Float64.truncate] computes: the integer part of the value
    [m * 2^e] of a finite float, with its sign. *)
Lemma truncate_finite (x : float) (sg : bool) (m : positive) (e z : Z) :
  Prim2SF x = S754_finite sg m e ->
  Float64.truncate x = Some z ->
  z = (if sg then -1 else 1) * Z.abs z
  /\ (0 <= e -> Z.abs z = Zpos m * 2 ^ e)
  /\ (e < 0 -> Z.abs z * 2 ^ (- e) <= Zpos m < (Z.abs z + 1) * 2 ^ (- e)).
Proof.
  unfold Float64.truncate. intros -> [= <-].
  assert (Hnn : 0 <= Z.shiftl (Zpos m) e) by (apply Z.shiftl_nonneg; lia).
  assert (Habs : Z.abs (if sg then - Z.shiftl (Z.pos m) e
                        else Z.shiftl (Z.pos m) e) = Z.shiftl (Zpos m) e)
    by (destruct sg; lia).
  rewrite Habs. repeat split.
  - destruct sg; lia.
  - intros He. now rewrite Z.shiftl_mul_pow2.
  - rewrite <- (Z.opp_involutive e) at 1. rewrite Z.shiftl_opp_r.
    rewrite Z.shiftr_div_pow2 by lia.
    rewrite Z.mul_comm. apply Z.mul_div_le. apply Z.pow_pos_nonneg; lia.
  - rewrite <- (Z.opp_involutive e) at 1. rewrite Z.shiftl_opp_r.
    rewrite Z.shiftr_div_pow2 by lia.
    assert (Hp : 0 < 2 ^ (- e)) by (apply Z.pow_pos_nonneg; lia).
    pose proof (Z.mul_succ_div_gt (Zpos m) (2 ^ (- e)) Hp). lia.
Qed.

(** C6, as amended. [initNetlinkSocket] called with the rate [s] on a
    world where the socket can be opened stores [s] as the sampling rate
    and [int64(s * 100)] as [sampling_pct]: the product truncated towards
    zero, not rounded.  When [s >= 1.0], or when the filter attaches, it
    returns no error; when [s < 1.0] and attaching the filter fails it
    stores 0 as [sampling_pct] and returns that error, wrapped.  After a
    trip at an observed rate of 200 against a target of 100 and a prior
    rate of 1.0 the percentage is 47, the truncation of 47.5. *)
Theorem initNetlinkSocket_samplingPct
    (rate : float) (c : Consumer B) (w : World) :
  openSocket kernel (sockets w) = Opened ->
  let pct := Float64.to_int64 (rate * Float64.hundred)%float in
  (exists (err : option error) (s' : State B),
     initNetlinkSocket kernel rate (mkState c w) = Ok err s'
     /\ samplingRate (cons s') = rate
     /\ (Float64.geb rate Float64.one = true ->
         err = None /\ samplingPct (cons s') = pct)
     /\ (Float64.geb rate Float64.one = false ->
         setBPF kernel (sockets w) = None ->
         err = None /\ samplingPct (cons s') = pct)
     /\ (Float64.geb rate Float64.one = false ->
         forall e, setBPF kernel (sockets w) = Some e ->
         err = Some (wrapError "failed to attach BPF filter" e)
         /\ samplingPct (cons s') = 0))
  /\ (forall z, Float64.truncate (rate * Float64.hundred)%float = Some z ->
      Int.min_int64 <= z <= Int.max_int64 -> pct = z)
  /\ (forall c' : Consumer B,
        targetRateLimit c' = 100 -> Rate (breaker c') = 200 ->
        samplingRate c' = Float64.one ->
        Float64.to_int64 (throttledRate c' * Float64.hundred)%float = 47).
Proof.
  intros Hopened pct. repeat split.
  - unfold initNetlinkSocket, bind, nextSocket, getC, modC, act, ret. cbn.
    rewrite Hopened. cbn.
    destruct (listenAllNamespaces c); cbn;
      destruct (Float64.geb rate Float64.one) eqn:Hge; cbn;
      try destruct (setBPF kernel (sockets w)) eqn:Hbpf; cbn;
      do 2 eexists; (split; [reflexivity|]); cbn;
      (split; [reflexivity|]);
      repeat split; try discriminate; try reflexivity;
      intros; congruence.
  - intros z Hz Hrange. unfold pct, Float64.to_int64. rewrite Hz.
    destruct (Z.leb_spec Int.min_int64 z); [|lia].
    destruct (Z.leb_spec z Int.max_int64); [|lia]. reflexivity.
  - intros c' Ht Hr Hs. unfold throttledRate. rewrite Ht, Hr, Hs.
    vm_compute. reflexivity.
Qed.

End ConsumerFacts.

(** *** The peer-namespace test *)

Arguments isPeerNS : simpl never.

Section PeerFacts.

Context {B : Type} {D : Type} `{Attr.Codec D}.

(** The loop of [isPeerNS] finds what [find] finds among the positions of
    the decoder, and it does so within the fuel [isPeerNS] gives it. *)
Lemma scanNSID_find (fuel : nat) (d : D) :
  (Attr.remaining d < fuel)%nat ->
  scanNSID fuel d
  = Some match find (fun d' => Attr.Type_ d' =? unix.NETNSA_NSID)
                 (cursors fuel d) with
         | Some a => 0 <=? Int.int32_of_uint32 (Attr.Uint32 a)
         | None => false
         end.
Proof.
  revert d. induction fuel as [|fuel IH]; intros d Hlt; [lia|].
  cbn [scanNSID cursors find].
  destruct (Attr.Type_ d =? unix.NETNSA_NSID); [reflexivity|].
  destruct (Attr.Next d) as [d'|] eqn:Hnext; [|reflexivity].
  apply IH. apply Attr.Next_decreases in Hnext. lia.
Qed.

Arguments scanNSID : simpl never.
Arguments cursors : simpl never.

(** [isPeerNS] on a query that was sent and answered with at least one
    message. *)
Lemma isPeerNS_replied (ns : Z) (reply : Reply) (s : State B)
    (data : list byte) (m0 : Message) (rest : list Message) :
  Attr.EncodeUint32 unix.NETNSA_FD (Int.wrap32 ns) = inl data ->
  sendErr reply = None ->
  recvErr reply = None ->
  recvMsgs reply = m0 :: rest ->
  let w := world s in
  let w' := mkWorld (trace w ++ [ActRequest (nsidRequest (cons s) data)])%list
              (output w) (closed w) (sockets w) in
  isPeerNS ns reply s
  = if Type_ (Header_ m0) =? netlink.Error
    then Ok false (mkState (cons s) w')
    else Ok match Attr.NewAttributeDecoder (Data m0) with
            | inl d => match firstNSID d with
                       | Some a => 0 <=? Int.int32_of_uint32 (Attr.Uint32 a)
                       | None => false
                       end
            | inr _ => false
            end
            (mkState (set_netlinkSeqNumber
                        (Int.incr32 (netlinkSeqNumber (cons s))) (cons s)) w').
Proof.
  intros Henc Hsend Hrecv Hmsgs w w'.
  unfold isPeerNS, bind, getC, act, modC, ret.
  rewrite Henc, Hsend, Hrecv, Hmsgs. cbn.
  destruct (Type_ (Header_ m0) =? netlink.Error); [reflexivity|]. cbn.
  destruct (Attr.NewAttributeDecoder (Data m0)) as [d|e]; [|reflexivity].
  unfold firstNSID. now rewrite scanNSID_find by lia.
Qed.


(** C10. [isPeerNS] indexes the reply at 0 without looking at its length:
    it panics exactly when the request was encoded and sent and [Receive]
    returned no error and no message.  So it is under the precondition
    that a [Receive] without an error returns at least one message that
    the access is in bounds, and then [isPeerNS] returns. *)
Theorem isPeerNS_panics_iff_empty_reply
    (ns : Z) (reply : Reply) (s : State B) :
  ((exists reason, isPeerNS ns reply s = Panic reason) <->
   (exists data, Attr.EncodeUint32 unix.NETNSA_FD (Int.wrap32 ns) = inl data)
   /\ sendErr reply = None /\ recvErr reply = None /\ recvMsgs reply = [])
  /\ ((recvErr reply = None -> recvMsgs reply <> []) ->
      exists b s', isPeerNS ns reply s = Ok b s').
Proof.
  split.
  - unfold isPeerNS, bind, getC, act, modC, ret, panic.
    destruct (Attr.EncodeUint32 unix.NETNSA_FD (Int.wrap32 ns)) as [data|e];
      cbn.
    2: { split; [now intros [? [=]]|]. now intros ([? [=]] & _). }
    destruct (sendErr reply); cbn.
    1: { split; [now intros [? [=]]|]. now intros (_ & [=] & _). }
    destruct (recvErr reply); cbn.
    1: { split; [now intros [? [=]]|]. now intros (_ & _ & [=] & _). }
    destruct (recvMsgs reply) as [|m0 rest]; cbn.
    1: { split; [|now eexists]. intros _. repeat split. now exists data. }
    split; [|now intros (_ & _ & _ & [=])]. intros [reason Hp]. exfalso.
    destruct (Type_ (Header_ m0) =? netlink.Error); [discriminate|]. cbn in Hp.
    destruct (Attr.NewAttributeDecoder (Data m0)) as [d|e]; [|discriminate].
    rewrite scanNSID_find in Hp by lia. discriminate.
  - intros Hpre.
    destruct (Attr.EncodeUint32 unix.NETNSA_FD (Int.wrap32 ns)) as [data|e]
      eqn:Henc.
    2: { unfold isPeerNS. rewrite Henc. now do 2 eexists. }
    destruct (sendErr reply) eqn:Hsend.
    1: { unfold isPeerNS, bind, getC, act, ret. rewrite Henc, Hsend. cbn.
         now do 2 eexists. }
    destruct (recvErr reply) eqn:Hrecv.
    1: { unfold isPeerNS, bind, getC, act, ret. rewrite Henc, Hsend, Hrecv.
         cbn. now do 2 eexists. }
    destruct (recvMsgs reply) as [|m0 rest] eqn:Hmsgs; [now destruct Hpre|].
    rewrite (isPeerNS_replied ns reply s data m0 rest) by assumption.
    destruct (Type_ (Header_ m0) =? netlink.Error); now do 2 eexists.
Qed.

(** C8, as amended. A peer-namespace query advances the sequence number
    exactly when it is answered by a reply whose first message is not an
    error frame, and then by one, wrapping around at 2^32; a query whose
    send or receive fails, or whose reply is an error frame, leaves it as
    it was.  So across queries the sequence number never decreases as long
    as it has not reached 2^32 - 1, and it increases strictly only across
    the answered ones. *)
Theorem netlinkSeqNumber_advance
    (ns : Z) (reply : Reply) (s s' : State B) (b : bool) :
  isPeerNS ns reply s = Ok b s' ->
  let seq := netlinkSeqNumber (cons s) in
  let seq' := netlinkSeqNumber (cons s') in
  seq' = (if answered ns reply then Int.incr32 seq else seq)
  /\ (sendErr reply <> None \/ recvErr reply <> None
      \/ (exists m0 rest, recvMsgs reply = m0 :: rest
                          /\ Type_ (Header_ m0) = netlink.Error) ->
      seq' = seq)
  /\ (0 <= seq < 2 ^ 32 - 1 ->
      seq <= seq' /\ (answered ns reply = true -> seq' = seq + 1)).
Proof.
  intros Hrun seq seq'.
  assert (Hseq : seq' = (if answered ns reply then Int.incr32 seq else seq)).
  { subst seq seq'. revert Hrun.
    unfold answered, isPeerNS, bind, getC, act, modC, ret, panic.
    destruct (Attr.EncodeUint32 unix.NETNSA_FD (Int.wrap32 ns)) as [data|e];
      cbn; [|now intros [= <- <-]].
    destruct (sendErr reply); cbn; [now intros [= <- <-]|].
    destruct (recvErr reply); cbn; [now intros [= <- <-]|].
    destruct (recvMsgs reply) as [|m0 rest]; cbn; [discriminate|].
    destruct (Type_ (Header_ m0) =? netlink.Error); cbn;
      [now intros [= <- <-]|].
    destruct (Attr.NewAttributeDecoder (Data m0)) as [d|e];
      [|now intros [= <- <-]].
    rewrite scanNSID_find by lia. now intros [= <- <-]. }
  split; [exact Hseq|]. split.
  - intros Hfail. rewrite Hseq. unfold answered.
    destruct (Attr.EncodeUint32 unix.NETNSA_FD (Int.wrap32 ns)); [|reflexivity].
    destruct (sendErr reply); [reflexivity|].
    destruct (recvErr reply); [reflexivity|].
    destruct Hfail as [Hf|[Hf|(m0 & rest & -> & Ht)]]; try congruence.
    now rewrite Ht.
  - intros Hrange. rewrite Hseq.
    assert (Hincr : Int.incr32 seq = seq + 1).
    { unfold Int.incr32. apply wrap32_small. lia. }
    destruct (answered ns reply); rewrite ?Hincr; split; lia.
Qed.

End PeerFacts.

(** The decoder of the library on the reply the kernel gives to
    [RTM_GETNSID]: the four bytes of the [rtgenmsg] header are read as an
    empty attribute of type 0, the attribute after it is the
    [NETNSA_NSID] one, and [isPeerNS] answers by the sign of its value. *)
Lemma isPeerNS_kernel_reply {B : Type} (ns : Z) (b0 b1 b2 b3 : byte)
    (s : State B) :
  let m := mkMessage (mkHeader 28 88 0 1 0)
             [x00; x00; x00; x00; x08; x00; x01; x00; b0; b1; b2; b3] in
  exists s',
    isPeerNS (D:=NlAttr.Decoder) ns (mkReply None [m] None) s
    = Ok (0 <=? Int.int32_of_uint32 (NlAttr.uint32 [b0; b1; b2; b3])) s'.
Proof.
  intros m.
  assert (Henc : Attr.EncodeUint32 (D:=NlAttr.Decoder) unix.NETNSA_FD
                   (Int.wrap32 ns)
                 = inl (NlAttr.putUint16 8 ++ NlAttr.putUint16 unix.NETNSA_FD
                          ++ NlAttr.putUint32 (Int.wrap32 ns))%list)
    by reflexivity.
  rewrite (isPeerNS_replied ns (mkReply None [m] None) s _ m [] Henc
             eq_refl eq_refl eq_refl).
  change (Type_ (Header_ m) =? netlink.Error) with false. cbv iota.
  assert (Hdec : Attr.NewAttributeDecoder (D:=NlAttr.Decoder) (Data m)
                 = inl (NlAttr.mkDecoder (NlAttr.mkAttribute 0 0 []) (Data m)
                          0 false))
    by reflexivity.
  rewrite Hdec.
  assert (Hfirst : firstNSID (NlAttr.mkDecoder (NlAttr.mkAttribute 0 0 [])
                                (Data m) 0 false)
                   = Some (NlAttr.mkDecoder
                             (NlAttr.mkAttribute 8 1 [b0; b1; b2; b3])
                             (Data m) 12 false))
    by (vm_compute; reflexivity).
  rewrite Hfirst. eexists. reflexivity.
Qed.


(** ** The theorems at concrete inputs *)

(** With 180 messages counted, a batch of 20 brings the rate to 200, twice
    the target: on a pre-3.15 kernel the breaker is reset and nothing else
    happens. *)
Lemma throttle_pre315_witness :
  throttle true kernelOk 20 (streamingState 180)
  = Ok None
      (mkState (set_breaker (WindowBreaker.mk 100 0)
                  (incr_throttles
                     (set_breaker (WindowBreaker.mk 100 200)
                        (streamingConsumer 100 180))))
         streamingWorld).
Proof.
  assert (Hopen : IsOpen (Tick (breaker (streamingConsumer 100 180)) 20) = true)
    by reflexivity.
  exact (proj1 (throttle_pre315_resets_and_continues true checkMessageSpec
                  kernelOk (streamingConsumer 100 180) streamingWorld 20
                  eq_refl eq_refl Hopen)).
Defined.

(** The same trip on a newer kernel: socket 0 is closed, socket 1 opened,
    and the consumer samples at [100 / 200 * 1.0 * 0.95], which in float64
    is [0.95 / 2] exactly. *)
Lemma throttle_reinitializes_witness :
  exists err s' tl,
    throttle false kernelOk 20 (streamingState 180) = Ok err s'
    /\ samplingRate (cons s') = (Float64.overshootFactor / 2)%float
    /\ conn (cons s') = Some 1%nat
    /\ trace (world s')
       = (trace streamingWorld ++ ActClose 0%nat :: ActOpen 1%nat :: tl)%list.
Proof.
  assert (Hopen : IsOpen (Tick (breaker (streamingConsumer 100 180)) 20) = true)
    by reflexivity.
  destruct (throttle_reinitializes_with_scaled_rate false kernelOk
              (streamingConsumer 100 180) streamingWorld 20 0%nat
              eq_refl eq_refl Hopen eq_refl) as (_ & Hrun & _).
  destruct (Hrun eq_refl) as (err & s' & tl & Hthr & Hrate & Hconn & Htrace).
  exists err, s', tl. repeat split; assumption.
Defined.


(** C4 as the specification words it (after an error that is not an EOF
    the loop continues and the messages are delivered) does not hold.  An
    ENOBUFS read that brought twenty messages, at a moment when they trip
    the breaker and no socket can be had: the read is counted, the loop
    returns and the messages are not put on the channel.  And a read whose
    error has "no buffer space" and "closed file" in it is an EOF:
    [enobufs] is not raised and the loop returns. *)
Lemma error_read_not_always_delivered :
  exists s',
    rerr enobufStorm = Some "recvmsg: no buffer space available"
    /\ List.length (rmsgs enobufStorm) = 20%nat
    /\ receiveOnce false checkMessageSpec kernelNoSocket enobufStorm
         (streamingState 180) = Ok Return s'
    /\ ReadLoop false checkMessageSpec kernelNoSocket
         [enobufStorm; batch 1%nat 1] (streamingState 180) = Ok Returned s'
    /\ enobufs (cons s') = 1
    /\ output (world s') = []
    /\ Contains "no buffer space: use of closed file" "no buffer space" = true
    /\ receiveOnce false checkMessageSpec kernelOk
         (mkReceived 3%nat [ctNew] 0
            (Some "no buffer space: use of closed file"))
         (streamingState 0) = Ok Return (streamingState 0)
    /\ enobufs (cons (streamingState 0)) = 0.
Proof.
  eexists.
  split; [reflexivity|]. split; [reflexivity|].
  split; [vm_compute; reflexivity|].
  split; [vm_compute; reflexivity|].
  split; [reflexivity|]. split; [reflexivity|].
  split; [vm_compute; reflexivity|].
  split; [vm_compute; reflexivity|]. reflexivity.
Qed.



(** C2 as the specification words it (every batch whose last message is
    Done) does not hold: in a dump, a batch of an error frame and the Done
    sentinel is dropped by the validation walk, so nothing is put on the
    channel and the loop does not return; it waits for the next read. *)
Lemma done_batch_with_error_frame_is_dropped :
  exists s1 s2,
    multiPartDone (rmsgs errorThenDone) = true
    /\ streaming (cons dumpState) = false
    /\ receiveOnce false checkMessageSpec kernelOk errorThenDone dumpState
       = Ok Continue s1
    /\ output (world s1) = []
    /\ receive false checkMessageSpec kernelOk [errorThenDone] dumpState
       = Ok Waiting s2
    /\ output (world s2) = [].
Proof.
  do 2 eexists.
  split; [reflexivity|]. split; [reflexivity|].
  split; [vm_compute; reflexivity|]. split; [reflexivity|].
  split; [vm_compute; reflexivity|]. reflexivity.
Qed.

(** C5 as the specification words it (every batch with an invalid
    message) does not hold: while streaming, a batch of twenty messages
    and an error frame that trips the breaker when no socket can be had is
    not counted in [msg_errors], and the loop does not continue with the
    next iteration; it returns. *)
Lemma invalid_batch_not_counted_when_throttle_fails :
  exists s',
    In (messageOfType netlink.Error) (rmsgs invalidStorm)
    /\ checkMessageSpec (messageOfType netlink.Error)
       = Some "netlink error frame"
    /\ receiveOnce false checkMessageSpec kernelNoSocket invalidStorm
         (streamingState 180) = Ok Return s'
    /\ ReadLoop false checkMessageSpec kernelNoSocket
         [invalidStorm; batch 1%nat 1] (streamingState 180) = Ok Returned s'
    /\ msgErrors (cons (streamingState 180)) = 0
    /\ msgErrors (cons s') = 0
    /\ output (world s') = [].
Proof.
  eexists.
  split; [apply in_or_app; right; left; reflexivity|].
  split; [reflexivity|].
  split; [vm_compute; reflexivity|].
  split; [vm_compute; reflexivity|].
  split; [reflexivity|]. split; [reflexivity|]. reflexivity.
Qed.

(** An ENOBUFS read without messages still puts one event on the channel,
    an event without messages. *)
Lemma iteration_emits_witness :
  exists ctl s2,
    receiveOnce false checkMessageSpec kernelOk enobufRead (streamingState 0)
    = Ok ctl s2
    /\ output (world s2) = [mkEvent [] 0 3%nat].
Proof.
  assert (Hne : notEOF (rerr enobufRead)).
  { intros e [= <-]. reflexivity. }
  assert (Hthr : throttle false kernelOk
                   (Z.of_nat (List.length (rmsgs enobufRead)))
                   (mkState (countError (rerr enobufRead)
                               (streamingConsumer 100 0)) streamingWorld)
                 = Ok None
                     (mkState (set_breaker (WindowBreaker.mk 100 0)
                                 (incr_enobufs (streamingConsumer 100 0)))
                        streamingWorld))
    by (vm_compute; reflexivity).
  destruct (iteration_emits_one_event false checkMessageSpec kernelOk
              enobufRead (streamingConsumer 100 0) streamingWorld _
              Hne Hthr eq_refl) as (ctl & s2 & Hstep & _ & Hnil).
  exists ctl, s2. split; [exact Hstep|]. exact (Hnil eq_refl).
Defined.

(** S2: the socket re-opened after the trip stores 47 as [sampling_pct],
    and 0 when the filter cannot be attached. *)
Lemma initNetlinkSocket_samplingPct_witness :
  (exists s',
     initNetlinkSocket kernelOk (Float64.overshootFactor / 2)%float
       (streamingState 200) = Ok None s'
     /\ samplingPct (cons s') = 47)
  /\ (exists s',
        initNetlinkSocket kernelNoBPF (Float64.overshootFactor / 2)%float
          (streamingState 200)
        = Ok (Some "failed to attach BPF filter: operation not permitted") s'
        /\ samplingPct (cons s') = 0).
Proof.
  split.
  - destruct (initNetlinkSocket_samplingPct kernelOk
                (Float64.overshootFactor / 2)%float
                (streamingConsumer 100 200) streamingWorld eq_refl)
      as ((err & s' & Hrun & _ & _ & Hok & _) & _).
    destruct (Hok eq_refl eq_refl) as [-> Hpct].
    exists s'. split; [exact Hrun|exact Hpct].
  - destruct (initNetlinkSocket_samplingPct kernelNoBPF
                (Float64.overshootFactor / 2)%float
                (streamingConsumer 100 200) streamingWorld eq_refl)
      as ((err & s' & Hrun & _ & _ & _ & Hfail) & _).
    destruct (Hfail eq_refl "operation not permitted" eq_refl) as [-> Hpct].
    exists s'. split; [exact Hrun|exact Hpct].
Defined.

(** C6 as the specification words it (rounding) does not hold: at the
    sampling rate 0.999 the product [s * 100] is 99.9 and rounds to 100,
    but 99 is stored; and at the rate 0.475 of the specification's own
    example the product is 47.5, which rounds to 48, and 47 is stored. *)
Lemma samplingPct_is_not_rounded :
  exists (s1 s2 : State WindowBreaker.t),
    initNetlinkSocket kernelOk 0x1.ff7ced916872bp-1%float (streamingState 0)
    = Ok None s1
    /\ Float64.round_nearest (0x1.ff7ced916872bp-1 * Float64.hundred)%float
       = Some 100
    /\ samplingPct (cons s1) = 99
    /\ Some (samplingPct (cons s1))
       <> Float64.round_nearest (0x1.ff7ced916872bp-1 * Float64.hundred)%float
    /\ initNetlinkSocket kernelOk (Float64.overshootFactor / 2)%float
         (streamingState 0) = Ok None s2
    /\ Float64.round_nearest
         (Float64.overshootFactor / 2 * Float64.hundred)%float = Some 48
    /\ samplingPct (cons s2) = 47
    /\ Some (samplingPct (cons s2))
       <> Float64.round_nearest
            (Float64.overshootFactor / 2 * Float64.hundred)%float.
Proof.
  do 2 eexists.
  split; [vm_compute; reflexivity|].
  split; [vm_compute; reflexivity|].
  split; [vm_compute; reflexivity|].
  split; [vm_compute; discriminate|].
  split; [vm_compute; reflexivity|].
  split; [vm_compute; reflexivity|].
  split; [vm_compute; reflexivity|].
  vm_compute; discriminate.
Qed.


(** C7 as the specification words it (the scan finds a [NETNSA_NSID]
    attribute whose value is not negative) does not hold when the reply
    has more than one such attribute: with an attribute of value -1
    followed by one of value 5, the scan goes through a position at a
    [NETNSA_NSID] attribute of value 5, which is not negative as an
    int32, and [isPeerNS] returns false, for the one it stopped at is the
    first. *)
Lemma isPeerNS_stops_at_first_nsid :
  exists (s' : State WindowBreaker.t) (d a : NlAttr.Decoder),
    isPeerNS (D:=NlAttr.Decoder) 7 (mkReply None [twoNsidReply] None) dumpState
    = Ok false s'
    /\ Type_ (Header_ twoNsidReply) <> netlink.Error
    /\ Attr.NewAttributeDecoder (Data twoNsidReply) = inl d
    /\ In a (cursors (S (Attr.remaining d)) d)
    /\ Attr.Type_ a = unix.NETNSA_NSID
    /\ Attr.Uint32 a = 5
    /\ 0 <= Int.int32_of_uint32 (Attr.Uint32 a).
Proof.
  exists (mkState (set_netlinkSeqNumber 2 (cons dumpState))
            (mkWorld
               [ActRequest
                  (nsidRequest (cons dumpState)
                     (NlAttr.putUint16 8 ++ NlAttr.putUint16 unix.NETNSA_FD
                        ++ NlAttr.putUint32 7)%list)]
               [] false 0)),
    (NlAttr.mkDecoder (NlAttr.mkAttribute 0 0 []) (Data twoNsidReply) 0 false),
    (NlAttr.mkDecoder (NlAttr.mkAttribute 8 1 [x05; x00; x00; x00])
       (Data twoNsidReply) 20 false).
  split; [vm_compute; reflexivity|].
  split; [discriminate|].
  split; [reflexivity|].
  split; [vm_compute; right; right; right; left; reflexivity|].
  split; [reflexivity|].
  split; [reflexivity|].
  vm_compute. discriminate.
Qed.

(** An answered query moves the sequence number from 1 to 2. *)
Lemma netlinkSeqNumber_advance_witness :
  exists s',
    isPeerNS (D:=NlAttr.Decoder) 7 peerReply dumpState = Ok true s'
    /\ netlinkSeqNumber (cons s') = 2.
Proof.
  destruct (isPeerNS (D:=NlAttr.Decoder) 7 peerReply dumpState)
    as [b s'| |] eqn:Hrun.
  - destruct (netlinkSeqNumber_advance 7 peerReply dumpState s' b Hrun)
      as (Hseq & _).
    assert (Hb : b = true).
    { revert Hrun. vm_compute. now intros [= <- _]. }
    exists s'. rewrite Hb. split; [reflexivity|]. exact Hseq.
  - exfalso. revert Hrun. vm_compute. discriminate.
  - exfalso. revert Hrun. vm_compute. discriminate.
Defined.

(** C8 as the specification words it (strictly increasing) does not
    hold: a query that cannot be sent leaves the sequence number at 1, so
    it did not strictly increase across that query; and at 2^32 - 1 an
    answered query wraps it around to 0. *)
Lemma netlinkSeqNumber_not_strictly_increasing :
  (exists s',
     isPeerNS (D:=NlAttr.Decoder) 7
       (mkReply (Some "sendmsg: operation not permitted") [] None) dumpState
     = Ok false s'
     /\ netlinkSeqNumber (cons dumpState) = 1
     /\ netlinkSeqNumber (cons s') = 1
     /\ ~ netlinkSeqNumber (cons dumpState) < netlinkSeqNumber (cons s'))
  /\ (exists s',
        isPeerNS (D:=NlAttr.Decoder) 7 peerReply
          (mkState (set_netlinkSeqNumber (2 ^ 32 - 1) (cons dumpState))
             emptyWorld)
        = Ok true s'
        /\ netlinkSeqNumber (cons s') = 0
        /\ ~ 2 ^ 32 - 1 < netlinkSeqNumber (cons s')).
Proof.
  split; eexists; (split; [vm_compute; reflexivity|]).
  - split; [reflexivity|]. split; [reflexivity|]. cbn. lia.
  - split; [vm_compute; reflexivity|]. vm_compute. discriminate.
Qed.

(** A [Receive] that returns neither an error nor a message makes
    [isPeerNS] panic; with the kernel's reply it returns. *)
Lemma isPeerNS_panics_witness :
  (exists reason,
     isPeerNS (D:=NlAttr.Decoder) 7 (mkReply None [] None) dumpState
     = Panic reason)
  /\ (exists b s',
        isPeerNS (D:=NlAttr.Decoder) 7 notPeerReply dumpState = Ok b s').
Proof.
  split.
  - apply (proj1 (isPeerNS_panics_iff_empty_reply (D:=NlAttr.Decoder) 7
                    (mkReply None [] None) dumpState)).
    repeat split. eexists. reflexivity.
  - apply (proj2 (isPeerNS_panics_iff_empty_reply (D:=NlAttr.Decoder) 7
                    notPeerReply dumpState)).
    intros _. discriminate.
Defined.

(** ** Scenarios of the specification, run on the model *)

(** S1, a simple dump: a batch of three messages, then a message and the
    Done sentinel.  Two events, of three messages and of one; the loop has
    returned and lowered its flag; nothing was throttled. *)
Example simple_dump :
  exists s',
    receive false checkMessageSpec kernelOk [batch 0%nat 3; lastOfDump] dumpState
    = Ok Returned s'
    /\ map (fun e => List.length (msgs e)) (output (world s')) = [3; 1]%nat
    /\ throttles (cons s') = 0
    /\ recvLoopRunning (cons s') = 0.
Proof.
  eexists. split; [vm_compute; reflexivity|]. repeat split.
Qed.

(** S3, a storm on a pre-3.15 kernel: ten batches of twenty messages
    against a target of 100.  The breaker trips, and is reset; the
    percentage stays at 100, the only socket opened is the first one and
    it is never closed, and the loop is still running, waiting for the
    next read with the channel open. *)
Example pre315_storm :
  exists s',
    Events true checkMessageSpec kernelOk (repeat (batch 0%nat 20) 10) dumpState
    = Ok None s'
    /\ throttles (cons s') = 1
    /\ samplingPct (cons s') = 100
    /\ trace (world s')
       = [ActOpen 0%nat; ActSetsockopt 0%nat SO_RCVBUFFORCE netlinkBufferSize;
          ActJoinGroup 0%nat netlinkCtNew]
    /\ List.length (output (world s')) = 10%nat
    /\ closed (world s') = false
    /\ recvLoopRunning (cons s') = 1.
Proof.
  eexists. split; [vm_compute; reflexivity|]. repeat split.
Qed.

(** S2, the same storm on a newer kernel: at the sixth batch the breaker
    has counted 120 messages; the socket is closed and a new one opened
    with a filter sampling at [100 / 120 * 0.95], and the percentage drops
    to 79. *)
Example sampling_storm :
  exists s' rate,
    Events false checkMessageSpec kernelOk (repeat (batch 0%nat 20) 6) dumpState
    = Ok None s'
    /\ throttles (cons s') = 1
    /\ samplingPct (cons s') = 79
    /\ trace (world s')
       = [ActOpen 0%nat; ActSetsockopt 0%nat SO_RCVBUFFORCE netlinkBufferSize;
          ActJoinGroup 0%nat netlinkCtNew; ActClose 0%nat; ActOpen 1%nat;
          ActSetsockopt 1%nat SO_RCVBUFFORCE netlinkBufferSize;
          ActSetBPF 1%nat rate; ActJoinGroup 1%nat netlinkCtNew]
    /\ samplingRate (cons s') = rate
    /\ recvLoopRunning (cons s') = 1.
Proof.
  do 2 eexists. split; [vm_compute; reflexivity|]. repeat split.
Qed.

(** The storm when no new socket can be had: [throttle] returns the error,
    the loop returns and the channel is closed. *)
Example sampling_storm_without_socket :
  exists s',
    throttle false kernelNoSocket 20 (streamingState 180)
    = Ok (Some "too many open files") s'
    /\ conn (cons s') = None
    /\ receiveOnce false checkMessageSpec kernelNoSocket (batch 0%nat 20)
         (streamingState 180) = Ok Return s'.
Proof.
  eexists. split; [vm_compute; reflexivity|]. split; vm_compute; reflexivity.
Qed.

(** S5, stop: the read that follows the closing of the socket fails with a
    "closed file" error; the loop returns, the flag is lowered and the
    channel closed. *)
Example stop_mid_stream :
  exists s',
    Events false checkMessageSpec kernelOk
      [batch 0%nat 3; mkReceived 1%nat [] 0 (Some "read: use of closed file")]
      dumpState
    = Ok None s'
    /\ List.length (output (world s')) = 1%nat
    /\ closed (world s') = true
    /\ recvLoopRunning (cons s') = 0.
Proof.
  eexists. split; [vm_compute; reflexivity|]. repeat split.
Qed.

(** ** Facts about [socketError] *)

Lemma prefix_append (a b : string) : prefix a (a ++ b) = true.
Proof.
  induction a as [|c a IH]; cbn; [now destruct b|].
  destruct (ascii_dec c c); [assumption|congruence].
Qed.

Lemma prefix_split (a s : string) :
  prefix a s = true -> exists post, s = a ++ post.
Proof.
  revert s. induction a as [|c a IH]; intros s.
  - intros _. now exists s.
  - destruct s as [|c' s]; cbn; [discriminate|].
    destruct (ascii_dec c c') as [<-|]; [|discriminate].
    intros Hp. destruct (IH _ Hp) as (post & ->). now exists post.
Qed.

Lemma Contains_empty (sub : string) :
  Contains "" sub = match sub with EmptyString => true | _ => false end.
Proof. now destruct sub. Qed.

Lemma Contains_step (sub : string) (c : ascii) (s : string) :
  Contains (String c s) sub = prefix sub (String c s) || Contains s sub.
Proof.
  unfold Contains. cbn [index].
  destruct (prefix sub (String c s)); [reflexivity|].
  now destruct (index 0 sub s).
Qed.

Lemma Contains_occurs (s sub : string) :
  Contains s sub = true <-> occurs sub s.
Proof.
  unfold occurs. induction s as [|c s IH].
  - rewrite Contains_empty. split.
    + destruct sub; [|discriminate]. intros _. now exists "", "".
    + intros (pre & post & E). destruct pre; [|discriminate].
      cbn in E. now destruct sub.
  - rewrite Contains_step, orb_true_iff, IH. split.
    + intros [Hp|(pre & post & ->)].
      * destruct (prefix_split _ _ Hp) as (post & ->). now exists "", post.
      * now exists (String c pre), post.
    + intros (pre & post & E). destruct pre as [|c' pre]; cbn in E.
      * left. rewrite E. apply prefix_append.
      * right. injection E as _ ->. now exists pre, post.
Qed.

Lemma append_assoc' (a b c : string) : (a ++ b) ++ c = a ++ b ++ c.
Proof. induction a as [|x a IH]; cbn; [reflexivity|now rewrite IH]. Qed.

Lemma occurs_append (sub pre s : string) : occurs sub s -> occurs sub (pre ++ s).
Proof.
  intros (p & q & ->). exists (pre ++ p), q. now rewrite append_assoc'.
Qed.

Lemma Contains_wrapError (p e sub : string) :
  Contains e sub = true -> Contains (wrapError p e) sub = true.
Proof.
  rewrite !Contains_occurs. unfold wrapError. intros Ho.
  now do 2 apply occurs_append.
Qed.

(** X1. What [socketError] returns, by the text of the error: [errEOF]
    exactly when "closed file" occurs in it, also when "no buffer space"
    occurs in it as well; [errENOBUF] exactly when "no buffer space"
    occurs in it and "closed file" does not; and otherwise the error it
    was given, unchanged. *)
Theorem socketError_classification (err : error) :
  (socketError err = errEOF <-> occurs "closed file" err) /\
  (socketError err = errENOBUF <->
     ~ occurs "closed file" err /\ occurs "no buffer space" err) /\
  (forall e, socketError err = errOther e <->
     e = err /\ ~ occurs "closed file" err /\ ~ occurs "no buffer space" err).
Proof.
  unfold socketError.
  pose proof (Contains_occurs err "closed file") as H1.
  pose proof (Contains_occurs err "no buffer space") as H2.
  destruct (Contains err "closed file"), (Contains err "no buffer space");
    (split; [|split; [|intros e]]);
    intuition (try discriminate; try congruence).
Qed.

(** X2. Wrapping an error in a message ([fmt.Errorf] with "%w" after a
    prefix) keeps its class or makes it an EOF: an EOF stays an EOF under
    any prefix, and an ENOBUF stays an ENOBUF unless "closed file" comes
    with the prefix; a wrapped error of one of the two classes is never
    taken for an unclassified one. *)
Theorem socketError_wrapped (p : string) (e : error) :
  (socketError e = errEOF -> socketError (wrapError p e) = errEOF) /\
  (socketError e = errENOBUF ->
     socketError (wrapError p e) = errENOBUF \/ socketError (wrapError p e) = errEOF).
Proof.
  unfold socketError at 1 3.
  destruct (Contains e "closed file") eqn:E1.
  - split; [|discriminate]. intros _. unfold socketError.
    now rewrite (Contains_wrapError p _ _ E1).
  - destruct (Contains e "no buffer space") eqn:E2; split; try discriminate.
    intros _. unfold socketError. rewrite (Contains_wrapError p _ _ E2).
    destruct (Contains (wrapError p e) "closed file"); auto.
Qed.

(** ** Facts about whole runs of the receive loop *)

Lemma wrap64_range (z : Z) : Int.min_int64 <= Int.wrap64 z <= Int.max_int64.
Proof.
  unfold Int.wrap64, Int.min_int64, Int.max_int64.
  pose proof (Z.mod_pos_bound (z + 2 ^ 63) (2 ^ 64) eq_refl). lia.
Qed.

Lemma wrap64_add_l (a b : Z) : Int.wrap64 (Int.wrap64 a + b) = Int.wrap64 (a + b).
Proof.
  unfold Int.wrap64. f_equal.
  replace ((a + 2 ^ 63) mod 2 ^ 64 - 2 ^ 63 + b + 2 ^ 63)
    with ((a + 2 ^ 63) mod 2 ^ 64 + b) by lia.
  rewrite Zplus_mod_idemp_l. f_equal. lia.
Qed.

Arguments openSockets : simpl never.
Arguments held : simpl never.

Section LoopFacts.

Context {B : Type} `{CircuitBreaker B}.
Variable pre315Kernel : bool.
Variable checkMessage : Message -> option error.
Variable kernel : Kernel.

Lemma receiveOnce_EOF (r : Received) (s : State B) :
  isEOF r = true ->
  receiveOnce pre315Kernel checkMessage kernel r s = Ok Return s.
Proof.
  unfold isEOF, receiveOnce, socketError.
  destruct (rerr r) as [e|]; [|discriminate]. now intros ->.
Qed.

Lemma isEOF_notEOF (r : Received) : isEOF r = false -> notEOF (rerr r).
Proof. unfold isEOF, notEOF. intros E e He. now rewrite He in E. Qed.

Lemma countError_frame (err : option error) (c : Consumer B) :
  conn (countError err c) = conn c
  /\ streaming (countError err c) = streaming c
  /\ msgErrors (countError err c) = msgErrors c
  /\ recvLoopRunning (countError err c) = recvLoopRunning c
  /\ breaker (countError err c) = breaker c
  /\ throttles (countError err c) = throttles c
  /\ samplingPct (countError err c) = samplingPct c.
Proof.
  unfold countError. destruct err as [e|]; [|repeat split].
  destruct (socketError e); repeat split.
Qed.

Lemma throttle_off (n : Z) (c : Consumer B) (w : World) :
  streaming c = false ->
  throttle pre315Kernel kernel n (mkState c w) = Ok None (mkState c w).
Proof.
  intros Hs. unfold throttle, bind, getC, ret. cbn. now rewrite Hs.
Qed.

(** One iteration of the loop of a consumer that is not streaming. *)
Lemma receiveOnce_dump (r : Received) (c : Consumer B) (w : World) :
  streaming c = false ->
  receiveOnce pre315Kernel checkMessage kernel r (mkState c w)
  = Ok (if endsDump checkMessage r then Return else Continue)
       (mkState (countRead checkMessage c r)
          (mkWorld (trace w)
             (output w ++ (if delivered checkMessage r then [emitted r] else []))
             (closed w) (sockets w))).
Proof.
  intros Hs. unfold endsDump, delivered, countRead, allValid.
  destruct (isEOF r) eqn:Heof.
  - rewrite receiveOnce_EOF by assumption. cbn. rewrite app_nil_r.
    now destruct w.
  - rewrite receiveOnce_notEOF by now apply isEOF_notEOF.
    assert (Hs' : streaming (countError (rerr r) c) = false)
      by (now rewrite (proj1 (proj2 (countError_frame _ _)))).
    rewrite (deliver_throttled _ _ _ _ _ _ (throttle_off _ _ _ Hs')).
    unfold validateBatch.
    destruct (anyInvalid checkMessage (rmsgs r)); cbn [negb andb orb].
    + unfold bind, modC, ret. cbn. rewrite app_nil_r. now destruct w.
    + rewrite emitBatch_eq. cbn [cons]. rewrite Hs', andb_true_r.
      now destruct (multiPartDone (rmsgs r)).
Qed.

(** A run of the loop of a consumer that is not streaming. *)
Lemma ReadLoop_dump_run (rs : list Received) (c : Consumer B) (w : World) :
  streaming c = false ->
  let seen := upTo (endsDump checkMessage) rs in
  ReadLoop pre315Kernel checkMessage kernel rs (mkState c w)
  = Ok (if existsb (endsDump checkMessage) rs then Returned else Waiting)
       (mkState (fold_left (countRead checkMessage) seen c)
          (mkWorld (trace w)
             (output w ++ map emitted (filter (delivered checkMessage) seen))
             (closed w) (sockets w))).
Proof.
  revert c w. induction rs as [|r rs IH]; intros c w Hs; cbn zeta.
  - cbn. rewrite app_nil_r. now destruct w.
  - cbn [ReadLoop existsb upTo]. unfold bind.
    rewrite receiveOnce_dump by assumption.
    destruct (endsDump checkMessage r) eqn:Hend; cbn [orb].
    + cbn. now destruct (delivered checkMessage r).
    + rewrite IH.
      * cbn [fold_left filter world trace output closed sockets].
        destruct (delivered checkMessage r); cbn [map];
          now rewrite <- app_assoc.
      * unfold countRead.
        destruct (isEOF r); [assumption|].
        destruct (allValid checkMessage r); cbn;
          now rewrite (proj1 (proj2 (countError_frame _ _))).
Qed.

(** X3. [receive] of a consumer that is not streaming, over any reads and
    on any kernel: it returns at the first read that is an EOF or a valid
    batch ending with the Done sentinel, and waits for more when there is
    none; it puts on the channel the events of the reads up to that one
    that are valid and not an EOF, in the order of the reads; of the
    consumer it changes the three error counters, and [recvLoopRunning],
    which is 0 once it returned and 1 while it waits; and it does nothing
    else to the world: no socket is opened or closed, the channel is not
    closed. *)
Theorem receive_dump (rs : list Received) (c : Consumer B) (w : World) :
  streaming c = false ->
  let seen := upTo (endsDump checkMessage) rs in
  let c1 := fold_left (countRead checkMessage) seen (set_recvLoopRunning 1 c) in
  let w1 := mkWorld (trace w)
              (output w ++ map emitted (filter (delivered checkMessage) seen))
              (closed w) (sockets w) in
  receive pre315Kernel checkMessage kernel rs (mkState c w)
  = if existsb (endsDump checkMessage) rs
    then Ok Returned (mkState (set_recvLoopRunning 0 c1) w1)
    else Ok Waiting (mkState c1 w1).
Proof.
  intros Hs seen c1 w1. unfold receive, bind, modC at 1. cbn [cons world].
  rewrite ReadLoop_dump_run by assumption.
  now destruct (existsb (endsDump checkMessage) rs).
Qed.

(** What a read does to the three error counters of a consumer that is not
    streaming, and what it leaves alone. *)
Lemma countRead_counters (c : Consumer B) (r : Received) :
  let c' := countRead checkMessage c r in
  enobufs c' = (if isENOBUF r then Int.add64 (enobufs c) 1 else enobufs c)
  /\ readErrors c'
     = (if isOtherError r then Int.add64 (readErrors c) 1 else readErrors c)
  /\ msgErrors c'
     = (if dropped checkMessage r then Int.add64 (msgErrors c) 1
        else msgErrors c)
  /\ throttles c' = throttles c
  /\ samplingPct c' = samplingPct c.
Proof.
  unfold countRead, dropped, isENOBUF, isOtherError, isEOF, countError,
    socketError.
  destruct (rerr r) as [e|]; cbn.
  - destruct (Contains e "closed file"); cbn; [repeat split|].
    destruct (Contains e "no buffer space"), (allValid checkMessage r); cbn;
      repeat split.
  - destruct (allValid checkMessage r); cbn; repeat split.
Qed.

Lemma countRead_fold (l : list Received) (c : Consumer B) :
  Int.min_int64 <= enobufs c <= Int.max_int64 ->
  Int.min_int64 <= readErrors c <= Int.max_int64 ->
  Int.min_int64 <= msgErrors c <= Int.max_int64 ->
  let c' := fold_left (countRead checkMessage) l c in
  let count := fun p => Z.of_nat (List.length (filter p l)) in
  enobufs c' = Int.wrap64 (enobufs c + count isENOBUF)
  /\ readErrors c' = Int.wrap64 (readErrors c + count isOtherError)
  /\ msgErrors c' = Int.wrap64 (msgErrors c + count (dropped checkMessage))
  /\ throttles c' = throttles c
  /\ samplingPct c' = samplingPct c.
Proof.
  revert c. induction l as [|r l IH]; intros c He Hr Hm; cbn zeta.
  - cbn. rewrite !Z.add_0_r, !wrap64_small by assumption. repeat split.
  - cbn [fold_left filter].
    destruct (countRead_counters c r) as (E1 & E2 & E3 & E4 & E5).
    cbn zeta in E1, E2, E3, E4, E5.
    destruct (IH (countRead checkMessage c r)) as (I1 & I2 & I3 & I4 & I5).
    { rewrite E1. destruct (isENOBUF r); [apply wrap64_range|assumption]. }
    { rewrite E2. destruct (isOtherError r); [apply wrap64_range|assumption]. }
    { rewrite E3.
      destruct (dropped checkMessage r); [apply wrap64_range|assumption]. }
    cbn zeta in I1, I2, I3, I4, I5.
    rewrite I1, I2, I3, I4, I5, E1, E2, E3, E4, E5.
    repeat split.
    + destruct (isENOBUF r); [|reflexivity]. cbn [List.length].
      unfold Int.add64. rewrite wrap64_add_l. f_equal. lia.
    + destruct (isOtherError r); [|reflexivity]. cbn [List.length].
      unfold Int.add64. rewrite wrap64_add_l. f_equal. lia.
    + destruct (dropped checkMessage r); [|reflexivity]. cbn [List.length].
      unfold Int.add64. rewrite wrap64_add_l. f_equal. lia.
Qed.

(** X6. The telemetry after a dump.  For a consumer that is not streaming,
    whose counters are int64 values, [ReadLoop] over any reads returns or
    waits, and [GetStats] then reports: [enobufs], [read_errors] and
    [msg_errors] each higher (modulo 2^64) by the number of reads handled
    whose error is ENOBUF, whose error is of neither class, and that were
    dropped; [throttles] and [sampling_pct] as they were. *)
Theorem dump_counters (rs : list Received) (c : Consumer B) (w : World) :
  streaming c = false ->
  Int.min_int64 <= enobufs c <= Int.max_int64 ->
  Int.min_int64 <= readErrors c <= Int.max_int64 ->
  Int.min_int64 <= msgErrors c <= Int.max_int64 ->
  let seen := upTo (endsDump checkMessage) rs in
  let count := fun p => Z.of_nat (List.length (filter p seen)) in
  exists (e : LoopEnd) (s' : State B),
    ReadLoop pre315Kernel checkMessage kernel rs (mkState c w) = Ok e s'
    /\ GetStats (cons s')
       = [ ("enobufs", Int.wrap64 (enobufs c + count isENOBUF));
           ("throttles", throttles c);
           ("sampling_pct", samplingPct c);
           ("read_errors", Int.wrap64 (readErrors c + count isOtherError));
           ("msg_errors",
            Int.wrap64 (msgErrors c + count (dropped checkMessage))) ].
Proof.
  intros Hs He Hr Hm seen count.
  rewrite ReadLoop_dump_run by assumption.
  do 2 eexists. split; [reflexivity|]. cbn [cons].
  destruct (countRead_fold (upTo (endsDump checkMessage) rs) c He Hr Hm)
    as (E1 & E2 & E3 & E4 & E5).
  cbn zeta in E1, E2, E3, E4, E5. unfold GetStats.
  now rewrite E1, E2, E3, E4, E5.
Qed.

(** *** What [initNetlinkSocket] and [throttle] keep *)

Lemma openSockets_app (t l : list Action) :
  openSockets (t ++ l) = fold_left openAfter l (openSockets t).
Proof. unfold openSockets. apply fold_left_app. Qed.

Lemma initNetlinkSocket_returns (rate : float) (c : Consumer B) (w : World) :
  exists err s',
    initNetlinkSocket kernel rate (mkState c w) = Ok err s'
    /\ recvLoopRunning (cons s') = recvLoopRunning c
    /\ breaker (cons s') = breaker c
    /\ throttles (cons s') = throttles c
    /\ match openSocket kernel (sockets w) with
       | Opened =>
           conn (cons s') = Some (sockets w)
           /\ openSockets (trace (world s'))
              = (openSockets (trace w) ++ [sockets w])%list
           /\ (Float64.geb rate Float64.one = true
               \/ setBPF kernel (sockets w) = None -> err = None)
       | NsFailed e | SocketFailed e =>
           err = Some e /\ conn (cons s') = conn c
           /\ trace (world s') = trace w
       end.
Proof.
  unfold initNetlinkSocket, bind, nextSocket, getC, modC, act, ret. cbn.
  destruct (openSocket kernel (sockets w)); cbn;
    [|do 2 eexists; repeat split..].
  destruct (listenAllNamespaces c); cbn;
    destruct (Float64.geb rate Float64.one) eqn:Hge; cbn;
    try destruct (setBPF kernel (sockets w)) eqn:Hbpf; cbn;
    do 2 eexists; (split; [reflexivity|]); cbn;
    repeat (split; [reflexivity|]);
    (split; [now rewrite !openSockets_app|]);
    intros [E|E]; congruence.
Qed.

Lemma throttle_returns (n : Z) (c : Consumer B) (w : World) :
  connected c ->
  exists err s',
    throttle pre315Kernel kernel n (mkState c w) = Ok err s'
    /\ (err = None -> connected (cons s'))
    /\ (healthy kernel -> err = None).
Proof.
  intros Hc. unfold connected in Hc.
  unfold throttle, bind, getC, modC, ret, closeConn, connJoinGroup, act, panic.
  cbn.
  destruct (streaming c) eqn:Hs; cbn.
  2:{ do 2 eexists. split; [reflexivity|]. split; [|reflexivity].
      intros _. unfold connected. cbn. congruence. }
  destruct (IsOpen (Tick (breaker c) n)); cbn.
  2:{ do 2 eexists. split; [reflexivity|]. split; [|reflexivity].
      intros _ _. cbn. auto. }
  destruct pre315Kernel; cbn.
  { do 2 eexists. split; [reflexivity|]. split; [|reflexivity].
    intros _ _. cbn. auto. }
  destruct (conn c) as [id|]; [|now destruct Hc]. cbn.
  match goal with |- context [initNetlinkSocket kernel ?r ?st] =>
    destruct (initNetlinkSocket_returns r (cons st) (world st))
      as (e & s1 & Hinit & _ & _ & _ & Hcase);
    cbn [cons world] in Hinit; rewrite Hinit
  end.
  cbn [world sockets] in Hcase.
  destruct e as [e|]; cbn.
  - do 2 eexists. split; [reflexivity|]. split; [discriminate|].
    intros Hk. destruct (Hk (sockets w)) as (Ho & Hb & _).
    rewrite Ho in Hcase. destruct Hcase as (_ & _ & Hnone).
    apply Hnone. now right.
  - destruct (openSocket kernel (sockets w)) eqn:Ho;
      [|now destruct Hcase..].
    destruct Hcase as (Hconn & _ & _). rewrite Hconn. cbn.
    do 2 eexists. split; [reflexivity|]. split.
    + intros _ _. cbn. rewrite Hconn. discriminate.
    + intros Hk. now destruct (Hk (sockets w)) as (_ & _ & ->).
Qed.

Lemma throttle_recvLoopRunning (n : Z) (s s' : State B) (err : option error) :
  throttle pre315Kernel kernel n s = Ok err s' ->
  recvLoopRunning (cons s') = recvLoopRunning (cons s).
Proof.
  unfold throttle, bind, getC, modC, ret, closeConn, connJoinGroup, act, panic.
  destruct s as [c w]; cbn.
  destruct (streaming c); cbn; [|now intros [= <- <-]].
  destruct (IsOpen (Tick (breaker c) n)); cbn; [|now intros [= <- <-]].
  destruct pre315Kernel; cbn; [now intros [= <- <-]|].
  destruct (conn c); cbn; [|discriminate].
  match goal with |- context [initNetlinkSocket kernel ?r ?st] =>
    destruct (initNetlinkSocket_returns r (cons st) (world st))
      as (e & s1 & Hinit & Hrun & _);
    cbn [cons world] in Hinit; rewrite Hinit
  end.
  cbn in Hrun. destruct e; cbn.
  - now intros [= <- <-].
  - destruct (conn (cons s1)); cbn; [|discriminate]. now intros [= <- <-].
Qed.

Lemma throttle_sockets (n : Z) (s s' : State B) (err : option error) :
  throttle pre315Kernel kernel n s = Ok err s' ->
  openSockets (trace (world s)) = held (cons s) ->
  openSockets (trace (world s')) = held (cons s').
Proof.
  unfold throttle, bind, getC, modC, ret, closeConn, connJoinGroup, act, panic.
  destruct s as [c w]; cbn.
  destruct (streaming c); cbn; [|now intros [= <- <-]].
  destruct (IsOpen (Tick (breaker c) n)); cbn; [|now intros [= <- <-]].
  destruct pre315Kernel; cbn; [now intros [= <- <-]|].
  unfold held at 1. destruct (conn c) as [id|]; cbn; [|discriminate].
  match goal with |- context [initNetlinkSocket kernel ?r ?st] =>
    destruct (initNetlinkSocket_returns r (cons st) (world st))
      as (e & s1 & Hinit & _ & _ & _ & Hcase);
    cbn [cons world] in Hinit; rewrite Hinit
  end.
  cbn [world sockets trace cons conn set_conn] in Hcase.
  rewrite openSockets_app in Hcase. cbn [fold_left openAfter] in Hcase.
  intros Hres Hheld. rewrite Hheld in Hcase. cbn [remove] in Hcase.
  destruct (Nat.eq_dec id id) as [_|]; [|congruence].
  destruct (openSocket kernel (sockets w)).
  - destruct Hcase as (Hconn & Hopen & _).
    destruct e; cbn in Hres.
    + injection Hres as <- <-. unfold held. now rewrite Hconn.
    + rewrite Hconn in Hres. cbn in Hres. injection Hres as <- <-.
      cbn. rewrite openSockets_app. cbn. unfold held. cbn. now rewrite Hconn.
  - destruct Hcase as (-> & Hconn & Htr). cbn in Hres.
    injection Hres as <- <-. unfold held. rewrite Hconn, Htr.
    rewrite openSockets_app. cbn. rewrite Hheld. cbn.
    now destruct (Nat.eq_dec id id).
  - destruct Hcase as (-> & Hconn & Htr). cbn in Hres.
    injection Hres as <- <-. unfold held. rewrite Hconn, Htr.
    rewrite openSockets_app. cbn. rewrite Hheld. cbn.
    now destruct (Nat.eq_dec id id).
Qed.

(** *** One iteration *)

Lemma anyInvalid_false (ms : list Message) :
  anyInvalid checkMessage ms = false ->
  Forall (fun m => checkMessage m = None) ms.
Proof.
  induction ms as [|m ms IH]; cbn; [constructor|].
  destruct (checkMessage m) eqn:E; [discriminate|].
  intros Hv. constructor; auto.
Qed.

Lemma Forall_removelast {A} (P : A -> Prop) (l : list A) :
  Forall P l -> Forall P (removelast l).
Proof.
  induction 1 as [|x l Hx Hl IH]; cbn; [constructor|].
  destruct l; [constructor|]. constructor; assumption.
Qed.

Lemma emitted_valid (r : Received) :
  delivered checkMessage r = true ->
  Forall (fun m => checkMessage m = None) (msgs (emitted r)).
Proof.
  unfold delivered, allValid. rewrite andb_true_iff, !negb_true_iff.
  intros (_ & Hv). apply anyInvalid_false in Hv.
  unfold emitted, eventFor. cbn.
  destruct (multiPartDone (rmsgs r)); [now apply Forall_removelast|assumption].
Qed.

(** What an iteration does to the channel and to [msg_errors]: [b] tells
    whether it got as far as the validation walk. *)
Lemma receiveOnce_outputs (r : Received) (s s' : State B) (ctl : Ctl) :
  receiveOnce pre315Kernel checkMessage kernel r s = Ok ctl s' ->
  exists b : bool,
    output (world s')
    = (output (world s)
       ++ (if b && delivered checkMessage r then [emitted r] else []))%list
    /\ msgErrors (cons s')
       = (if b && dropped checkMessage r
          then Int.add64 (msgErrors (cons s)) 1 else msgErrors (cons s))
    /\ closed (world s') = closed (world s)
    /\ streaming (cons s') = streaming (cons s)
    /\ (ctl = Continue -> b = true).
Proof.
  destruct s as [c w]. unfold delivered, dropped, allValid.
  destruct (isEOF r) eqn:Heof.
  - rewrite receiveOnce_EOF by assumption. intros [= <- <-].
    exists false. cbn. rewrite app_nil_r. repeat split. discriminate.
  - rewrite receiveOnce_notEOF by now apply isEOF_notEOF.
    unfold deliver, bind.
    destruct (throttle pre315Kernel kernel _ _) as [terr s1| |] eqn:Hthr;
      try discriminate.
    apply throttle_frame in Hthr.
    destruct Hthr as (Hout & Hcl & Hst & _ & _ & Hme & _).
    cbn [cons world] in Hout, Hcl, Hst, Hme.
    rewrite (proj1 (proj2 (countError_frame _ _))) in Hst.
    rewrite (proj1 (proj2 (proj2 (countError_frame _ _)))) in Hme.
    destruct terr as [e|].
    + intros [= <- <-]. exists false. cbn. rewrite app_nil_r.
      repeat split; try assumption. discriminate.
    + unfold validateBatch.
      destruct (anyInvalid checkMessage (rmsgs r)); cbn [negb andb].
      * unfold bind, modC, ret. intros [= <- <-]. exists true. cbn.
        rewrite app_nil_r, Hme. repeat split; assumption.
      * rewrite emitBatch_eq. intros [= <- <-]. exists true. cbn.
        rewrite Hout, Hme. repeat split; assumption.
Qed.

(** X4. Whatever the mode and the kernel, a run of [ReadLoop] that returns
    or waits has handled the reads of a prefix of what the socket
    delivered, in order: the channel holds, after what it held, exactly the
    events of the reads of that prefix that are valid and not an EOF, one
    each and in the order of the reads; [msg_errors] went up by the number
    of reads of the prefix that were dropped, one per batch however many of
    its messages fail; and the channel is not closed by the loop.  A loop
    that waits has handled every read. *)
Theorem ReadLoop_delivers_in_order
    (rs : list Received) (s s' : State B) (e : LoopEnd) :
  Int.min_int64 <= msgErrors (cons s) <= Int.max_int64 ->
  ReadLoop pre315Kernel checkMessage kernel rs s = Ok e s' ->
  exists n : nat,
    (n <= List.length rs)%nat
    /\ output (world s')
       = (output (world s)
          ++ map emitted (filter (delivered checkMessage) (firstn n rs)))%list
    /\ msgErrors (cons s')
       = Int.wrap64
           (msgErrors (cons s)
            + Z.of_nat (List.length
                          (filter (dropped checkMessage) (firstn n rs))))
    /\ closed (world s') = closed (world s)
    /\ (e = Waiting -> n = List.length rs).
Proof.
  revert s. induction rs as [|r rs IH]; intros s Hrange.
  - cbn. intros [= <- <-]. exists 0%nat. cbn.
    rewrite app_nil_r, Z.add_0_r, wrap64_small by assumption.
    repeat split. lia.
  - cbn [ReadLoop]. unfold bind.
    destruct (receiveOnce pre315Kernel checkMessage kernel r s)
      as [ctl s1| |] eqn:Hstep; try discriminate.
    destruct (receiveOnce_outputs _ _ _ _ Hstep) as (b & Hout & Hme & Hcl & _ & Hb).
    destruct ctl.
    + rewrite (Hb eq_refl) in Hout, Hme. cbn [andb] in Hout, Hme.
      intros Hloop. apply IH in Hloop.
      * destruct Hloop as (n & Hn & Hout' & Hme' & Hcl' & Hw).
        exists (S n). cbn [firstn filter List.length].
        split; [lia|]. split; [|split; [|split]].
        -- rewrite Hout', Hout.
           destruct (delivered checkMessage r); cbn [map];
             now rewrite <- app_assoc.
        -- rewrite Hme', Hme.
           destruct (dropped checkMessage r); cbn [List.length];
             [|reflexivity].
           unfold Int.add64. rewrite wrap64_add_l. f_equal. lia.
        -- congruence.
        -- intros Hwait. now rewrite (Hw Hwait).
      * rewrite Hme. destruct (dropped checkMessage r); [|assumption].
        apply wrap64_range.
    + intros [= <- <-].
      destruct b; cbn [andb] in Hout, Hme.
      * exists 1%nat. cbn [firstn filter List.length].
        split; [lia|]. split; [|split; [|split]]; try assumption.
        -- rewrite Hout. now destruct (delivered checkMessage r).
        -- rewrite Hme.
           destruct (dropped checkMessage r); cbn [List.length].
           ++ reflexivity.
           ++ now rewrite Z.add_0_r, wrap64_small.
        -- discriminate.
      * exists 0%nat. cbn [firstn filter map List.length Z.of_nat].
        rewrite Z.add_0_r, wrap64_small by assumption.
        split; [lia|]. split; [assumption|]. split; [assumption|].
        split; [assumption|discriminate].
Qed.

(** X5. Whatever the mode and the kernel, every message of every event
    that a run of [ReadLoop] puts on the channel passes [checkMessage]. *)
Theorem ReadLoop_delivers_valid
    (rs : list Received) (s s' : State B) (e : LoopEnd) :
  ReadLoop pre315Kernel checkMessage kernel rs s = Ok e s' ->
  exists evs : list Event,
    output (world s') = (output (world s) ++ evs)%list
    /\ Forall (fun ev => Forall (fun m => checkMessage m = None) (msgs ev)) evs.
Proof.
  revert s. induction rs as [|r rs IH]; intros s.
  - cbn. intros [= <- <-]. exists []. now rewrite app_nil_r.
  - cbn [ReadLoop]. unfold bind.
    destruct (receiveOnce pre315Kernel checkMessage kernel r s)
      as [ctl s1| |] eqn:Hstep; try discriminate.
    destruct (receiveOnce_outputs _ _ _ _ Hstep) as (b & Hout & _).
    assert (Hev : Forall (fun ev => Forall (fun m => checkMessage m = None)
                                      (msgs ev))
                    (if b && delivered checkMessage r then [emitted r] else [])).
    { destruct b; cbn [andb]; [|constructor].
      destruct (delivered checkMessage r) eqn:Hd; constructor;
        [now apply emitted_valid|constructor]. }
    destruct ctl.
    + intros Hloop. destruct (IH _ Hloop) as (evs & Hout' & Hvalid).
      eexists. rewrite Hout', Hout, <- app_assoc. split; [reflexivity|].
      now apply Forall_app.
    + intros [= <- <-]. eexists. split; [exact Hout|exact Hev].
Qed.

(** *** Runs that cannot go wrong *)

Lemma connected_countError (err : option error) (c : Consumer B) :
  connected c -> connected (countError err c).
Proof.
  unfold connected. destruct (countError_frame err c) as (-> & -> & _).
  auto.
Qed.

(** An iteration of a consumer that, while streaming, has a connection:
    it returns, and the next one starts from such a consumer again. *)
Lemma receiveOnce_returns (r : Received) (c : Consumer B) (w : World) :
  connected c ->
  exists ctl s',
    receiveOnce pre315Kernel checkMessage kernel r (mkState c w) = Ok ctl s'
    /\ (ctl = Continue -> connected (cons s'))
    /\ (healthy kernel -> streaming c = true -> isEOF r = false ->
        ctl = Continue).
Proof.
  intros Hc. destruct (isEOF r) eqn:Heof.
  - rewrite receiveOnce_EOF by assumption. do 2 eexists.
    split; [reflexivity|]. split; discriminate.
  - rewrite receiveOnce_notEOF by now apply isEOF_notEOF.
    destruct (throttle_returns (Z.of_nat (List.length (rmsgs r))) _ w
                (connected_countError (rerr r) c Hc))
      as (terr & s1 & Hthr & Hc1 & Hok).
    unfold deliver, bind. rewrite Hthr.
    pose proof (throttle_frame _ _ _ _ _ _ Hthr) as (_ & _ & Hst & _).
    cbn [cons] in Hst.
    rewrite (proj1 (proj2 (countError_frame _ _))) in Hst.
    destruct terr as [e|].
    + do 2 eexists. split; [reflexivity|]. split; [discriminate|].
      intros Hk _ _. now specialize (Hok Hk).
    + specialize (Hc1 eq_refl). unfold validateBatch.
      destruct (anyInvalid checkMessage (rmsgs r)).
      * unfold bind, modC, ret. do 2 eexists. split; [reflexivity|].
        split; [|reflexivity]. intros _. exact Hc1.
      * rewrite emitBatch_eq. do 2 eexists. split; [reflexivity|]. split.
        -- intros _. exact Hc1.
        -- intros _ Hs _. now rewrite Hst, Hs, andb_false_r.
Qed.

Lemma ReadLoop_returns (rs : list Received) (c : Consumer B) (w : World) :
  connected c ->
  exists e s',
    ReadLoop pre315Kernel checkMessage kernel rs (mkState c w) = Ok e s'.
Proof.
  revert c w. induction rs as [|r rs IH]; intros c w Hc.
  - do 2 eexists. reflexivity.
  - cbn [ReadLoop]. unfold bind.
    destruct (receiveOnce_returns r c w Hc) as (ctl & [c1 w1] & -> & Hc1 & _).
    destruct ctl; [now apply IH, Hc1|]. do 2 eexists. reflexivity.
Qed.

Lemma receiveOnce_recvLoopRunning (r : Received) (s s' : State B) (ctl : Ctl) :
  receiveOnce pre315Kernel checkMessage kernel r s = Ok ctl s' ->
  recvLoopRunning (cons s') = recvLoopRunning (cons s).
Proof.
  destruct s as [c w]. destruct (isEOF r) eqn:Heof.
  - rewrite receiveOnce_EOF by assumption. now intros [= <- <-].
  - rewrite receiveOnce_notEOF by now apply isEOF_notEOF.
    unfold deliver, bind.
    destruct (throttle pre315Kernel kernel _ _) as [terr s1| |] eqn:Hthr;
      try discriminate.
    apply throttle_recvLoopRunning in Hthr. cbn [cons] in Hthr.
    rewrite (proj1 (proj2 (proj2 (proj2 (countError_frame _ _))))) in Hthr.
    destruct terr as [e|]; [now intros [= <- <-]|].
    unfold validateBatch. destruct (anyInvalid checkMessage (rmsgs r)).
    + unfold bind, modC, ret. now intros [= <- <-].
    + rewrite emitBatch_eq. now intros [= <- <-].
Qed.

Lemma ReadLoop_recvLoopRunning (rs : list Received) (s s' : State B) (e : LoopEnd) :
  ReadLoop pre315Kernel checkMessage kernel rs s = Ok e s' ->
  recvLoopRunning (cons s') = recvLoopRunning (cons s).
Proof.
  revert s. induction rs as [|r rs IH]; intros s.
  - cbn. now intros [= <- <-].
  - cbn [ReadLoop]. unfold bind.
    destruct (receiveOnce pre315Kernel checkMessage kernel r s)
      as [ctl s1| |] eqn:Hstep; try discriminate.
    apply receiveOnce_recvLoopRunning in Hstep.
    destruct ctl.
    + intros Hloop. apply IH in Hloop. congruence.
    + intros [= <- <-]. assumption.
Qed.

Lemma ReadLoop_streaming (rs : list Received) (s s' : State B) (e : LoopEnd) :
  ReadLoop pre315Kernel checkMessage kernel rs s = Ok e s' ->
  streaming (cons s') = streaming (cons s).
Proof.
  revert s. induction rs as [|r rs IH]; intros s.
  - cbn. now intros [= <- <-].
  - cbn [ReadLoop]. unfold bind.
    destruct (receiveOnce pre315Kernel checkMessage kernel r s)
      as [ctl s1| |] eqn:Hstep; try discriminate.
    apply receiveOnce_outputs in Hstep.
    destruct Hstep as (_ & _ & _ & _ & Hst & _).
    destruct ctl.
    + intros Hloop. apply IH in Hloop. congruence.
    + intros [= <- <-]. assumption.
Qed.

Lemma receiveOnce_sockets (r : Received) (s s' : State B) (ctl : Ctl) :
  receiveOnce pre315Kernel checkMessage kernel r s = Ok ctl s' ->
  openSockets (trace (world s)) = held (cons s) ->
  openSockets (trace (world s')) = held (cons s').
Proof.
  destruct s as [c w]. destruct (isEOF r) eqn:Heof.
  - rewrite receiveOnce_EOF by assumption. now intros [= <- <-].
  - rewrite receiveOnce_notEOF by now apply isEOF_notEOF.
    unfold deliver, bind.
    destruct (throttle pre315Kernel kernel _ _) as [terr s1| |] eqn:Hthr;
      try discriminate.
    intros Hres Hheld. cbn [cons world] in Hheld. revert Hres.
    apply throttle_sockets in Hthr;
      [|cbn [cons world]; unfold held;
        now rewrite (proj1 (countError_frame _ _))].
    destruct terr as [e|]; [intros [= <- <-]; exact Hthr|].
    unfold validateBatch. destruct (anyInvalid checkMessage (rmsgs r)).
    + unfold bind, modC, ret. intros [= <- <-]. exact Hthr.
    + rewrite emitBatch_eq. intros [= <- <-]. exact Hthr.
Qed.

Lemma ReadLoop_sockets (rs : list Received) (s s' : State B) (e : LoopEnd) :
  ReadLoop pre315Kernel checkMessage kernel rs s = Ok e s' ->
  openSockets (trace (world s)) = held (cons s) ->
  openSockets (trace (world s')) = held (cons s').
Proof.
  revert s. induction rs as [|r rs IH]; intros s.
  - cbn. now intros [= <- <-].
  - cbn [ReadLoop]. unfold bind.
    destruct (receiveOnce pre315Kernel checkMessage kernel r s)
      as [ctl s1| |] eqn:Hstep; try discriminate.
    intros Hloop Hheld. pose proof (receiveOnce_sockets _ _ _ _ Hstep Hheld).
    destruct ctl.
    + now apply (IH s1).
    + now injection Hloop as _ <-.
Qed.

(** [receive] of a consumer that, if it is streaming, has a connection. *)
Lemma receive_run (rs : list Received) (c : Consumer B) (w : World) :
  connected c ->
  exists e s',
    receive pre315Kernel checkMessage kernel rs (mkState c w) = Ok e s'
    /\ recvLoopRunning (cons s')
       = match e with Returned => 0 | Waiting => 1 end
    /\ streaming (cons s') = streaming c
    /\ (openSockets (trace w) = held c ->
        openSockets (trace (world s')) = held (cons s')).
Proof.
  intros Hc. unfold receive, bind, modC at 1. cbn [cons world].
  destruct (ReadLoop_returns rs (set_recvLoopRunning 1 c) w Hc)
    as (e & s1 & Hloop).
  rewrite Hloop.
  pose proof (ReadLoop_recvLoopRunning _ _ _ _ Hloop) as Hrun.
  pose proof (ReadLoop_streaming _ _ _ _ Hloop) as Hst.
  pose proof (ReadLoop_sockets _ _ _ _ Hloop) as Hsock.
  cbn in Hrun, Hst, Hsock.
  destruct e; do 2 eexists; (split; [reflexivity|]); cbn;
    repeat split; assumption.
Qed.






(** X8. What the condition of X7 is for: a streaming consumer without a
    connection panics with a nil dereference as soon as the breaker trips
    on a kernel that is not pre-3.15, at [c.conn.Close()]. *)
Theorem ReadLoop_without_conn_panics
    (r : Received) (rs : list Received) (c : Consumer B) (w : World) :
  pre315Kernel = false ->
  streaming c = true ->
  conn c = None ->
  isEOF r = false ->
  IsOpen (Tick (breaker c) (Z.of_nat (List.length (rmsgs r)))) = true ->
  ReadLoop pre315Kernel checkMessage kernel (r :: rs) (mkState c w)
  = Panic "nil pointer dereference".
Proof.
  intros Hpre Hs Hconn Heof Hopen. cbn [ReadLoop]. unfold bind.
  rewrite receiveOnce_notEOF by now apply isEOF_notEOF.
  unfold deliver, bind.
  destruct (countError_frame (rerr r) c) as (E1 & E2 & _ & _ & E3 & _).
  unfold throttle, bind, getC, modC, ret, closeConn, panic. cbn.
  rewrite E2, Hs. cbn. rewrite E3, Hopen. cbn. rewrite Hpre. cbn.
  now rewrite E1, Hconn.
Qed.

(** X9. While streaming with a connection on a kernel all of whose calls
    succeed, [ReadLoop] returns only at an EOF: it handles every read up to
    the first EOF, and waits when there is none; neither the Done sentinel
    nor a breaker trip nor an invalid batch ends it, and no valid batch is
    lost: the channel receives the events of all reads before the EOF that
    are valid, in order.  The consumer is still streaming, with a
    connection. *)
Theorem ReadLoop_streaming_healthy
    (rs : list Received) (c : Consumer B) (w : World) :
  healthy kernel ->
  streaming c = true ->
  conn c <> None ->
  exists s',
    ReadLoop pre315Kernel checkMessage kernel rs (mkState c w)
    = Ok (if existsb isEOF rs then Returned else Waiting) s'
    /\ output (world s')
       = (output w
          ++ map emitted (filter (delivered checkMessage) (upTo isEOF rs)))%list
    /\ closed (world s') = closed w
    /\ streaming (cons s') = true
    /\ conn (cons s') <> None.
Proof.
  intros Hk. revert c w. induction rs as [|r rs IH]; intros c w Hs Hconn.
  - eexists. split; [reflexivity|]. cbn. rewrite app_nil_r. auto.
  - cbn [ReadLoop existsb upTo]. unfold bind.
    destruct (isEOF r) eqn:Heof.
    + rewrite receiveOnce_EOF by assumption. eexists.
      split; [reflexivity|]. cbn. unfold delivered. rewrite Heof. cbn.
      rewrite app_nil_r. auto.
    + assert (Hc : connected c) by (intros _; exact Hconn).
      destruct (receiveOnce_returns r c w Hc)
        as (ctl & [c1 w1] & Hstep & Hc1 & Hcont).
      specialize (Hcont Hk Hs Heof). subst ctl. rewrite Hstep.
      destruct (receiveOnce_outputs _ _ _ _ Hstep)
        as (b & Hout & _ & Hcl & Hs1 & Hb).
      rewrite (Hb eq_refl) in Hout. cbn [andb cons world] in Hout, Hcl, Hs1.
      rewrite Hs in Hs1.
      specialize (Hc1 eq_refl Hs1). cbn [cons] in Hc1.
      destruct (IH c1 w1 Hs1 Hc1) as (s' & Hloop & Hout' & Hcl' & Hs' & Hconn').
      exists s'. split; [exact Hloop|]. cbn [filter].
      split; [|split; [congruence|auto]].
      rewrite Hout', Hout.
      destruct (delivered checkMessage r); cbn [map]; now rewrite <- app_assoc.
Qed.

(** *** [Events] *)

Arguments receive : simpl never.

Lemma Events_run (rs : list Received) (c : Consumer B) (w : World) :
  exists err s',
    Events pre315Kernel checkMessage kernel rs (mkState c w) = Ok err s'
    /\ match openSocket kernel (sockets w) with
       | Opened => err = None /\ streaming (cons s') = true
       | NsFailed e | SocketFailed e =>
           err = Some (wrapError
                         "could not initialize conntrack netlink socket" e)
           /\ output (world s') = output w
           /\ closed (world s') = closed w
           /\ trace (world s') = trace w
           /\ streaming (cons s') = streaming c
           /\ conn (cons s') = conn c
       end
    /\ (conn c = None -> openSockets (trace w) = [] ->
        openSockets (trace (world s')) = held (cons s')).
Proof.
  unfold Events, bind.
  destruct (initNetlinkSocket_returns Float64.one c w)
    as (err0 & [c1 w1] & Hinit & _ & _ & _ & Hcase).
  rewrite Hinit. cbn [cons world] in Hcase.
  pose proof (initNetlinkSocket_frame _ _ _ _ _ Hinit)
    as (Hout & Hcl & Hst & _). cbn [cons world] in Hout, Hcl, Hst.
  destruct (openSocket kernel (sockets w)) eqn:Ho.
  - destruct Hcase as (Hconn & Hopen & Hnone).
    rewrite Hnone by (left; reflexivity).
    unfold modC at 1, connJoinGroup, bind, getC, act, ret. cbn.
    rewrite Hconn. cbn.
    match goal with |- context [receive _ _ _ rs (mkState ?c2 ?w2)] =>
      destruct (receive_run rs c2 w2) as (e & s2 & Hrecv & _ & Hs2 & Hsock);
      [intros _; cbn; rewrite Hconn; discriminate|]
    end.
    rewrite Hrecv. cbn in Hs2.
    assert (Hheld : conn c = None -> openSockets (trace w) = [] ->
                    openSockets (trace (world s2)) = held (cons s2)).
    { intros Hnil Hnone'. apply Hsock. cbn.
      rewrite openSockets_app, Hopen, Hnone'. unfold held. cbn.
      now rewrite Hconn. }
    destruct e; cbn; do 2 eexists; (split; [reflexivity|]); cbn;
      repeat split; assumption.
  - destruct Hcase as (-> & Hconn & Htr). cbn.
    do 2 eexists. split; [reflexivity|]. cbn.
    repeat split; try assumption.
    intros Hnil Hnone. unfold held. now rewrite Htr, Hconn, Hnil.
  - destruct Hcase as (-> & Hconn & Htr). cbn.
    do 2 eexists. split; [reflexivity|]. cbn.
    repeat split; try assumption.
    intros Hnil Hnone. unfold held. now rewrite Htr, Hconn, Hnil.
Qed.

(** X10. [Events], run with its worker over any reads, from any state, on
    any kernel: it does not panic.  It returns an error exactly when the
    socket cannot be opened: the error is then the cause wrapped in "could
    not initialize conntrack netlink socket", and the channel, the trace of
    actions, [streaming] and the connection are as they were.  When the
    socket opens no filter is needed at rate 1.0, no error is returned and
    the consumer is streaming. *)
Theorem Events_returns (rs : list Received) (s : State B) :
  exists err s',
    Events pre315Kernel checkMessage kernel rs s = Ok err s'
    /\ match openSocket kernel (sockets (world s)) with
       | Opened => err = None /\ streaming (cons s') = true
       | NsFailed e | SocketFailed e =>
           err = Some (wrapError
                         "could not initialize conntrack netlink socket" e)
           /\ output (world s') = output (world s)
           /\ closed (world s') = closed (world s)
           /\ trace (world s') = trace (world s)
           /\ streaming (cons s') = streaming (cons s)
           /\ conn (cons s') = conn (cons s)
       end.
Proof.
  destruct s as [c w].
  destruct (Events_run rs c w) as (err & s' & Hrun & Hcase & _).
  now exists err, s'.
Qed.

(** X11. No socket is leaked.  [Events] on a consumer without a connection,
    in a world where no socket is open, ends in a state where the sockets
    open are those the consumer holds through [conn], at most one:
    whatever the reads, however often the breaker tripped, and whether or
    not the calls made to re-create the socket succeeded. *)
Theorem Events_socket_conservation (rs : list Received) (s : State B) :
  conn (cons s) = None ->
  openSockets (trace (world s)) = [] ->
  exists err s',
    Events pre315Kernel checkMessage kernel rs s = Ok err s'
    /\ openSockets (trace (world s')) = held (cons s')
    /\ (List.length (openSockets (trace (world s'))) <= 1)%nat.
Proof.
  destruct s as [c w]. cbn [cons world]. intros Hnil Hnone.
  destruct (Events_run rs c w) as (err & s' & Hrun & _ & Hsock).
  exists err, s'. split; [exact Hrun|].
  rewrite (Hsock Hnil Hnone). split; [reflexivity|].
  unfold held. destruct (conn (cons s')); cbn; lia.
Qed.

(** *** When the socket cannot be re-created *)

Lemma countError_sampling (err : option error) (c : Consumer B) :
  samplingRate (countError err c) = samplingRate c
  /\ targetRateLimit (countError err c) = targetRateLimit c
  /\ listenAllNamespaces (countError err c) = listenAllNamespaces c.
Proof.
  unfold countError. destruct err as [e|]; [|repeat split].
  destruct (socketError e); repeat split.
Qed.

(** X12. A breaker trip, on a kernel that is not pre-3.15, at a moment
    when no socket can be opened: the loop returns at that read.  The old
    connection has been closed and the consumer is left without one, still
    [streaming]; the batch that was read is neither put on the channel nor
    counted in [msg_errors]; the trip is counted, the breaker is left as it
    was after the tick, not reset, and the sampling rate and percentage
    are as they were. *)
Theorem reopen_failure_ends_loop
    (r : Received) (rs : list Received) (c : Consumer B) (w : World)
    (id : SocketId) :
  pre315Kernel = false ->
  streaming c = true ->
  conn c = Some id ->
  isEOF r = false ->
  IsOpen (Tick (breaker c) (Z.of_nat (List.length (rmsgs r)))) = true ->
  openSocket kernel (sockets w) <> Opened ->
  exists s',
    ReadLoop pre315Kernel checkMessage kernel (r :: rs) (mkState c w)
    = Ok Returned s'
    /\ trace (world s') = (trace w ++ [ActClose id])%list
    /\ output (world s') = output w
    /\ closed (world s') = closed w
    /\ conn (cons s') = None
    /\ streaming (cons s') = true
    /\ breaker (cons s') = Tick (breaker c) (Z.of_nat (List.length (rmsgs r)))
    /\ throttles (cons s') = Int.add64 (throttles c) 1
    /\ samplingRate (cons s') = samplingRate c
    /\ samplingPct (cons s') = samplingPct c
    /\ msgErrors (cons s') = msgErrors c.
Proof.
  intros Hpre Hs Hconn Heof Hopen Hfail. cbn [ReadLoop]. unfold bind.
  rewrite receiveOnce_notEOF by now apply isEOF_notEOF.
  unfold deliver, bind.
  destruct (countError_frame (rerr r) c) as (E1 & E2 & E3 & _ & E4 & E5 & E6).
  destruct (countError_sampling (rerr r) c) as (E7 & _).
  unfold throttle, initNetlinkSocket, bind, getC, modC, ret, closeConn, act,
    nextSocket, panic. cbn.
  rewrite E2, Hs. cbn. rewrite E4, Hopen. cbn. rewrite Hpre. cbn.
  rewrite E1, Hconn. cbn.
  destruct (openSocket kernel (sockets w)); [congruence| |]; cbn;
    eexists; (split; [reflexivity|]); cbn;
    rewrite ?E2, ?E3, ?E4, ?E5, ?E6, ?E7; repeat split; assumption.
Qed.

(** X13. A breaker trip, on a kernel that is not pre-3.15, where the new
    socket opens and gets its filter (or needs none) but cannot join the
    multicast group: the loop returns at that read with the batch not put
    on the channel.  The old socket was closed; the consumer holds the new
    one, at the throttled sampling rate, and the breaker has been reset. *)
Theorem rejoin_failure_ends_loop
    (r : Received) (rs : list Received) (c : Consumer B) (w : World)
    (id : SocketId) :
  pre315Kernel = false ->
  streaming c = true ->
  conn c = Some id ->
  isEOF r = false ->
  let n := Z.of_nat (List.length (rmsgs r)) in
  let rate := throttledRate (set_breaker (Tick (breaker c) n) c) in
  IsOpen (Tick (breaker c) n) = true ->
  openSocket kernel (sockets w) = Opened ->
  Float64.geb rate Float64.one = true \/ setBPF kernel (sockets w) = None ->
  joinGroup kernel (sockets w) <> None ->
  exists s',
    ReadLoop pre315Kernel checkMessage kernel (r :: rs) (mkState c w)
    = Ok Returned s'
    /\ output (world s') = output w
    /\ closed (world s') = closed w
    /\ conn (cons s') = Some (sockets w)
    /\ openSockets (trace (world s'))
       = (remove Nat.eq_dec id (openSockets (trace w)) ++ [sockets w])%list
    /\ samplingRate (cons s') = rate
    /\ breaker (cons s') = Reset (Tick (breaker c) n)
    /\ throttles (cons s') = Int.add64 (throttles c) 1.
Proof.
  intros Hpre Hs Hconn Heof n rate Hopen Hopened Hbpf Hjoin.
  cbn [ReadLoop]. unfold bind.
  rewrite receiveOnce_notEOF by now apply isEOF_notEOF.
  unfold deliver, bind.
  destruct (countError_frame (rerr r) c) as (E1 & E2 & E3 & _ & E4 & E5 & E6).
  destruct (countError_sampling (rerr r) c) as (E7 & E8 & E9).
  assert (Hrate : throttledRate
                    (set_conn None
                       (incr_throttles
                          (set_breaker (Tick (breaker (countError (rerr r) c)) n)
                             (countError (rerr r) c)))) = rate).
  { unfold rate, throttledRate. cbn. now rewrite E4, E7, E8. }
  unfold throttle, bind, getC, modC, ret, closeConn, act, panic. cbn.
  rewrite E2, Hs. cbn. fold n. rewrite E4, Hopen. cbn. rewrite Hpre. cbn.
  rewrite E1, Hconn. cbn. rewrite E4 in Hrate. rewrite Hrate.
  unfold initNetlinkSocket, connJoinGroup, bind, getC, modC, ret, act,
    nextSocket, panic. cbn.
  rewrite Hopened. cbn.
  destruct (joinGroup kernel (sockets w)) as [ej|] eqn:Hj; [|congruence].
  destruct (listenAllNamespaces (countError (rerr r) c)); cbn;
    destruct (Float64.geb rate Float64.one) eqn:Hge; cbn;
    try (destruct (setBPF kernel (sockets w)) eqn:Hb; cbn;
         [destruct Hbpf; congruence|]);
    rewrite ?Hj; cbn;
    eexists; (split; [reflexivity|]); cbn;
    rewrite ?E5, ?openSockets_app; cbn;
    repeat split; try assumption; rewrite !openSockets_app; reflexivity.
Qed.

End LoopFacts.

(** ** The facts about whole runs at concrete inputs *)

(** The dump of [dumpReads]: three events, for the batch of three, for the
    ENOBUFS read (without messages) and for the last read without its
    sentinel; one batch dropped and one ENOBUFS counted; the read after the
    sentinel is never asked for. *)
Lemma receive_dump_witness :
  receive false checkMessageSpec kernelOk dumpReads dumpState
  = Ok Returned
      (mkState
         (mkConsumer None None "/proc" 100 0%float (WindowBreaker.mk 100 0)
            false 1 0 0 0 1 1 false 0)
         (mkWorld []
            [mkEvent [ctNew; ctNew; ctNew] 0 0%nat; mkEvent [] 0 3%nat;
             mkEvent [ctNew] 0 1%nat]
            false 0)).
Proof.
  assert (Hs : streaming (NewConsumer (B:=WindowBreaker.t) "/proc" 100 false)
               = false) by reflexivity.
  exact (receive_dump false checkMessageSpec kernelOk dumpReads
           (NewConsumer "/proc" 100 false) emptyWorld Hs).
Defined.

(** A storm that ends the loop: the third read trips the breaker and no
    socket can be had.  Two reads were handled, one delivered and one
    dropped. *)
Lemma ReadLoop_delivers_in_order_witness :
  exists s' n,
    ReadLoop false checkMessageSpec kernelNoSocket
      [batch 0%nat 3; malformedBatch; batch 1%nat 200; batch 2%nat 1]
      (streamingState 0) = Ok Returned s'
    /\ (n <= 4)%nat
    /\ output (world s')
       = map emitted
           (filter (delivered checkMessageSpec)
              (firstn n [batch 0%nat 3; malformedBatch; batch 1%nat 200;
                         batch 2%nat 1]))
    /\ output (world s') = [mkEvent [ctNew; ctNew; ctNew] 0 0%nat]
    /\ msgErrors (cons s') = 1.
Proof.
  assert (Hrun : exists s',
            ReadLoop false checkMessageSpec kernelNoSocket
              [batch 0%nat 3; malformedBatch; batch 1%nat 200; batch 2%nat 1]
              (streamingState 0) = Ok Returned s'
            /\ output (world s') = [mkEvent [ctNew; ctNew; ctNew] 0 0%nat]
            /\ msgErrors (cons s') = 1).
  { eexists. split; [vm_compute; reflexivity|]. split; reflexivity. }
  destruct Hrun as (s' & Hrun & Hout1 & Hme1).
  assert (Hrange : Int.min_int64 <= msgErrors (cons (streamingState 0))
                   <= Int.max_int64) by (vm_compute; split; discriminate).
  destruct (ReadLoop_delivers_in_order false checkMessageSpec kernelNoSocket
              _ _ _ _ Hrange Hrun) as (n & Hn & Hout & _).
  exists s', n. repeat split; assumption.
Defined.

(** The events of that run carry only messages that pass
    [checkMessageSpec]. *)
Lemma ReadLoop_delivers_valid_witness :
  exists s' evs,
    ReadLoop false checkMessageSpec kernelOk
      [batch 0%nat 3; malformedBatch; lastOfDump] (streamingState 0)
    = Ok Waiting s'
    /\ output (world s') = evs
    /\ Forall (fun ev => Forall (fun m => checkMessageSpec m = None) (msgs ev))
         evs.
Proof.
  assert (Hrun : exists s',
            ReadLoop false checkMessageSpec kernelOk
              [batch 0%nat 3; malformedBatch; lastOfDump] (streamingState 0)
            = Ok Waiting s').
  { eexists. vm_compute. reflexivity. }
  destruct Hrun as (s' & Hrun).
  destruct (ReadLoop_delivers_valid false checkMessageSpec kernelOk _ _ _ _ Hrun)
    as (evs & Hout & Hvalid).
  exists s', evs. repeat split; assumption.
Defined.

(** The telemetry after the dump of [dumpReads]. *)
Lemma dump_counters_witness :
  exists e s',
    ReadLoop false checkMessageSpec kernelOk dumpReads dumpState = Ok e s'
    /\ GetStats (cons s')
       = [("enobufs", 1); ("throttles", 0); ("sampling_pct", 0);
          ("read_errors", 0); ("msg_errors", 1)].
Proof.
  assert (Hs : streaming (NewConsumer (B:=WindowBreaker.t) "/proc" 100 false)
               = false) by reflexivity.
  assert (Hr : Int.min_int64 <= 0 <= Int.max_int64)
    by (vm_compute; split; discriminate).
  exact (dump_counters false checkMessageSpec kernelOk dumpReads
           (NewConsumer "/proc" 100 false) emptyWorld Hs Hr Hr Hr).
Defined.


(** The consumer the failed storm leaves behind, streaming and without a
    connection, panics at the next trip. *)
Lemma ReadLoop_without_conn_panics_witness :
  ReadLoop false checkMessageSpec kernelOk [batch 0%nat 20]
    (mkState (set_conn None (streamingConsumer 100 180)) streamingWorld)
  = Panic "nil pointer dereference".
Proof.
  assert (Hopen : IsOpen (Tick (breaker (set_conn None (streamingConsumer 100 180)))
                            (Z.of_nat (List.length (rmsgs (batch 0%nat 20)))))
                  = true) by reflexivity.
  assert (Hs : streaming (set_conn None (streamingConsumer 100 180)) = true)
    by reflexivity.
  assert (Hconn : conn (set_conn None (streamingConsumer 100 180)) = None)
    by reflexivity.
  assert (Heof : isEOF (batch 0%nat 20) = false) by reflexivity.
  exact (ReadLoop_without_conn_panics false checkMessageSpec kernelOk
           (batch 0%nat 20) [] (set_conn None (streamingConsumer 100 180))
           streamingWorld eq_refl Hs Hconn Heof Hopen).
Defined.

(** On a kernel where everything succeeds, a trip, a Done sentinel and a
    dropped batch do not end the streaming loop; the EOF does, and the read
    after it is never asked for. *)
Lemma ReadLoop_streaming_healthy_witness :
  exists s',
    ReadLoop false checkMessageSpec kernelOk
      [batch 0%nat 20; lastOfDump; malformedBatch; eofRead; batch 4%nat 1]
      (streamingState 180) = Ok Returned s'
    /\ output (world s')
       = [mkEvent (repeat ctNew 20) 0 0%nat; mkEvent [ctNew] 0 1%nat]
    /\ closed (world s') = false
    /\ streaming (cons s') = true
    /\ conn (cons s') <> None.
Proof.
  assert (Hk : healthy kernelOk) by (intros id; repeat split).
  assert (Hs : streaming (streamingConsumer 100 180) = true) by reflexivity.
  assert (Hconn : conn (streamingConsumer 100 180) <> None) by discriminate.
  exact (ReadLoop_streaming_healthy false checkMessageSpec kernelOk
           [batch 0%nat 20; lastOfDump; malformedBatch; eofRead; batch 4%nat 1]
           (streamingConsumer 100 180) streamingWorld Hk Hs Hconn).
Defined.

(** [Events] from a new consumer, through a storm in which the socket is
    re-created: one socket is open at the end, the second. *)
Lemma Events_socket_conservation_witness :
  exists err s',
    Events false checkMessageSpec kernelOk (repeat (batch 0%nat 20) 6) dumpState
    = Ok err s'
    /\ openSockets (trace (world s')) = held (cons s')
    /\ (List.length (openSockets (trace (world s'))) <= 1)%nat.
Proof.
  assert (Hconn : conn (cons dumpState) = None) by reflexivity.
  assert (Hnone : openSockets (trace (world dumpState)) = []) by reflexivity.
  exact (Events_socket_conservation false checkMessageSpec kernelOk
           (repeat (batch 0%nat 20) 6) dumpState Hconn Hnone).
Defined.

(** The storm when no socket can be had. *)
Lemma reopen_failure_ends_loop_witness :
  exists s',
    ReadLoop false checkMessageSpec kernelNoSocket
      [batch 0%nat 20; batch 1%nat 1] (streamingState 180) = Ok Returned s'
    /\ trace (world s') = (trace streamingWorld ++ [ActClose 0%nat])%list
    /\ output (world s') = []
    /\ conn (cons s') = None
    /\ breaker (cons s') = WindowBreaker.mk 100 200
    /\ throttles (cons s') = 1.
Proof.
  assert (Hopen : IsOpen (Tick (breaker (streamingConsumer 100 180))
                            (Z.of_nat (List.length (rmsgs (batch 0%nat 20)))))
                  = true) by reflexivity.
  assert (Hs : streaming (streamingConsumer 100 180) = true) by reflexivity.
  assert (Hconn : conn (streamingConsumer 100 180) = Some 0%nat) by reflexivity.
  assert (Heof : isEOF (batch 0%nat 20) = false) by reflexivity.
  assert (Hfail : openSocket kernelNoSocket (sockets streamingWorld) <> Opened)
    by discriminate.
  destruct (reopen_failure_ends_loop false checkMessageSpec kernelNoSocket
              (batch 0%nat 20) [batch 1%nat 1] (streamingConsumer 100 180)
              streamingWorld 0%nat eq_refl Hs Hconn Heof Hopen Hfail)
    as (s' & Hrun & Htr & Hout & _ & Hc & _ & Hb & Ht & _).
  exists s'. repeat split; assumption.
Defined.

(** The storm when the new socket cannot join the group: socket 0 is
    closed, socket 1 is open and held, and the breaker has been reset. *)
Lemma rejoin_failure_ends_loop_witness :
  exists s',
    ReadLoop false checkMessageSpec kernelNoJoin
      [batch 0%nat 20; batch 1%nat 1] (streamingState 180) = Ok Returned s'
    /\ output (world s') = []
    /\ conn (cons s') = Some 1%nat
    /\ openSockets (trace (world s')) = [1%nat]
    /\ breaker (cons s') = WindowBreaker.mk 100 0.
Proof.
  assert (Hopen : IsOpen (Tick (breaker (streamingConsumer 100 180))
                            (Z.of_nat (List.length (rmsgs (batch 0%nat 20)))))
                  = true) by reflexivity.
  assert (Hs : streaming (streamingConsumer 100 180) = true) by reflexivity.
  assert (Hconn : conn (streamingConsumer 100 180) = Some 0%nat) by reflexivity.
  assert (Heof : isEOF (batch 0%nat 20) = false) by reflexivity.
  assert (Hopened : openSocket kernelNoJoin (sockets streamingWorld) = Opened)
    by reflexivity.
  assert (Hjoin : joinGroup kernelNoJoin (sockets streamingWorld) <> None)
    by discriminate.
  destruct (rejoin_failure_ends_loop false checkMessageSpec kernelNoJoin
              (batch 0%nat 20) [batch 1%nat 1] (streamingConsumer 100 180)
              streamingWorld 0%nat eq_refl Hs Hconn Heof Hopen Hopened
              (or_intror eq_refl) Hjoin)
    as (s' & Hrun & Hout & _ & Hc & Hsock & _ & Hb & _).
  exists s'. repeat split; assumption.
Defined.

(** ** Facts about the metric names *)

Lemma lookup_None {V} (k : string) (m : list (string * V)) :
  constlabels.lookup String.eqb k m = None <-> ~ In k (map fst m).
Proof.
  induction m as [|[k' v] m IH]; cbn; [tauto|].
  destruct (String.eqb_spec k k') as [->|Hne].
  - split; [discriminate|]. intros Hn. exfalso. apply Hn. now left.
  - rewrite IH. split.
    + intros Hn [E|Hin]; [congruence|auto].
    + intros Hn Hin. apply Hn. now right.
Qed.

(** A key that is found is found at some entry. *)
Lemma lookup_Some {V} (k : string) (m : list (string * V)) (v : V) :
  constlabels.lookup String.eqb k m = Some v ->
  exists i, nth_error m i = Some (k, v).
Proof.
  induction m as [|[k' v'] m IH]; cbn; [discriminate|].
  destruct (String.eqb_spec k k') as [->|Hne].
  - intros [= ->]. now exists 0%nat.
  - intros Hl. destruct (IH Hl) as (i & Hi). now exists (S i).
Qed.

Section MetricNames.

Variables RequestIo ResponseIo RequestTotalTime RequestCount : string.

Local Abbreviation dict :=
  (constlabels.metricNameDictionary
     RequestIo ResponseIo RequestTotalTime RequestCount).

(** X14. [ToKindlingMetricName] and [ToKindlingDetailMetricName] return the
    empty string exactly for the names that are not keys of the
    dictionary, whatever the other argument. *)
Theorem metric_name_empty_iff_unknown (origName : string) :
  (forall isServer,
     constlabels.ToKindlingMetricName RequestIo ResponseIo RequestTotalTime
       RequestCount origName isServer = ""
     <-> ~ In origName
           (constlabels.knownNames RequestIo ResponseIo RequestTotalTime
              RequestCount))
  /\ (forall protocol,
        constlabels.ToKindlingDetailMetricName RequestIo ResponseIo
          RequestTotalTime RequestCount origName protocol = ""
        <-> ~ In origName
              (constlabels.knownNames RequestIo ResponseIo RequestTotalTime
                 RequestCount)).
Proof.
  unfold constlabels.ToKindlingMetricName,
    constlabels.ToKindlingDetailMetricName, constlabels.knownNames.
  split; intros x; rewrite <- lookup_None;
    destruct (constlabels.lookup String.eqb origName dict) as [names|];
    try tauto; (split; [|discriminate]).
  - now destruct x.
  - discriminate.
Qed.

(** X15. No two metrics share a name: for names the dictionary knows,
    [ToKindlingMetricName] gives different results for different names or
    different sides; and none of its results is the name of the
    trace-as-metric. *)
Theorem metric_names_distinct (n1 n2 : string) (b1 b2 : bool) :
  In n1 (constlabels.knownNames RequestIo ResponseIo RequestTotalTime
           RequestCount) ->
  In n2 (constlabels.knownNames RequestIo ResponseIo RequestTotalTime
           RequestCount) ->
  n1 <> n2 \/ b1 <> b2 ->
  constlabels.ToKindlingMetricName RequestIo ResponseIo RequestTotalTime
    RequestCount n1 b1
  <> constlabels.ToKindlingMetricName RequestIo ResponseIo RequestTotalTime
       RequestCount n2 b2
  /\ constlabels.ToKindlingMetricName RequestIo ResponseIo RequestTotalTime
       RequestCount n1 b1
     <> constlabels.ToKindlingTraceAsMetricName.
Proof.
  intros H1 H2 Hne.
  unfold constlabels.ToKindlingMetricName.
  destruct (constlabels.lookup String.eqb n1 dict) as [names1|] eqn:L1;
    [|now apply lookup_None in L1].
  destruct (constlabels.lookup String.eqb n2 dict) as [names2|] eqn:L2;
    [|now apply lookup_None in L2].
  apply lookup_Some in L1, L2.
  destruct L1 as (i & Hi), L2 as (j & Hj).
  unfold constlabels.metricNameDictionary in Hi, Hj.
  do 6 (try destruct i as [|i]); cbn in Hi; try discriminate;
    injection Hi as <- <-;
    (do 6 (try destruct j as [|j])); cbn in Hj; try discriminate;
    injection Hj as <- <-;
    destruct b1, b2; (split; [|discriminate]);
    try discriminate;
    destruct Hne as [Hne|Hne]; congruence.
Qed.

(** X16. The detail metric of a name for the protocol "request" is the
    server-side metric of that name: [ToKindlingDetailMetricName n
    "request"] is [ToKindlingMetricName n true], for every [n]; and for
    every protocol the detail metric of a name the dictionary knows is
    named on the entity side, with the suffix of the server-side metric. *)
Theorem detail_name_is_server_side (origName : string) :
  constlabels.ToKindlingDetailMetricName RequestIo ResponseIo RequestTotalTime
    RequestCount origName "request"
  = constlabels.ToKindlingMetricName RequestIo ResponseIo RequestTotalTime
      RequestCount origName true
  /\ forall protocol,
       In origName
         (constlabels.knownNames RequestIo ResponseIo RequestTotalTime
            RequestCount) ->
       exists suffix,
         constlabels.ToKindlingMetricName RequestIo ResponseIo
           RequestTotalTime RequestCount origName true
         = "kindling_entity_request_" ++ suffix
         /\ constlabels.ToKindlingDetailMetricName RequestIo ResponseIo
              RequestTotalTime RequestCount origName protocol
            = "kindling_entity_" ++ protocol ++ "_" ++ suffix.
Proof.
  unfold constlabels.ToKindlingMetricName,
    constlabels.ToKindlingDetailMetricName. split.
  - now destruct (constlabels.lookup String.eqb origName dict).
  - intros protocol Hin.
    destruct (constlabels.lookup String.eqb origName dict) as [names|] eqn:L;
      [|now apply lookup_None in L].
    exists (constlabels.at_ names true). split; reflexivity.
Qed.

End MetricNames.

(** With "request_io", "response_io", "request_total_time" and
    "request_count" for the four constants: the server-side and the
    client-side metric of the request bytes have different names, and so
    have the request bytes and the response bytes. *)
Lemma metric_names_distinct_witness :
  constlabels.ToKindlingMetricName "request_io" "response_io"
    "request_total_time" "request_count" "request_io" true
  <> constlabels.ToKindlingMetricName "request_io" "response_io"
       "request_total_time" "request_count" "response_io" false
  /\ constlabels.ToKindlingMetricName "request_io" "response_io"
       "request_total_time" "request_count" "request_io" true
     <> constlabels.ToKindlingTraceAsMetricName.
Proof.
  assert (H1 : In "request_io"
                 (constlabels.knownNames "request_io" "response_io"
                    "request_total_time" "request_count"))
    by (left; reflexivity).
  assert (H2 : In "response_io"
                 (constlabels.knownNames "request_io" "response_io"
                    "request_total_time" "request_count"))
    by (right; left; reflexivity).
  assert (Hne : "request_io" <> "response_io" \/ true <> false)
    by (right; discriminate).
  exact (metric_names_distinct "request_io" "response_io"
           "request_total_time" "request_count" "request_io" "response_io"
           true false H1 H2 Hne).
Defined.

(** ** Facts about the dump of the table *)

Lemma remove_last_fresh (id : nat) (open : list nat) :
  ~ In id open -> remove Nat.eq_dec id (open ++ [id]) = open.
Proof.
  intros Hn. rewrite remove_app, (notin_remove Nat.eq_dec _ _ Hn). cbn.
  destruct (Nat.eq_dec id id); [apply app_nil_r|congruence].
Qed.

Arguments scanNSID : simpl never.
Arguments cursors : simpl never.

Section DumpFacts.

Context {B : Type} `{CircuitBreaker B}.
Context {D : Type} `{Attr.Codec D}.

Variable pre315Kernel : bool.
Variable checkMessage : Message -> option error.
Variable kernel : Kernel.
Variable env : NsEnv.

(** What [isPeerNS] leaves alone. *)
Lemma isPeerNS_frame (ns : NsHandle) (reply : Reply) (s s' : State B) (b : bool) :
  isPeerNS ns reply s = Ok b s' ->
  output (world s') = output (world s)
  /\ closed (world s') = closed (world s)
  /\ sockets (world s') = sockets (world s)
  /\ streaming (cons s') = streaming (cons s).
Proof.
  unfold isPeerNS, bind, getC, act, modC, ret, panic.
  destruct (Attr.EncodeUint32 unix.NETNSA_FD (Int.wrap32 ns)) as [data|e];
    cbn; [|now intros [= <- <-]].
  destruct (sendErr reply); cbn; [now intros [= <- <-]|].
  destruct (recvErr reply); cbn; [now intros [= <- <-]|].
  destruct (recvMsgs reply) as [|m0 rest]; cbn; [discriminate|].
  destruct (Type_ (Header_ m0) =? netlink.Error); cbn;
    [now intros [= <- <-]|].
  destruct (Attr.NewAttributeDecoder (Data m0)) as [d|e];
    [|now intros [= <- <-]].
  rewrite scanNSID_find by lia. now intros [= <- <-].
Qed.

(** [isPeerNS] on a reply that, when it comes without an error, has a
    message. *)
Lemma isPeerNS_run (ns : NsHandle) (reply : Reply) (s : State B) :
  (recvErr reply = None -> recvMsgs reply <> []) ->
  exists s', isPeerNS ns reply s = Ok (peerNS ns reply) s'.
Proof.
  intros Hpre. unfold isPeerNS, peerNS, bind, getC, act, modC, ret, panic.
  destruct (Attr.EncodeUint32 unix.NETNSA_FD (Int.wrap32 ns)) as [data|e];
    cbn; [|now eexists].
  destruct (sendErr reply); cbn; [now eexists|].
  destruct (recvErr reply); cbn; [now eexists|].
  destruct (recvMsgs reply) as [|m0 rest]; cbn; [now destruct Hpre|].
  destruct (Type_ (Header_ m0) =? netlink.Error); cbn; [now eexists|].
  destruct (Attr.NewAttributeDecoder (Data m0)) as [d|e]; [|now eexists].
  rewrite scanNSID_find by lia. unfold firstNSID.
  destruct (find _ _); [rewrite int32_of_uint32_nonneg|]; now eexists.
Qed.

(** The reads of a dump change neither [streaming] nor [c.socket]. *)
Lemma countRead_fold_frame (l : list Received) (c : Consumer B) :
  streaming (fold_left (countRead checkMessage) l c) = streaming c
  /\ socket (fold_left (countRead checkMessage) l c) = socket c.
Proof.
  revert c. induction l as [|r l IH]; intros c; [now split|].
  cbn. destruct (IH (countRead checkMessage c r)) as (-> & ->).
  unfold countRead, countError.
  destruct (isEOF r); [now split|].
  destruct (allValid checkMessage r), (rerr r) as [e|]; cbn;
    try destruct (socketError e); now split.
Qed.

(** [dumpTable] of a consumer that is not streaming. *)
Lemma dumpTable_dump (family : byte) (ns : NsHandle) (c : Consumer B) (w : World) :
  streaming c = false ->
  let id := sockets w in
  let ends := existsb (endsDump checkMessage) (readsOf env ns id) in
  exists e s',
    dumpTable pre315Kernel checkMessage kernel env family ns
      (mkState c w) = Ok e s'
    /\ streaming (cons s') = false
    /\ closed (world s') = closed w
    /\ sockets (world s') = S id
    /\ output (world s')
       = (output w ++ dumpEvents checkMessage kernel env family ns id)%list
    /\ (e = Blocked <->
        dumpStarts kernel env family ns id = true /\ ends = false)
    /\ (~ In id (openSockets (trace w)) ->
        openSockets (trace (world s'))
        = if dumpStarts kernel env family ns id && negb ends
          then (openSockets (trace w) ++ [id])%list
          else openSockets (trace w))
    /\ socket (cons s')
       = if dumpStarts kernel env family ns id then Some id else socket c.
Proof.
  intros Hs id ends. subst id ends.
  unfold dumpTable, dumpEvents, dumpStarts, bind, nextSocket, act, modC, ret.
  cbn.
  destruct (openSocket kernel (sockets w)); cbn.
  2,3: do 2 eexists; (split; [reflexivity|]); cbn; rewrite app_nil_r;
       repeat split; try assumption; try discriminate; now intros [[=] _].
  destruct (Send env ns (sockets w) (dumpRequest family)) as [verify|e]; cbn.
  2:{ do 2 eexists. split; [reflexivity|]. cbn. rewrite app_nil_r.
      repeat split; try assumption; try discriminate; try now intros [[=] _].
      intros Hfresh. rewrite !openSockets_app. cbn.
      now apply remove_last_fresh. }
  destruct (Validate env (dumpRequest family) [verify]); cbn.
  { do 2 eexists. split; [reflexivity|]. cbn. rewrite app_nil_r.
    repeat split; try assumption; try discriminate; try now intros [[=] _].
    intros Hfresh. rewrite !openSockets_app. cbn.
    now apply remove_last_fresh. }
  unfold receive, bind, modC at 1. cbn [cons world].
  rewrite ReadLoop_dump_run by exact Hs.
  destruct (existsb (endsDump checkMessage) (readsOf env ns (sockets w)))
    eqn:Hends; cbn.
  - do 2 eexists. split; [reflexivity|]. cbn.
    destruct (countRead_fold_frame
                (upTo (endsDump checkMessage) (readsOf env ns (sockets w)))
                (set_recvLoopRunning 1 (set_socket (Some (sockets w)) c)))
      as (Hst1 & Hso1).
    cbn in Hst1, Hso1. rewrite Hs in Hst1.
    repeat split; try assumption; try discriminate; try now intros [_ [=]].
    intros Hfresh. rewrite !openSockets_app. cbn.
    now apply remove_last_fresh.
  - do 2 eexists. split; [reflexivity|]. cbn.
    destruct (countRead_fold_frame
                (upTo (endsDump checkMessage) (readsOf env ns (sockets w)))
                (set_recvLoopRunning 1 (set_socket (Some (sockets w)) c)))
      as (Hst1 & Hso1).
    cbn in Hst1, Hso1. rewrite Hs in Hst1.
    repeat split; try assumption; try reflexivity.
    intros Hfresh. now rewrite !openSockets_app.
Qed.

(** The loop over the namespaces, for a consumer that is not streaming,
    when every query is answered and every dump comes to an end. *)
Lemma dumpPeers_dump (family : byte) (rootNS : NsHandle) (nss : list NsHandle) :
  (forall ns, In ns nss ->
     recvErr (nsidAnswer env ns) = None -> recvMsgs (nsidAnswer env ns) <> []) ->
  (forall ns id,
     existsb (endsDump checkMessage) (readsOf env ns id) = true) ->
  forall (c : Consumer B) (w : World) (hs : list NsAction),
    streaming c = false ->
    exists s',
      dumpPeers pre315Kernel checkMessage kernel env family rootNS nss
        (mkDumpState (mkState c w) hs) = Ok true (mkDumpState s' hs)
      /\ streaming (cons s') = false
      /\ closed (world s') = closed w
      /\ output (world s')
         = (output w
            ++ dumpsEvents checkMessage kernel env family (sockets w)
                 (peersOf env rootNS nss))%list.
Proof.
  intros Hreply Hends. induction nss as [|ns nss IH]; intros c w hs Hs.
  - eexists. split; [reflexivity|]. cbn. rewrite app_nil_r. auto.
  - cbn [dumpPeers peersOf filter].
    assert (Hreply' : forall ns', In ns' nss ->
              recvErr (nsidAnswer env ns') = None ->
              recvMsgs (nsidAnswer env ns') <> [])
      by (intros ns' Hin; apply Hreply; now right).
    destruct (Equal env rootNS ns); cbn [negb andb].
    { now apply IH. }
    unfold bind at 1, lift at 1. cbn [consumer handles].
    destruct (isPeerNS_run ns (nsidAnswer env ns) (mkState c w)
                (Hreply ns (or_introl eq_refl))) as ([c1 w1] & Hpeer).
    rewrite Hpeer.
    apply isPeerNS_frame in Hpeer.
    destruct Hpeer as (Hout1 & Hcl1 & Hso1 & Hst1). cbn in Hout1, Hcl1, Hso1, Hst1.
    rewrite Hs in Hst1.
    destruct (peerNS ns (nsidAnswer env ns)); cbn [negb].
    2:{ destruct (IH Hreply' c1 w1 hs Hst1) as (s' & Hrun & Hst & Hcl & Hout).
        exists s'. rewrite Hso1, Hout1, Hcl1 in *. auto. }
    unfold bind at 1, lift at 1. cbn [consumer handles].
    destruct (dumpTable_dump family ns c1 w1 Hst1)
      as (e & [c2 w2] & Hdump & Hst2 & Hcl2 & Hso2 & Hout2 & Hblocked & _).
    cbn in Hst2, Hcl2, Hso2, Hout2.
    rewrite Hdump.
    destruct e as [err|].
    2:{ destruct (proj1 Hblocked eq_refl) as (_ & Hnot).
        rewrite Hends in Hnot. discriminate. }
    destruct (IH Hreply' c2 w2 hs Hst2) as (s' & Hrun & Hst & Hcl & Hout).
    exists s'. split; [exact Hrun|]. split; [exact Hst|].
    split; [congruence|].
    cbn [dumpsEvents].
    rewrite Hout, Hout2, Hso2, Hout1, Hso1, <- app_assoc. reflexivity.
Qed.

Lemma closes_run {A} (nss : list NsHandle) (k : M (DumpState B) A)
    (s : State B) (hs : list NsAction) :
  (fold_right (fun ns k' => nsAct (NsClose ns) ;; k') (ret tt) nss ;; k)
    (mkDumpState s hs)
  = k (mkDumpState s (hs ++ map NsClose nss)%list).
Proof.
  revert hs. induction nss as [|ns nss IH]; intros hs.
  - cbn. unfold bind, ret. now rewrite app_nil_r.
  - specialize (IH (hs ++ [NsClose ns])%list). cbn [fold_right map].
    unfold bind in IH |- *. unfold nsAct at 1. cbn [consumer handles].
    rewrite IH. now rewrite <- app_assoc.
Qed.

Lemma cleanup_run (rootNS : NsHandle) (nss : list NsHandle) (s : State B)
    (hs : list NsAction) :
  cleanup rootNS nss (mkDumpState s hs)
  = Ok tt
      (mkDumpState
         (mkState (cons s)
            (mkWorld (trace (world s)) (output (world s)) true
               (sockets (world s))))
         (hs ++ map NsClose nss
             ++ [OutputClose; NsClose rootNS; ConnClose])%list).
Proof.
  unfold cleanup. rewrite closes_run.
  unfold bind, closeChannel, closeOutput, nsAct. cbn.
  now rewrite <- !app_assoc.
Qed.

(** [DumpTable] of a consumer that is not streaming, when the namespaces
    and the control connection can be had, every query is answered and
    every dump comes to an end. *)
Lemma DumpTable_run (family : byte) (c : Consumer B) (w : World)
    (hs : list NsAction) (nss : list NsHandle) (rootNS : NsHandle) :
  streaming c = false ->
  (if listenAllNamespaces c then GetNetNamespaces env (procRoot c) else inl [])
  = inl nss ->
  GetRootNetNamespace env (procRoot c) = inl rootNS ->
  Dial env rootNS = None ->
  (forall ns, In ns nss ->
     recvErr (nsidAnswer env ns) = None -> recvMsgs (nsidAnswer env ns) <> []) ->
  (forall ns id,
     existsb (endsDump checkMessage) (readsOf env ns id) = true) ->
  exists ds',
    DumpTable pre315Kernel checkMessage kernel env family
      (mkDumpState (mkState c w) hs) = Ok Finished ds'
    /\ handles ds'
       = (hs ++ NsDial rootNS :: map NsClose nss
             ++ [OutputClose; NsClose rootNS; ConnClose])%list
    /\ closed (world (consumer ds')) = true
    /\ streaming (cons (consumer ds')) = false
    /\ output (world (consumer ds'))
       = (output w
          ++ dumpsEvents checkMessage kernel env family (sockets w)
               (rootNS :: peersOf env rootNS nss))%list.
Proof.
  intros Hs Hnss Hroot Hdial Hreply Hends.
  unfold DumpTable, bind at 1, lift at 1, getC. cbn [consumer handles cons].
  rewrite Hnss, Hroot, Hdial.
  unfold bind at 1, nsAct at 1. cbn [consumer handles].
  unfold dumpWorker, bind at 1, lift at 1. cbn [consumer handles].
  destruct (dumpTable_dump family rootNS c w Hs)
    as (e & [c1 w1] & Hdump & Hst1 & Hcl1 & Hso1 & Hout1 & Hblocked & _).
  cbn in Hst1, Hcl1, Hso1, Hout1. rewrite Hdump.
  destruct e as [err|].
  2:{ destruct (proj1 Hblocked eq_refl) as (_ & Hnot).
      rewrite Hends in Hnot. discriminate. }
  unfold bind at 1.
  destruct (dumpPeers_dump family rootNS nss Hreply Hends c1 w1
              (hs ++ [NsDial rootNS])%list Hst1)
    as (s' & Hrun & Hst & Hcl & Hout).
  rewrite Hrun. unfold bind at 1. rewrite cleanup_run. unfold ret.
  eexists. split; [reflexivity|]. cbn.
  split; [now rewrite <- app_assoc|]. split; [reflexivity|].
  split; [exact Hst|].
  rewrite Hout, Hout1, Hso1, <- app_assoc. reflexivity.
Qed.

(** X18. [DumpTable] of a consumer that is not streaming, when the
    namespaces and the control connection can be had, every query about a
    namespace is answered and the reads of every dump come to an end:
    whatever else fails (a namespace that cannot be entered, a socket that
    cannot be opened, a request that is not accepted), the worker runs to
    its end.  What it has done by then to the handles, the channel and the
    control connection is, after the dialling and in this order: closing
    the handle of every namespace of the list, once each and in the order
    of the list; closing the channel; closing the handle of the root
    namespace; closing the control connection.  The channel is closed and
    the consumer is still not streaming. *)
Theorem DumpTable_finishes (family : byte) (c : Consumer B) (w : World)
    (hs : list NsAction) (nss : list NsHandle) (rootNS : NsHandle) :
  streaming c = false ->
  (if listenAllNamespaces c then GetNetNamespaces env (procRoot c) else inl [])
  = inl nss ->
  GetRootNetNamespace env (procRoot c) = inl rootNS ->
  Dial env rootNS = None ->
  (forall ns, In ns nss ->
     recvErr (nsidAnswer env ns) = None -> recvMsgs (nsidAnswer env ns) <> []) ->
  (forall ns id,
     existsb (endsDump checkMessage) (readsOf env ns id) = true) ->
  exists ds',
    DumpTable pre315Kernel checkMessage kernel env family
      (mkDumpState (mkState c w) hs) = Ok Finished ds'
    /\ handles ds'
       = (hs ++ NsDial rootNS :: map NsClose nss
             ++ [OutputClose; NsClose rootNS; ConnClose])%list
    /\ closed (world (consumer ds')) = true
    /\ streaming (cons (consumer ds')) = false.
Proof.
  intros Hs Hnss Hroot Hdial Hreply Hends.
  destruct (DumpTable_run family c w hs nss rootNS Hs Hnss Hroot Hdial Hreply
              Hends) as (ds' & Hrun & Hh & Hcl & Hst & _).
  now exists ds'.
Qed.

(** X20. Under the conditions of X18, what [DumpTable] puts on the channel:
    the events of the dump of the root namespace first, read on a socket
    made in the root namespace; then, for each namespace of the list that
    is not the root and that [isPeerNS] tells to be a peer, in the order
    of the list, the events of the dump of that namespace, read on a
    socket made in that namespace, each dump on the socket numbered after
    the one before it.  A dump whose socket could not be opened or whose
    request was not accepted contributes nothing, and the others the
    events of their valid reads up to the one that ends the dump. *)
Theorem DumpTable_output (family : byte) (c : Consumer B) (w : World)
    (hs : list NsAction) (nss : list NsHandle) (rootNS : NsHandle) :
  streaming c = false ->
  (if listenAllNamespaces c then GetNetNamespaces env (procRoot c) else inl [])
  = inl nss ->
  GetRootNetNamespace env (procRoot c) = inl rootNS ->
  Dial env rootNS = None ->
  (forall ns, In ns nss ->
     recvErr (nsidAnswer env ns) = None -> recvMsgs (nsidAnswer env ns) <> []) ->
  (forall ns id,
     existsb (endsDump checkMessage) (readsOf env ns id) = true) ->
  exists ds',
    DumpTable pre315Kernel checkMessage kernel env family
      (mkDumpState (mkState c w) hs) = Ok Finished ds'
    /\ output (world (consumer ds'))
       = (output w
          ++ dumpEvents checkMessage kernel env family rootNS (sockets w)
          ++ dumpsEvents checkMessage kernel env family (S (sockets w))
               (peersOf env rootNS nss))%list.
Proof.
  intros Hs Hnss Hroot Hdial Hreply Hends.
  destruct (DumpTable_run family c w hs nss rootNS Hs Hnss Hroot Hdial Hreply
              Hends) as (ds' & Hrun & _ & _ & _ & Hout).
  now exists ds'.
Qed.

(** X19. [dumpTable] of a consumer that is not streaming does not panic,
    and it leaves no socket open when it returns: if the socket it asks for
    is not among those open, the sockets open afterwards are those open
    before, whether it returned an error or not.  When the dump was
    started, [c.socket] is left pointing at the socket of the dump, which
    is closed by then.  Only a dump that is blocked in a read holds its
    socket open. *)
Theorem dumpTable_closes_its_socket
    (family : byte) (ns : NsHandle) (c : Consumer B) (w : World) :
  streaming c = false ->
  ~ In (sockets w) (openSockets (trace w)) ->
  exists e s',
    dumpTable pre315Kernel checkMessage kernel env family ns
      (mkState c w) = Ok e s'
    /\ match e with
       | Dumped err =>
           openSockets (trace (world s')) = openSockets (trace w)
           /\ (err = None ->
               socket (cons s') = Some (sockets w)
               /\ ~ In (sockets w) (openSockets (trace (world s'))))
       | Blocked =>
           openSockets (trace (world s'))
           = (openSockets (trace w) ++ [sockets w])%list
           /\ socket (cons s') = Some (sockets w)
       end.
Proof.
  intros Hs Hfresh.
  destruct (dumpTable_dump family ns c w Hs)
    as (e & s' & Hdump & _ & _ & _ & _ & Hblocked & Hopen & Hsock).
  cbn zeta in Hblocked, Hopen, Hsock. specialize (Hopen Hfresh).
  exists e, s'. split; [exact Hdump|].
  destruct e as [err|].
  - assert (Hnb : dumpStarts kernel env family ns (sockets w)
                  && negb (existsb (endsDump checkMessage)
                             (readsOf env ns (sockets w))) = false).
    { destruct (dumpStarts kernel env family ns (sockets w)) eqn:E1; [|reflexivity].
      destruct (existsb (endsDump checkMessage) (readsOf env ns (sockets w)))
        eqn:E2; [reflexivity|].
      discriminate (proj2 Hblocked (conj eq_refl eq_refl)). }
    rewrite Hnb in Hopen. split; [exact Hopen|].
    intros ->. rewrite Hopen. split; [|exact Hfresh].
    revert Hdump Hsock.
    unfold dumpTable, dumpStarts, bind, nextSocket, act, modC, ret. cbn.
    destruct (openSocket kernel (sockets w)); cbn; try discriminate.
    destruct (Send env ns (sockets w) (dumpRequest family)); cbn;
      try discriminate.
    destruct (Validate env (dumpRequest family) [m]); cbn; try discriminate.
    now intros _ ->.
  - destruct (proj1 Hblocked eq_refl) as (E1 & E2).
    rewrite E1 in Hsock. rewrite E1, E2 in Hopen. now split.
Qed.

(** *** What holds in any mode *)

Lemma ReadLoop_closed (rs : list Received) (s s' : State B) (e : LoopEnd) :
  ReadLoop pre315Kernel checkMessage kernel rs s = Ok e s' ->
  closed (world s') = closed (world s).
Proof.
  revert s. induction rs as [|r rs IH]; intros s.
  - cbn. now intros [= <- <-].
  - cbn [ReadLoop]. unfold bind.
    destruct (receiveOnce pre315Kernel checkMessage kernel r s)
      as [ctl s1| |] eqn:Hstep; try discriminate.
    apply receiveOnce_outputs in Hstep.
    destruct Hstep as (_ & _ & _ & Hcl & _).
    destruct ctl.
    + intros Hloop. apply IH in Hloop. congruence.
    + intros [= <- <-]. assumption.
Qed.

Lemma dumpTable_closed (family : byte) (ns : NsHandle) (s s' : State B)
    (e : DumpEnd) :
  dumpTable pre315Kernel checkMessage kernel env family ns s = Ok e s' ->
  closed (world s') = closed (world s).
Proof.
  unfold dumpTable, bind, nextSocket, act, modC, ret. cbn.
  destruct (openSocket kernel (sockets (world s))); cbn;
    try (now intros [= <- <-]).
  destruct (Send env ns (sockets (world s)) (dumpRequest family)); cbn;
    try (now intros [= <- <-]).
  destruct (Validate env (dumpRequest family) [m]); cbn;
    try (now intros [= <- <-]).
  unfold receive, bind, modC at 1. cbn [cons world].
  match goal with |- context [ReadLoop _ _ _ ?rs ?st] =>
    destruct (ReadLoop pre315Kernel checkMessage kernel rs st)
      as [e1 s1| |] eqn:Hloop
  end; try discriminate.
  apply ReadLoop_closed in Hloop. cbn in Hloop.
  destruct e1; cbn; now intros [= <- <-].
Qed.

Lemma dumpPeers_frame (family : byte) (rootNS : NsHandle) (nss : list NsHandle)
    (ds ds' : DumpState B) (done : bool) :
  dumpPeers pre315Kernel checkMessage kernel env family rootNS nss ds
  = Ok done ds' ->
  handles ds' = handles ds
  /\ closed (world (consumer ds')) = closed (world (consumer ds)).
Proof.
  revert ds. induction nss as [|ns nss IH]; intros ds.
  - cbn. now intros [= <- <-].
  - cbn [dumpPeers]. destruct (Equal env rootNS ns); [apply IH|].
    unfold bind at 1, lift at 1.
    destruct (isPeerNS ns (nsidAnswer env ns) (consumer ds))
      as [peer s1| |] eqn:Hpeer; try discriminate.
    apply isPeerNS_frame in Hpeer. destruct Hpeer as (_ & Hcl1 & _).
    destruct peer; cbn [negb].
    + unfold bind at 1, lift at 1. cbn [consumer handles].
      destruct (dumpTable pre315Kernel checkMessage kernel env
                  family ns s1) as [e s2| |] eqn:Hdump; try discriminate.
      apply dumpTable_closed in Hdump.
      destruct e.
      * intros Hrun. apply IH in Hrun. cbn in Hrun.
        destruct Hrun as (-> & ->). split; congruence.
      * unfold ret. intros [= <- <-]. cbn. split; congruence.
    + intros Hrun. apply IH in Hrun. cbn in Hrun.
      destruct Hrun as (-> & ->). split; congruence.
Qed.

(** X17. When [DumpTable] returns an error no worker was started and the
    consumer is as it was, and the error tells which of three calls
    failed: listing the namespaces (asked for only when the consumer
    listens in all of them), getting the root namespace, or dialling the
    control connection.  In the first two cases nothing was closed; in the
    third the handle of the root namespace was closed, and nothing else:
    the handles of the namespaces listed are not closed on any of the
    three paths.  Once the control connection is there, [DumpTable]
    returns no error, whatever the dumps do. *)
Theorem DumpTable_failure (family : byte) (ds ds' : DumpState B) (err : error) :
  DumpTable pre315Kernel checkMessage kernel env family ds
  = Ok (Failed err) ds' ->
  let c := cons (consumer ds) in
  consumer ds' = consumer ds
  /\ ((listenAllNamespaces c = true
       /\ exists e,
            GetNetNamespaces env (procRoot c) = inr e
            /\ err = wrapError
                       "error dumping conntrack table, could not get network namespaces"
                       e
            /\ handles ds' = handles ds)
      \/ (exists e,
            GetRootNetNamespace env (procRoot c) = inr e
            /\ err = wrapError
                       "error dumping conntrack table, could not get root namespace"
                       e
            /\ handles ds' = handles ds)
      \/ (exists rootNS e,
            GetRootNetNamespace env (procRoot c) = inl rootNS
            /\ Dial env rootNS = Some e
            /\ err = wrapError
                       "error dumping conntrack table, could not open netlink socket"
                       e
            /\ handles ds' = (handles ds ++ [NsClose rootNS])%list)).
Proof.
  unfold DumpTable, bind at 1, lift at 1, getC. cbn [consumer handles cons].
  destruct ds as [s hs]. cbn [consumer handles].
  destruct (listenAllNamespaces (cons s)) eqn:Hall.
  - destruct (GetNetNamespaces env (procRoot (cons s))) as [nss|e] eqn:Hnss.
    2:{ unfold ret. intros [= <- <-]. cbn. split; [reflexivity|].
        left. split; [reflexivity|]. now exists e. }
    destruct (GetRootNetNamespace env (procRoot (cons s))) as [rootNS|e]
      eqn:Hroot.
    2:{ unfold ret. intros [= <- <-]. cbn. split; [reflexivity|].
        right. left. now exists e. }
    destruct (Dial env rootNS) as [e|] eqn:Hdial.
    { unfold bind, nsAct, ret. cbn. intros [= <- <-]. cbn.
      split; [reflexivity|]. right. right. now exists rootNS, e. }
    unfold bind at 1, nsAct at 1. cbn [consumer handles].
    unfold dumpWorker, bind at 1.
    destruct (lift _ _) as [e1 ds1| |]; try discriminate.
    destruct e1; [|discriminate]. unfold bind at 1.
    destruct (dumpPeers _ _ _ _ _ _ _ _) as [done ds2| |]; try discriminate.
    destruct done; [|discriminate]. unfold bind.
    destruct (cleanup _ _ _); discriminate.
  - destruct (GetRootNetNamespace env (procRoot (cons s))) as [rootNS|e]
      eqn:Hroot.
    2:{ unfold ret. intros [= <- <-]. cbn. split; [reflexivity|].
        right. left. now exists e. }
    destruct (Dial env rootNS) as [e|] eqn:Hdial.
    { unfold bind, nsAct, ret. cbn. intros [= <- <-]. cbn.
      split; [reflexivity|]. right. right. now exists rootNS, e. }
    unfold bind at 1, nsAct at 1. cbn [consumer handles].
    unfold dumpWorker, bind at 1.
    destruct (lift _ _) as [e1 ds1| |]; try discriminate.
    destruct e1; [|discriminate]. unfold bind at 1.
    destruct (dumpPeers _ _ _ _ _ _ _ _) as [done ds2| |]; try discriminate.
    destruct done; [|discriminate]. unfold bind.
    destruct (cleanup _ _ _); discriminate.
Qed.

(** X21. A worker that is blocked in a read has cleaned up nothing, in any
    mode: the channel is not closed, and of the handles and the control
    connection none is closed; all that was done to them is the dialling
    of the control connection. *)
Theorem DumpTable_stuck (family : byte) (ds ds' : DumpState B) :
  DumpTable pre315Kernel checkMessage kernel env family ds
  = Ok Stuck ds' ->
  closed (world (consumer ds')) = closed (world (consumer ds))
  /\ exists rootNS,
       GetRootNetNamespace env (procRoot (cons (consumer ds))) = inl rootNS
       /\ handles ds' = (handles ds ++ [NsDial rootNS])%list.
Proof.
  unfold DumpTable, bind at 1, lift at 1, getC. cbn [consumer handles cons].
  destruct ds as [s hs]. cbn [consumer handles].
  destruct (if listenAllNamespaces (cons s)
            then GetNetNamespaces env (procRoot (cons s)) else inl [])
    as [nss|e]; [|discriminate].
  destruct (GetRootNetNamespace env (procRoot (cons s))) as [rootNS|e];
    [|discriminate].
  destruct (Dial env rootNS) as [e|].
  { unfold bind, nsAct, ret. cbn. discriminate. }
  unfold bind at 1, nsAct at 1. cbn [consumer handles].
  unfold dumpWorker, bind at 1, lift at 1. cbn [consumer handles].
  destruct (dumpTable pre315Kernel checkMessage kernel env family
              rootNS s) as [e1 s1| |] eqn:Hdump; try discriminate.
  apply dumpTable_closed in Hdump.
  destruct e1.
  - unfold bind at 1.
    destruct (dumpPeers _ _ _ _ _ _ _ _) as [done ds2| |] eqn:Hpeers;
      try discriminate.
    apply dumpPeers_frame in Hpeers. cbn in Hpeers.
    destruct Hpeers as (Hh & Hcl).
    destruct done.
    + unfold bind. destruct (cleanup _ _ _); discriminate.
    + unfold ret. intros [= <-]. split; [congruence|]. now exists rootNS.
  - unfold ret. intros [= <-]. cbn. split; [assumption|]. now exists rootNS.
Qed.

End DumpFacts.

(** ** The facts about the dump at concrete inputs *)

(** The dump of the three namespaces, for the address family 2. *)
Lemma DumpTable_finishes_witness :
  exists ds',
    DumpTable (D:=NlAttr.Decoder) false checkMessageSpec kernelOk
      threeNamespaces x02 dumpAllState = Ok Finished ds'
    /\ handles ds'
       = [NsDial 4; NsClose 4; NsClose 5; NsClose 6; OutputClose; NsClose 4;
          ConnClose]
    /\ closed (world (consumer ds')) = true
    /\ streaming (cons (consumer ds')) = false.
Proof.
  assert (Hs : streaming (NewConsumer (B:=WindowBreaker.t) "/proc" 100 true)
               = false) by reflexivity.
  assert (Hreply : forall ns, In ns [4; 5; 6] ->
            recvErr (nsidAnswer threeNamespaces ns) = None ->
            recvMsgs (nsidAnswer threeNamespaces ns) <> []).
  { intros ns _ _. cbn. destruct (ns =? 5); discriminate. }
  assert (Hends : forall ns id,
            existsb (endsDump checkMessageSpec)
              (readsOf threeNamespaces ns id) = true)
    by (intros ns id; cbn; destruct (ns =? 5); reflexivity).
  exact (DumpTable_finishes (D:=NlAttr.Decoder) false checkMessageSpec kernelOk
           threeNamespaces x02 (NewConsumer "/proc" 100 true) emptyWorld []
           [4; 5; 6] 4 Hs eq_refl eq_refl eq_refl Hreply Hends).
Defined.

(** Its events: those of the root namespace, whose socket delivers
    [dumpReads], on socket 0, then the one of namespace 5, whose socket
    delivers the last read of a dump, on socket 1; namespace 4 is not
    dumped again, and namespace 6 is not a peer. *)
Lemma DumpTable_output_witness :
  exists ds',
    DumpTable (D:=NlAttr.Decoder) false checkMessageSpec kernelOk
      threeNamespaces x02 dumpAllState = Ok Finished ds'
    /\ map (fun e => List.length (msgs e)) (output (world (consumer ds')))
       = [3; 0; 1; 1]%nat.
Proof.
  assert (Hs : streaming (NewConsumer (B:=WindowBreaker.t) "/proc" 100 true)
               = false) by reflexivity.
  assert (Hreply : forall ns, In ns [4; 5; 6] ->
            recvErr (nsidAnswer threeNamespaces ns) = None ->
            recvMsgs (nsidAnswer threeNamespaces ns) <> []).
  { intros ns _ _. cbn. destruct (ns =? 5); discriminate. }
  assert (Hends : forall ns id,
            existsb (endsDump checkMessageSpec)
              (readsOf threeNamespaces ns id) = true)
    by (intros ns id; cbn; destruct (ns =? 5); reflexivity).
  destruct (DumpTable_output (D:=NlAttr.Decoder) false checkMessageSpec kernelOk
              threeNamespaces x02 (NewConsumer "/proc" 100 true) emptyWorld []
              [4; 5; 6] 4 Hs eq_refl eq_refl eq_refl Hreply Hends)
    as (ds' & Hrun & Hout).
  exists ds'. split; [exact Hrun|]. rewrite Hout. vm_compute. reflexivity.
Defined.

(** One dump from the new consumer: socket 0 is opened and closed, and
    [c.socket] still names it. *)
Lemma dumpTable_closes_its_socket_witness :
  exists e s',
    dumpTable false checkMessageSpec kernelOk threeNamespaces x02 4 dumpState
    = Ok e s'
    /\ match e with
       | Dumped err =>
           openSockets (trace (world s')) = []
           /\ (err = None ->
               socket (cons s') = Some 0%nat
               /\ ~ In 0%nat (openSockets (trace (world s'))))
       | Blocked =>
           openSockets (trace (world s')) = [0%nat]
           /\ socket (cons s') = Some 0%nat
       end.
Proof.
  assert (Hs : streaming (NewConsumer (B:=WindowBreaker.t) "/proc" 100 false)
               = false) by reflexivity.
  assert (Hfresh : ~ In (sockets emptyWorld) (openSockets (trace emptyWorld)))
    by (intros []).
  exact (dumpTable_closes_its_socket false checkMessageSpec kernelOk
           threeNamespaces x02 4 (NewConsumer "/proc" 100 false) emptyWorld
           Hs Hfresh).
Defined.

(** When the control connection cannot be had: the handle of the root
    namespace is closed, those of the three namespaces are not. *)
Lemma DumpTable_failure_witness :
  exists ds',
    DumpTable (D:=NlAttr.Decoder) false checkMessageSpec kernelOk
      noControlConnection x02 dumpAllState
    = Ok (Failed
            "error dumping conntrack table, could not open netlink socket: operation not permitted")
         ds'
    /\ consumer ds' = consumer dumpAllState
    /\ handles ds' = [NsClose 4].
Proof.
  assert (Hrun : exists ds',
            DumpTable (D:=NlAttr.Decoder) false checkMessageSpec kernelOk
              noControlConnection x02 dumpAllState
            = Ok (Failed
                    "error dumping conntrack table, could not open netlink socket: operation not permitted")
                 ds'
            /\ handles ds' = [NsClose 4]).
  { eexists. split; [vm_compute; reflexivity|reflexivity]. }
  destruct Hrun as (ds' & Hrun & Hh).
  destruct (DumpTable_failure (D:=NlAttr.Decoder) false checkMessageSpec
              kernelOk noControlConnection x02 dumpAllState ds' _ Hrun)
    as (Hc & _).
  exists ds'. repeat split; assumption.
Defined.

(** When the socket of the root namespace delivers a batch and nothing
    more, the worker is blocked with everything open. *)
Lemma DumpTable_stuck_witness :
  exists ds',
    DumpTable (D:=NlAttr.Decoder) false checkMessageSpec kernelOk endlessDump
      x02 dumpAllState = Ok Stuck ds'
    /\ closed (world (consumer ds')) = false
    /\ handles ds' = [NsDial 4].
Proof.
  assert (Hrun : exists ds',
            DumpTable (D:=NlAttr.Decoder) false checkMessageSpec kernelOk
              endlessDump x02 dumpAllState = Ok Stuck ds').
  { eexists. vm_compute. reflexivity. }
  destruct Hrun as (ds' & Hrun).
  destruct (DumpTable_stuck (D:=NlAttr.Decoder) false checkMessageSpec kernelOk
              endlessDump x02 dumpAllState ds' Hrun)
    as (Hcl & rootNS & Hroot & Hh).
  exists ds'. split; [exact Hrun|]. split; [exact Hcl|].
  injection Hroot as <-. exact Hh.
Defined.
